(** * tutorBot: payment reconciliation core

    A shallow embedding of the payment handlers of the bot
    ([bot/pricing.py], [bot/handlers/payments.py],
    [bot/handlers/payments_old.py], [bot/handlers/admin/admin.py]) and the
    properties of the month-paid ledger, the balance account and the
    pricing resolver.

    Python [str] values are sequences of Unicode code points, the database
    tables are finite maps and an append-only list, and a handler is a
    computation in a state-and-exception monad over the database and the
    log of messages handed to the messaging transport. *)

From Stdlib Require Import ZArith QArith Lia List String Ascii.
From stdpp Require Import base option list gmap.

Local Open Scope Z_scope.

(** ** Python strings *)

(** A Python [str]: its code points. *)
Abbreviation pystr := (list N).

Module Py.

Abbreviation str := (list N).

(** Decoding of the UTF-8 bytes of a source literal into code points. *)
Fixpoint utf8_decode (bs : list N) : str :=
  match bs with
  | [] => []
  | b0 :: r0 =>
      if (b0 <? 128)%N then b0 :: utf8_decode r0
      else if (b0 <? 224)%N then
        match r0 with
        | b1 :: r1 => ((b0 - 192) * 64 + (b1 - 128))%N :: utf8_decode r1
        | _ => []
        end
      else if (b0 <? 240)%N then
        match r0 with
        | b1 :: b2 :: r2 =>
            ((b0 - 224) * 4096 + (b1 - 128) * 64 + (b2 - 128))%N :: utf8_decode r2
        | _ => []
        end
      else
        match r0 with
        | b1 :: b2 :: b3 :: r3 =>
            ((b0 - 240) * 262144 + (b1 - 128) * 4096 + (b2 - 128) * 64 + (b3 - 128))%N
              :: utf8_decode r3
        | _ => []
        end
  end.

Fixpoint bytes_of (s : string) : list N :=
  match s with
  | EmptyString => []
  | String a r => N_of_ascii a :: bytes_of r
  end.

(** [u "..."] is the Python literal ['...']. *)
Definition u (s : string) : str := utf8_decode (bytes_of s).

Fixpoint eqb (a b : str) : bool :=
  match a, b with
  | [], [] => true
  | x :: a', y :: b' => (x =? y)%N && eqb a' b'
  | _, _ => false
  end.

(** [str.lower()] on one code point: ASCII, Latin-1 and the Cyrillic block,
    which cover the alphabets of the class labels and of every keyword of
    the price table; other code points are left as they are. *)
Definition lower_cp (c : N) : N :=
  if ((65 <=? c) && (c <=? 90))%N then (c + 32)%N
  else if ((192 <=? c) && (c <=? 222) && negb (c =? 215))%N then (c + 32)%N
  else if ((1024 <=? c) && (c <=? 1039))%N then (c + 80)%N
  else if ((1040 <=? c) && (c <=? 1071))%N then (c + 32)%N
  else c.

Definition lower (s : str) : str := map lower_cp s.

Definition in_range (lo hi c : N) : bool := ((lo <=? c) && (c <=? hi))%N.

(** [str.isspace()] on one code point. *)
Definition isspace (c : N) : bool :=
  in_range 9 13 c || in_range 28 32 c || (c =? 133)%N || (c =? 160)%N
  || (c =? 5760)%N || in_range 8192 8202 c || in_range 8232 8233 c
  || (c =? 8239)%N || (c =? 8287)%N || (c =? 12288)%N.

Fixpoint lstrip (s : str) : str :=
  match s with
  | c :: r => if isspace c then lstrip r else s
  | [] => []
  end.

(** [str.strip()] *)
Definition strip (s : str) : str := rev (lstrip (rev (lstrip s))).

Fixpoint startswith (s p : str) {struct p} : bool :=
  match p, s with
  | [], _ => true
  | x :: p', y :: s' => (x =? y)%N && startswith s' p'
  | _ :: _, [] => false
  end.

(** [needle in hay] *)
Fixpoint contains (needle hay : str) : bool :=
  startswith hay needle ||
  match hay with
  | [] => false
  | _ :: r => contains needle r
  end.

(** [needle] occurs in [hay] as a contiguous run of code points. *)
Definition substring (needle hay : str) : Prop :=
  ∃ pre post, hay = pre ++ needle ++ post.

(** [s.split(sep)] for a one-character separator. *)
Fixpoint split_aux (sep : N) (s cur : str) : list str :=
  match s with
  | [] => [rev cur]
  | c :: r => if (c =? sep)%N then rev cur :: split_aux sep r []
              else split_aux sep r (c :: cur)
  end.

Definition split (sep : ascii) (s : str) : list str := split_aux (N_of_ascii sep) s [].
Arguments split sep%_char s.

(** [s.replace(a, b)] for one-character arguments. *)
Definition replace (a b : ascii) (s : str) : str :=
  map (fun c => if (c =? N_of_ascii a)%N then N_of_ascii b else c) s.
Arguments replace (a b)%_char s.

Definition isdigit (c : N) : bool := in_range 48 57 c.

Fixpoint digits_value (acc : Z) (s : str) : option Z :=
  match s with
  | [] => Some acc
  | c :: r => if isdigit c then digits_value (acc * 10 + (Z.of_N c - 48)) r else None
  end.

Definition nat_literal (s : str) : option Z :=
  match s with
  | [] => None
  | _ => digits_value 0 s
  end.

(** [int(s)]: surrounding whitespace, an optional sign and ASCII decimal
    digits; [None] stands for [ValueError]. The strings handed to [int] in
    the handlers are pieces of a [split('_')], so the underscore grouping
    that [int] also accepts cannot occur. *)
Definition int (s : str) : option Z :=
  match strip s with
  | 45%N :: r => Z.opp <$> nat_literal r
  | 43%N :: r => nat_literal r
  | r => nat_literal r
  end.

End Py.

Abbreviation u := Py.u.

(** ** The pricing resolver ([bot/pricing.py]) *)

Module Pricing.

Record plan := Plan {
  name : pystr;
  price : Z;
  description : pystr;
  keywords : list pystr
}.

(** [PRICING_CONFIG]: a dict literal, iterated in insertion order. *)
Definition PRICING_CONFIG : list (pystr * plan) :=
  [ (u "oge_9",
      Plan (u "💯ОГЭ(9 класс)") 5650 (u "2 часа / 1 раз в неделю")
           [u "9"; u "oge"; u "огэ"; u "9 класс"]);
    (u "ege_base",
      Plan (u "💯ЕГЭ База") 5650 (u "2 часа / 1 раз в неделю")
           [u "егэ база"; u "ege base"; u "база"]);
    (u "class_7",
      Plan (u "💯7 класс") 5650 (u "2 часа / 1 раз в неделю")
           [u "7"; u "7 класс"]);
    (u "class_8",
      Plan (u "💯8 класс (Алгебра + Геометрия)") 5650 (u "2 часа / 1 раз в неделю")
           [u "8"; u "8 класс"]);
    (u "ege_profile",
      Plan (u "💯ЕГЭ Профиль 11 класс") 7900
           (u "4 часа в неделю + дом.задания + возможно Zoom онлайн занятие 1 раз/неделю")
           [u "11"; u "11 класс"; u "егэ профиль"; u "ege profile"; u "профиль"]);
    (u "class_10",
      Plan (u "💯10 класс") 7000 (u "3 часа в неделю")
           [u "10"; u "10 класс"]);
    (u "class_5_6",
      Plan (u "💯5, 6 класс") 3670 (u "1 час / 1 раз в неделю")
           [u "5"; u "6"; u "5 класс"; u "6 класс"]);
    (u "university_course_1",
      Plan (u "🎓1 курс ВУЗа") 1 (u "Студент 1 курса ВУЗа")
           [u "1 курс"; u "course_1"; u "1"]);
    (u "university_course_2",
      Plan (u "🎓2 курс ВУЗа") 1 (u "Студент 2 курса ВУЗа")
           [u "2 курс"; u "course_2"; u "2"]);
    (u "university_course_3",
      Plan (u "🎓3 курс ВУЗа") 1 (u "Студент 3 курса ВУЗа")
           [u "3 курс"; u "course_3"; u "3"]);
    (u "university_course_4",
      Plan (u "🎓4 курс ВУЗа") 1 (u "Студент 4 курса ВУЗа")
           [u "4 курс"; u "course_4"; u "4"]);
    (u "university_course_5",
      Plan (u "🎓5 курс ВУЗа") 1 (u "Студент 5 курса ВУЗа")
           [u "5 курс"; u "course_5"; u "5"]);
    (u "university_course_6",
      Plan (u "🎓6 курс ВУЗа") 1 (u "Студент 6 курса ВУЗа")
           [u "6 курс"; u "course_6"; u "6"]) ].

(** The dict returned by [get_price_by_class]. *)
Record price_info := PriceInfo {
  pi_key : pystr;
  pi_name : pystr;
  pi_price : Z;
  pi_description : pystr
}.

Definition info_of (entry : pystr * plan) : price_info :=
  PriceInfo entry.1 (name entry.2) (price entry.2) (description entry.2).

(** The inner loop: [for keyword in price_data['keywords']: if keyword in
    class_info_lower: return ...]. *)
Fixpoint any_keyword (kws : list pystr) (label : pystr) : bool :=
  match kws with
  | [] => false
  | kw :: r => if Py.contains kw label then true else any_keyword r label
  end.

(** The outer loop over [PRICING_CONFIG.items()]. *)
Fixpoint scan (table : list (pystr * plan)) (label : pystr) : option price_info :=
  match table with
  | [] => None
  | entry :: r =>
      if any_keyword (keywords entry.2) label then Some (info_of entry)
      else scan r label
  end.

(** A plan matches a label when one of its keywords occurs in it. *)
Definition matches (label : pystr) (entry : pystr * plan) : Prop :=
  ∃ kw, kw ∈ keywords entry.2 ∧ Py.substring kw label.

(** [entry] is the first plan of [table], in its order, that matches. *)
Definition first_match (table : list (pystr * plan)) (label : pystr)
    (entry : pystr * plan) : Prop :=
  ∃ earlier later, table = earlier ++ entry :: later
    ∧ matches label entry ∧ Forall (λ e, ¬ matches label e) earlier.

(** [get_price_by_class(class_info)]; the argument may be [None]. *)
Definition get_price_by_class (class_info : option pystr) : option price_info :=
  match class_info with
  | None => None
  | Some [] => None
  | Some s =>
      let class_info_lower := Py.strip (Py.lower s) in
      scan PRICING_CONFIG class_info_lower
  end.

End Pricing.

(** ** [decimal.Decimal] *)

Module Dec.

(** A [Decimal] value: a finite number (kept as an exact rational; sums and
    differences of the amounts handled here are exact in the default
    context), an infinity or a NaN. *)
Inductive Decimal :=
| Fin (q : Q)
| Inf (negative : bool)
| NaN.

(** Leading ASCII digits of a string and what follows them. *)
Fixpoint span_digits (s : pystr) : pystr * pystr :=
  match s with
  | c :: r => if Py.isdigit c then let '(d, t) := span_digits r in (c :: d, t)
              else ([], s)
  | [] => ([], [])
  end.

Definition digits_or_zero (s : pystr) : Z := default 0 (Py.digits_value 0 s).

(** [m * 10 ^ e] *)
Definition scale10 (m e : Z) : Q :=
  if 0 <=? e then inject_Z (m * 10 ^ e)
  else Qmake m (Z.to_pos (10 ^ (- e))).

(** The exponent part (the letter e, an optional sign, digits), or nothing. *)
Definition parse_exponent (s : pystr) : option Z :=
  match s with
  | [] => Some 0
  | 101%N :: r =>
      match r with
      | 45%N :: ds => Z.opp <$> Py.nat_literal ds
      | 43%N :: ds => Py.nat_literal ds
      | ds => Py.nat_literal ds
      end
  | _ => None
  end.

(** The numeric alternative of the grammar: digits, an optional point and
    more digits, an optional exponent; at least one digit before the
    exponent. *)
Definition parse_number (s : pystr) : option Q :=
  let '(ip, r1) := span_digits s in
  let '(fp, r2) :=
    match r1 with
    | 46%N :: r => span_digits r
    | _ => ([], r1)
    end in
  match ip ++ fp with
  | [] => None
  | ds => e ← parse_exponent r2;
          Some (scale10 (digits_or_zero ds) (e - Z.of_nat (length fp)))
  end.

(** The NaN alternative: an optional s, nan, optional diagnostic digits. *)
Definition is_nan_literal (s : pystr) : bool :=
  let body := match s with 115%N :: r => r | _ => s end in
  Py.startswith body (u "nan") && forallb Py.isdigit (drop 3 body).

(** [Decimal(s)] for a [str]: surrounding whitespace and underscores are
    dropped, the match is case-insensitive; [None] stands for the
    [decimal.InvalidOperation] raised on a malformed string. *)
Definition of_str (s : pystr) : option Decimal :=
  let s1 := Py.lower (filter (λ c, c ≠ 95%N) (Py.strip s)) in
  let '(neg, body) :=
    match s1 with
    | 45%N :: r => (true, r)
    | 43%N :: r => (false, r)
    | _ => (false, s1)
    end in
  if Py.eqb body (u "inf") || Py.eqb body (u "infinity") then Some (Inf neg)
  else if is_nan_literal body then Some NaN
  else q ← parse_number body; Some (Fin (if neg then Qopp q else q)).

(** [d <= 0]; comparing a NaN signals [InvalidOperation] ([None]). *)
Definition le_zero (d : Decimal) : option bool :=
  match d with
  | Fin q => Some (Qle_bool q 0)
  | Inf negative => Some negative
  | NaN => None
  end.

(** [b + d] for a finite [b]. *)
Definition add (b : Q) (d : Decimal) : Decimal :=
  match d with
  | Fin q => Fin (b + q)
  | Inf negative => Inf negative
  | NaN => NaN
  end.

End Dec.

(** ** The tables ([bot.models]) and the messaging transport *)

(** A value of a gateway response: absent/[None], a string, or any other
    JSON value (kept by its printed form). *)
Inductive pyval :=
| VNone
| VStr (s : pystr)
| VJson (repr : pystr).

(** A response dict of the gateway client. *)
Abbreviation pydict := (list (pystr * pyval)).

(** [d.get(k)] *)
Fixpoint dict_get (d : pydict) (k : pystr) : pyval :=
  match d with
  | [] => VNone
  | (k', v) :: r => if Py.eqb k' k then v else dict_get r k
  end.

(** A formatted string: its literal parts and the interpolated values. *)
Inductive piece :=
| Lit (s : string)
| FStr (s : pystr)
| FOpt (s : option pystr)
| FVal (v : pyval)
| FDec (q : Q)
| FInt (z : Z).

Abbreviation text := (list piece).

(** A row of User. [balance] is a finite [Decimal], kept exact. The class
    label is read as [course_or_class] by the payment handlers and as
    [class_number] by the admin handlers. *)
Record User := mkUser {
  telegram_id : pystr;
  full_name : option pystr;
  is_admin : bool;
  is_registered : bool;
  course_or_class : option pystr;
  class_number : option pystr;
  balance : Q
}.

Record Payment := mkPayment {
  pay_user : pystr;
  yookassa_payment_id : pystr;
  amount : Q;
  status : pyval;
  pay_description : text;
  payment_month : Z;
  payment_year : Z;
  pay_pricing_plan : pystr;
  payment_method : pyval
}.

Record PaymentHistory := mkHistory {
  h_user : pystr;
  h_payment : option pystr;
  month : Z;
  year : Z;
  amount_paid : Q;
  pricing_plan : pystr;
  payment_type : pystr;
  h_status : pystr
}.

(** The database. [users] is keyed by [telegram_id] and [payments] by
    [yookassa_payment_id] (both unique); [history] is the PaymentHistory
    table in insertion order; [admin_states] holds, per [admin_id], the
    [data['student_id']] of its AdminState row with state
    ['waiting_balance_amount'] (the only state the handlers use). *)
Record DB := mkDB {
  users : gmap pystr User;
  payments : gmap pystr Payment;
  history : list PaymentHistory;
  admin_states : gmap pystr pystr
}.

Inductive markup :=
| ADMIN_MARKUP
| UNIVERSAL_BUTTONS
| payment_menu_keyboard
| check_payment_keyboard (payment_id : pystr) (month year : Z).

(** What a handler hands to the transport. [edit_message_text] and
    [answer_callback_query] address the chat and the callback of the event
    being handled; [send_message] names its recipient. *)
Inductive recipient :=
| this_chat
| chat_of (telegram_id : pystr).

Inductive action :=
| answer_callback_query (t : text)
| edit_message_text (t : text) (m : markup)
| send_message (to : recipient) (t : text) (m : option markup).

(** A callback query and a text message: the sender and the payload.
    [from_user] is [str(call.from_user.id)]. *)
Record CallbackQuery := mkCall { from_user : pystr; data : pystr }.
Record Message := mkMsg { msg_from_user : pystr; msg_text : pystr }.

(** A response of [YooKassaClient.create_payment]. *)
Record created := mkCreated {
  created_id : pystr;
  created_status : pyval;
  confirmation_url : option pystr
}.

(** What the handlers take from outside: the month names of
    [bot.keyboards], [TEST_PRICE], the two calls of the gateway client
    [bot.yookassa_client] (a falsy answer is [None]), and whether the
    database accepts the insertion of a PaymentHistory row. *)
Record Env := mkEnv {
  MONTH_NAMES : Z -> option pystr;
  TEST_PRICE : Q;
  create_payment : Q -> text -> pystr * Z * Z * pystr -> option created;
  get_payment : pystr -> option pydict;
  history_insert_ok : bool
}.

(** ** Handlers as computations *)

Inductive exn :=
| ValueError
| IndexError
| KeyError
| InvalidOperation
| User_DoesNotExist
| Payment_DoesNotExist
| DatabaseError.

(** How a block ends: it falls through with a value, executes [return],
    or raises. *)
Inductive outcome (A : Type) :=
| Normal (a : A)
| Returned
| Raised (e : exn).
Arguments Normal {A} a.
Arguments Returned {A}.
Arguments Raised {A} e.

Record world := mkWorld { db : DB; sent : list action }.

Definition M (A : Type) : Type := world -> outcome A * world.

#[export] Instance M_ret : MRet M := λ A a w, (Normal a, w).

#[export] Instance M_bind : MBind M := λ A B f m w,
  match m w with
  | (Normal a, w') => f a w'
  | (Returned, w') => (Returned, w')
  | (Raised e, w') => (Raised e, w')
  end.

Definition return_ {A} : M A := λ w, (Returned, w).
Definition raise {A} (e : exn) : M A := λ w, (Raised e, w).
Definition pass : M unit := mret tt.

(** [try: body except ...: handler]; [handler e = None] when no clause
    matches [e]. A [return] in the body leaves the function. *)
Definition try_except {A} (body : M A) (handler : exn -> option (M A)) : M A :=
  λ w, match body w with
       | (Raised e, w') =>
           match handler e with
           | Some h => h w'
           | None => (Raised e, w')
           end
       | r => r
       end.

(** [except Exception] *)
Definition except_Exception {A} (h : M A) : exn -> option (M A) := λ _, Some h.

Definition get_db : M DB := λ w, (Normal (db w), w).
Definition set_db (d : DB) : M unit := λ w, (Normal tt, mkWorld d (sent w)).
Definition emit (a : action) : M unit := λ w, (Normal tt, mkWorld (db w) (sent w ++ [a])).

(** A value or the exception its absence raises. *)
Definition or_raise {A} (e : exn) (o : option A) : M A :=
  match o with
  | Some a => mret a
  | None => raise e
  end.

(** Running a handler from a database: the database left behind, the
    messages sent, and the exception that escaped, if any. *)
Definition run (h : M unit) (d : DB) : DB * list action * option exn :=
  match h (mkWorld d []) with
  | (Raised e, w) => (db w, sent w, Some e)
  | (_, w) => (db w, sent w, None)
  end.

(** A Python function body: [return] ends the function, not its caller. *)
Definition def_ (body : M unit) : M unit :=
  λ w, match body w with
       | (Returned, w') => (Normal tt, w')
       | r => r
       end.

(** *** The ORM calls *)

Definition User_get (tid : pystr) : M User :=
  d ← get_db; or_raise User_DoesNotExist (users d !! tid).

(** [user.save()]: the row of this [telegram_id] takes the object's fields. *)
Definition User_save (usr : User) : M unit :=
  d ← get_db;
  set_db (mkDB (<[telegram_id usr := usr]> (users d)) (payments d) (history d)
               (admin_states d)).

Definition Payment_get (pid : pystr) : M Payment :=
  d ← get_db; or_raise Payment_DoesNotExist (payments d !! pid).

(** [payment.save()] and [Payment.objects.create(...)] *)
Definition Payment_save (p : Payment) : M unit :=
  d ← get_db;
  set_db (mkDB (users d) (<[yookassa_payment_id p := p]> (payments d)) (history d)
               (admin_states d)).

(** [PaymentHistory.objects.create(...)]: appends the row, or raises when
    the database refuses the insertion. *)
Definition PaymentHistory_create (env : Env) (r : PaymentHistory) : M unit :=
  if history_insert_ok env then
    d ← get_db;
    set_db (mkDB (users d) (payments d) (history d ++ [r]) (admin_states d))
  else raise DatabaseError.

(** [admin_state.delete()] *)
Definition AdminState_delete (admin_id : pystr) : M unit :=
  d ← get_db;
  set_db (mkDB (users d) (payments d) (history d) (delete admin_id (admin_states d))).

(** Modelled from the spec: [PaymentHistory.is_month_paid] of [bot/models.py],
    which is not among the sources. The spec's guard: a History Record with
    status completed exists for (student, month, year). *)
Definition is_month_paid (d : DB) (user : User) (m y : Z) : bool :=
  existsb (λ r, Py.eqb (h_user r) (telegram_id user) && (month r =? m) && (year r =? y)
                && Py.eqb (h_status r) (u "completed"))
          (history d).

(** Modelled from the spec: the default of the PaymentHistory field
    [payment_type], declared in [bot/models.py], which is not among the
    sources. The spec's payment types are card, balance and cash; the
    gateway flow, which passes none, pays by card. *)
Definition default_payment_type : pystr := u "card".

(** Modelled from the spec: the default of the PaymentHistory field
    [status], declared in [bot/models.py], which is not among the sources.
    The spec: the status is always completed once a record is written. *)
Definition default_status : pystr := u "completed".

(** *** Helpers *)

(** [MONTH_NAMES[month]] *)
Definition month_name (env : Env) (m : Z) : M pystr :=
  or_raise KeyError (MONTH_NAMES env m).

(** [parts[i]] *)
Definition index (parts : list pystr) (i : nat) : M pystr :=
  or_raise IndexError (parts !! i).

(** [int(s)] *)
Definition int_ (s : pystr) : M Z := or_raise ValueError (Py.int s).

(** [v == s] for a string literal [s] *)
Definition is_str (v : pyval) (s : pystr) : bool :=
  match v with
  | VStr s' => Py.eqb s' s
  | _ => false
  end.

(** [x or dflt] for an optional string *)
Definition or_str (x : option pystr) (dflt : pystr) : pystr :=
  match x with
  | Some (c :: r) => c :: r
  | _ => dflt
  end.

Definition with_balance (usr : User) (b : Q) : User :=
  mkUser (telegram_id usr) (full_name usr) (is_admin usr) (is_registered usr)
         (course_or_class usr) (class_number usr) b.

(** [a < b] on finite decimals *)
Definition Qlt_bool (a b : Q) : bool := negb (Qle_bool b a).

Definition answer (t : text) : M unit := emit (answer_callback_query t).

(** [payment.status = 'succeeded'; payment.payment_method =
    payment_info.get('payment_method', {})] *)
Definition succeeded_payment (payment : Payment) (payment_info : pydict) : Payment :=
  mkPayment (pay_user payment) (yookassa_payment_id payment) (amount payment)
    (VStr (u "succeeded")) (pay_description payment) (payment_month payment)
    (payment_year payment) (pay_pricing_plan payment)
    (default (VJson (u "{}")) (snd <$> find (λ kv, Py.eqb kv.1 (u "payment_method"))
                                            payment_info)).

(** The price and the plan label of [handle_admin_mark_payment]: those of
    the resolved plan, or the base price when none is found. *)
Definition cash_price (class : option pystr) : Z * pystr :=
  match Pricing.get_price_by_class class with
  | Some price_info => (Pricing.pi_price price_info, Pricing.pi_name price_info)
  | None => (5000, u "стандартный тариф")
  end.

(** *** Notifications ([payments.py]) *)

Definition notify_payment_success (env : Env) (user_telegram_id : pystr)
    (m y : Z) (amt : Q) : M unit :=
  def_ (try_except
    (mn ← month_name env m;
     emit (send_message (chat_of user_telegram_id)
             [Lit "🎉 Оплата прошла успешно!\n\n";
              Lit "💰 Сумма: "; FDec amt; Lit " руб.\n";
              Lit "📅 Оплачен месяц: "; FStr mn; Lit " "; FInt y; Lit "\n";
              Lit "✅ Теперь вы можете посещать занятия в этом месяце!"]
             (Some payment_menu_keyboard)))
    (except_Exception pass)).

(** The current time, as [notify_admins_about_payment] prints it, is not
    part of the model: the notice ends where the time would follow. *)
Definition notify_admins_about_payment (env : Env) (user : User)
    (m y : Z) (amt : Q) : M unit :=
  def_ (try_except
    (d ← get_db;
     let admins := filter (λ a, is_admin a = true) (map_to_list (users d)).*2 in
     match admins with
     | [] => return_
     | _ =>
         mn ← month_name env m;
         let t := [Lit "💰 Новая оплата!\n\n";
                   Lit "👤 Ученик: "; FOpt (full_name user); Lit "\n";
                   Lit "🆔 Telegram ID: "; FStr (telegram_id user); Lit "\n";
                   Lit "📚 Класс: "; FOpt (course_or_class user); Lit "\n";
                   Lit "📅 Месяц: "; FStr mn; Lit " "; FInt y; Lit "\n";
                   Lit "💰 Сумма: "; FDec amt; Lit " руб.\n";
                   Lit "⏰ Время: "] in
         foldr (λ a k, emit (send_message (chat_of (telegram_id a)) t None);; k)
               pass admins
     end)
    (except_Exception pass)).

(** *** The gateway-backed flow ([payments.py]) *)

Definition caught_ValueError_or_DoesNotExist (h : M unit) (e : exn) : option (M unit) :=
  match e with
  | ValueError | User_DoesNotExist => Some h
  | _ => None
  end.

(** [confirm_payment]: callback data [confirm_payment_{month}_{year}]. *)
Definition confirm_payment (env : Env) (call : CallbackQuery) : M unit :=
  def_ (try_except
    (match Py.split "_" (data call) with
     | [_; _; p2; p3] =>
         m ← int_ p2;
         y ← int_ p3;
         user ← User_get (from_user call);
         d ← get_db;
         if is_month_paid d user m y then
           answer [Lit "Этот месяц уже оплачен!"];; return_
         else
           match Pricing.get_price_by_class (course_or_class user) with
           | None => answer [Lit "Ошибка определения цены"];; return_
           | Some price_info =>
               let amt := TEST_PRICE env in
               mn ← month_name env m;
               let description :=
                 [Lit "Оплата занятий за "; FStr mn; Lit " "; FInt y; Lit " - ";
                  FStr (Pricing.pi_name price_info)] in
               let metadata := (telegram_id user, m, y, Pricing.pi_key price_info) in
               match create_payment env amt description metadata with
               | None =>
                   emit (edit_message_text
                           [Lit "❌ Ошибка при создании платежа.\n\n";
                            Lit "Возможные причины:\n";
                            Lit "• Неправильные настройки ЮKassa\n";
                            Lit "• Проблемы с интернет-соединением\n";
                            Lit "• Ошибка на стороне ЮKassa\n\n";
                            Lit "Попробуйте позже или обратитесь к администратору."]
                           UNIVERSAL_BUTTONS);;
                   return_
               | Some response =>
                   Payment_save (mkPayment (telegram_id user) (created_id response) amt
                                   (created_status response) description m y
                                   (Pricing.pi_key price_info) VNone);;
                   _ ← or_raise KeyError (confirmation_url response);
                   emit (edit_message_text
                           [Lit "✅ Платеж создан!\n\n";
                            Lit "💰 Сумма: "; FDec amt; Lit " руб.\n";
                            Lit "📅 За месяц: "; FStr mn; Lit " "; FInt y; Lit "\n";
                            Lit "💯 Тариф: "; FStr (Pricing.pi_name price_info); Lit "\n\n";
                            Lit "1️⃣ Перейдите по ссылке и оплатите\n";
                            Lit "2️⃣ После оплаты нажмите 'Проверить оплату'\n";
                            Lit "3️⃣ Получите подтверждение"]
                           (check_payment_keyboard (created_id response) m y))
               end
           end
     | _ => answer [Lit "Ошибка в данных"];; return_
     end)
    (caught_ValueError_or_DoesNotExist (answer [Lit "Ошибка обработки"]))).

(** The [succeeded] branch of [check_payment]. *)
Definition commit_succeeded (env : Env) (user : User) (payment_id : pystr)
    (payment_info : pydict) (m y : Z) : M unit :=
  try_except
    (payment ← Payment_get payment_id;
     let payment := succeeded_payment payment payment_info in
     Payment_save payment;;
     PaymentHistory_create env
       (mkHistory (telegram_id user) (Some (yookassa_payment_id payment)) m y
                  (amount payment) (pay_pricing_plan payment)
                  default_payment_type default_status);;
     notify_payment_success env (telegram_id user) m y (amount payment);;
     notify_admins_about_payment env user m y (amount payment);;
     mn ← month_name env m;
     emit (edit_message_text
             [Lit "🎉 Оплата подтверждена!\n\n";
              Lit "💰 Сумма: "; FDec (amount payment); Lit " руб.\n";
              Lit "📅 Месяц: "; FStr mn; Lit " "; FInt y; Lit "\n";
              Lit "✅ Теперь вы можете посещать занятия в этом месяце!"]
             payment_menu_keyboard))
    (λ e, match e with
          | Payment_DoesNotExist =>
              Some (answer [Lit "Платеж не найден в базе данных"];; return_)
          | _ => None
          end).

(** [check_payment]: callback data [check_payment_{payment_id}_{month}_{year}]. *)
Definition check_payment (env : Env) (call : CallbackQuery) : M unit :=
  def_ (try_except
    (match Py.split "_" (data call) with
     | [_; _; payment_id; p3; p4] =>
         m ← int_ p3;
         y ← int_ p4;
         user ← User_get (from_user call);
         d ← get_db;
         if is_month_paid d user m y then
           mn ← month_name env m;
           answer [Lit "Месяц "; FStr mn; Lit " "; FInt y; Lit " уже оплачен!"];;
           return_
         else
           match get_payment env payment_id with
           | None | Some [] =>
               answer [Lit "Ошибка получения информации о платеже"];; return_
           | Some payment_info =>
               let payment_status := dict_get payment_info (u "status") in
               if is_str payment_status (u "succeeded") then
                 commit_succeeded env user payment_id payment_info m y
               else if is_str payment_status (u "pending") then
                 answer [Lit "Платеж еще не завершен. Попробуйте позже."]
               else if is_str payment_status (u "canceled") then
                 answer [Lit "Платеж отменен."]
               else
                 answer [Lit "Статус платежа: "; FVal payment_status]
           end
     | _ => answer [Lit "Ошибка в данных"];; return_
     end)
    (caught_ValueError_or_DoesNotExist (answer [Lit "Ошибка обработки"]))).

(** *** The balance-backed flow ([payments_old.py]) *)

(** [select_balance_payment_month]: callback data
    [pay_balance_month_{month}_{year}]. *)
Definition select_balance_payment_month (env : Env) (call : CallbackQuery) : M unit :=
  def_ (try_except
    (match Py.split "_" (data call) with
     | [_; _; _; p3; p4] =>
         m ← int_ p3;
         y ← int_ p4;
         user ← User_get (from_user call);
         d ← get_db;
         if is_month_paid d user m y then
           mn ← month_name env m;
           answer [Lit "Месяц "; FStr mn; Lit " "; FInt y; Lit " уже оплачен!"];;
           return_
         else
           match Pricing.get_price_by_class (course_or_class user) with
           | None => answer [Lit "Ошибка определения цены"];; return_
           | Some price_info =>
               let amt := inject_Z (Pricing.pi_price price_info) in
               if Qlt_bool (balance user) amt then
                 answer [Lit "Недостаточно средств на балансе!\nТребуется: "; FDec amt;
                         Lit " ₽\nДоступно: "; FDec (balance user); Lit " ₽"];;
                 return_
               else
                 let user := with_balance user (balance user - amt) in
                 User_save user;;
                 PaymentHistory_create env
                   (mkHistory (telegram_id user) None m y amt
                              (Pricing.pi_key price_info) (u "balance") (u "completed"));;
                 notify_payment_success env (telegram_id user) m y amt;;
                 notify_admins_about_payment env user m y amt;;
                 mn ← month_name env m;
                 emit (edit_message_text
                         [Lit "🎉 Оплата с баланса прошла успешно!\n\n";
                          Lit "👤 Ученик: "; FOpt (full_name user); Lit "\n";
                          Lit "📚 Класс: "; FOpt (course_or_class user); Lit "\n";
                          Lit "💯 Тариф: "; FStr (Pricing.pi_name price_info); Lit "\n";
                          Lit "📅 Месяц: "; FStr mn; Lit " "; FInt y; Lit "\n";
                          Lit "💰 Сумма: "; FDec amt; Lit " ₽\n";
                          Lit "💳 Остаток на балансе: "; FDec (balance user); Lit " ₽\n\n";
                          Lit "✅ Теперь вы можете посещать занятия в этом месяце!"]
                         payment_menu_keyboard)
           end
     | _ => answer [Lit "Ошибка в данных"];; return_
     end)
    (caught_ValueError_or_DoesNotExist (answer [Lit "Ошибка обработки"]))).

(** *** The admin handlers ([admin/admin.py]) *)

(** The decorator [admin_permission] for message handlers. *)
Definition admin_permission (func : Message -> M unit) (msg : Message) : M unit :=
  def_ (user ← User_get (msg_from_user msg);
        if negb (is_admin user) then
          emit (send_message (chat_of (msg_from_user msg))
                  [Lit "⛔ У вас нет администраторского доступа"] None);;
          return_
        else func msg).

(** The decorator [admin_permission_callback] for callback handlers. *)
Definition admin_permission_callback (func : CallbackQuery -> M unit)
    (call : CallbackQuery) : M unit :=
  def_ (try_except
    (user ← User_get (from_user call);
     if negb (is_admin user) then
       answer [Lit "⛔ У вас нет администраторского доступа"];; return_
     else func call)
    (λ e, match e with
          | User_DoesNotExist => Some (answer [Lit "⛔ Пользователь не найден"];; return_)
          | _ => None
          end)).

(** [student_id in ['student', 'admin', 'user']] *)
Definition is_service_word (s : pystr) : bool :=
  Py.eqb s (u "student") || Py.eqb s (u "admin") || Py.eqb s (u "user").

(** The body of [handle_admin_mark_payment]: callback data
    [admin_mark_payment_{student_id}_{month}_{year}]. *)
Definition handle_admin_mark_payment_body (env : Env) (call : CallbackQuery) : M unit :=
  def_ (try_except
    (let parts := Py.split "_" (data call) in
     if (length parts <? 5)%nat then
       answer [Lit "❌ Неверный формат данных"];; return_
     else
       p3 ← index parts 3;
       let student_id := Py.strip p3 in
       p4 ← index parts 4;
       let month_s := Py.strip p4 in
       p5 ← index parts 5;
       let year_s := Py.strip p5 in
       if Py.eqb student_id [] || is_service_word student_id then
         answer [Lit "❌ Неверный ID ученика"];; return_
       else
         student ← User_get student_id;
         let '(lesson_price, class_name) := cash_price (class_number student) in
         let student := with_balance student (balance student + inject_Z lesson_price) in
         User_save student;;
         m ← int_ month_s;
         y ← int_ year_s;
         PaymentHistory_create env
           (mkHistory (telegram_id student) None m y (inject_Z lesson_price)
                      class_name (u "cash") (u "completed"));;
         emit (edit_message_text
                 [Lit "✅ Оплата успешно отмечена!\n\n";
                  Lit "Ученик: "; FStr (or_str (full_name student) (u "Не указано")); Lit "\n";
                  Lit "Класс: "; FStr class_name; Lit "\n";
                  Lit "Месяц: "; FStr month_s; Lit "/"; FStr year_s; Lit "\n";
                  Lit "Сумма: "; FInt lesson_price; Lit " ₽\n";
                  Lit "💰 Зачислено на баланс: "; FInt lesson_price; Lit " ₽\n";
                  Lit "💳 Текущий баланс: "; FDec (balance student); Lit " ₽"]
                 ADMIN_MARKUP);;
         emit (send_message (chat_of (telegram_id student))
                 [Lit "✅ Администратор отметил вашу оплату за ";
                  FStr month_s; Lit "/"; FStr year_s; Lit "\n";
                  Lit "Тариф: "; FStr class_name; Lit "\n";
                  Lit "Сумма: "; FInt lesson_price; Lit " ₽\n";
                  Lit "💰 Зачислено на баланс: "; FInt lesson_price; Lit " ₽\n";
                  Lit "💳 Ваш баланс: "; FDec (balance student); Lit " ₽"]
                 None))
    (λ e, match e with
          | User_DoesNotExist => Some (answer [Lit "❌ Ученик не найден"])
          | _ => Some (answer [Lit "❌ Произошла ошибка"])
          end)).

Definition handle_admin_mark_payment (env : Env) : CallbackQuery -> M unit :=
  admin_permission_callback (handle_admin_mark_payment_body env).

(** [student.balance += amount; student.save()]: a balance that is not a
    finite number cannot be stored, the save raises. *)
Definition credit_and_save (student : User) (amt : Dec.Decimal) : M User :=
  match Dec.add (balance student) amt with
  | Dec.Fin b => let student := with_balance student b in
                 User_save student;; mret student
  | _ => raise InvalidOperation
  end.

(** The body of [handle_admin_text_input]. *)
Definition handle_admin_text_input_body (msg : Message) : M unit :=
  def_ (try_except
    (let admin_id := msg_from_user msg in
     d ← get_db;
     match admin_states d !! admin_id with
     | Some student_id =>
         try_except
           (amt ← or_raise InvalidOperation (Dec.of_str (Py.replace "," "." (msg_text msg)));
            nonpositive ← or_raise InvalidOperation (Dec.le_zero amt);
            if (nonpositive : bool) then
              emit (send_message this_chat
                      [Lit "❌ Сумма должна быть больше 0. Попробуйте еще раз:"] None);;
              return_
            else
              student ← User_get student_id;
              student ← credit_and_save student amt;
              AdminState_delete admin_id;;
              emit (send_message this_chat
                      [Lit "✅ Сумма успешно зачислена на баланс!\n\n";
                       Lit "Ученик: "; FStr (or_str (full_name student) (u "Не указано"));
                       Lit "\n";
                       Lit "💰 Зачислено: ";
                       FDec (match amt with Dec.Fin q => q | _ => 0 end); Lit " ₽\n";
                       Lit "💳 Новый баланс: "; FDec (balance student); Lit " ₽"]
                      (Some ADMIN_MARKUP));;
              emit (send_message (chat_of (telegram_id student))
                      [Lit "💰 На ваш баланс зачислено ";
                       FDec (match amt with Dec.Fin q => q | _ => 0 end); Lit " ₽\n";
                       Lit "💳 Ваш баланс: "; FDec (balance student); Lit " ₽"]
                      None))
           (λ e, match e with
                 | ValueError =>
                     Some (emit (send_message this_chat
                             [Lit "❌ Неверный формат суммы. Введите число (например: 1000 или 1000.50):"]
                             None))
                 | User_DoesNotExist =>
                     Some (emit (send_message this_chat
                             [Lit "❌ Ученик не найден. Операция отменена."]
                             (Some ADMIN_MARKUP));;
                           AdminState_delete admin_id)
                 | _ => None
                 end)
     | None => pass
     end)
    (except_Exception
       (emit (send_message this_chat [Lit "❌ Произошла ошибка. Попробуйте еще раз."]
                (Some ADMIN_MARKUP))))).

Definition handle_admin_text_input : Message -> M unit :=
  admin_permission handle_admin_text_input_body.

(** ** Vocabulary of the statements *)

(** The database a handler leaves behind. *)
Definition final_db (h : M unit) (d : DB) : DB := (run h d).1.1.

(** The messages it sends. *)
Definition messages (h : M unit) (d : DB) : list action := (run h d).1.2.

(** A computation that leaves the database alone and only adds messages. *)
Definition quiet {A} (m : M A) : Prop :=
  ∀ w, ∃ r out, m w = (r, mkWorld (db w) (sent w ++ out)).

(** ... and always falls through. *)
Definition silent (m : M unit) : Prop :=
  ∀ w, ∃ out, m w = (Normal tt, mkWorld (db w) (sent w ++ out)).

(** The completed History Records of one (student, month, year). *)
Definition completed_for (d : DB) (student : pystr) (m y : Z) : list PaymentHistory :=
  filter (λ r, h_user r = student ∧ month r = m ∧ year r = y ∧ h_status r = u "completed")
         (history d).

(** The invariant of the month-paid ledger: at most one completed History
    Record per (student, month, year). *)
Definition one_completed_per_month (d : DB) : Prop :=
  ∀ student m y, (length (completed_for d student m y) ≤ 1)%nat.

(** A computation that leaves the PaymentHistory table alone. *)
Definition history_stable {A} (m : M A) : Prop :=
  ∀ w, history (db (m w).2) = history (db w).

(** The balance mutation and the history write of one run, taken as a
    pair: both happened or neither did. *)
Definition pair_applied_or_not (d d' : DB) : Prop :=
  (users d' = users d ∧ history d' = history d)
  ∨ (users d' ≠ users d ∧ history d' ≠ history d).

(** How a run that pairs a balance mutation with a history write can end:
    nothing applied, the balance saved and the record appended, or the
    balance saved and no record, the write having failed. *)
Inductive pair_outcome (write_failed : Prop) (d d' : DB) : Prop :=
| nothing_applied :
    d' = d → pair_outcome write_failed d d'
| both_applied (usr : User) (r : PaymentHistory) :
    d' = mkDB (<[telegram_id usr := usr]> (users d)) (payments d) (history d ++ [r])
              (admin_states d) →
    pair_outcome write_failed d d'
| balance_only (usr : User) :
    write_failed →
    d' = mkDB (<[telegram_id usr := usr]> (users d)) (payments d) (history d)
              (admin_states d) →
    pair_outcome write_failed d d'.

(** ** Sample data *)

Module Sample.

Definition month_names (m : Z) : option pystr :=
  [u "Январь"; u "Февраль"; u "Март"; u "Апрель"; u "Май"; u "Июнь"; u "Июль";
   u "Август"; u "Сентябрь"; u "Октябрь"; u "Ноябрь"; u "Декабрь"] !! Z.to_nat (m - 1).

Definition gateway (status : pystr) (pid : pystr) : option pydict :=
  Some [(u "id", VStr pid); (u "status", VStr status)].

Definition env (status : pystr) (insert_ok : bool) : Env :=
  mkEnv month_names 1 (λ _ _ _, None) (gateway status) insert_ok.

Definition admin : User := mkUser (u "100") (Some (u "Админ")) true true None None 0.

Definition student (bal : Q) : User :=
  mkUser (u "123") (Some (u "Иван")) false true (Some (u "9 класс")) (Some (u "9 класс")) bal.

Definition people (bal : Q) : gmap pystr User :=
  <[u "100" := admin]> (<[u "123" := student bal]> ∅).

(** The intent of a gateway payment created for March 2025. *)
Definition intent : Payment :=
  mkPayment (u "123") (u "2d8b-000f") 1 (VStr (u "pending")) [] 3 2025 (u "oge_9") VNone.

Definition paid_march : PaymentHistory :=
  mkHistory (u "123") None 3 2025 5650 (u "oge_9") (u "balance") (u "completed").

Definition db (bal : Q) (h : list PaymentHistory) : DB :=
  mkDB (people bal) (<[u "2d8b-000f" := intent]> ∅) h ∅.

Definition db_waiting (bal : Q) (student_id : pystr) : DB :=
  mkDB (people bal) ∅ [] (<[u "100" := student_id]> ∅).

End Sample.

(** ** Further functions of the handlers' modules *)

(** [get_all_price_options()] of [bot/pricing.py]: the descriptors of all
    plans, in the order of the table. *)
Definition get_all_price_options : list Pricing.price_info :=
  map Pricing.info_of Pricing.PRICING_CONFIG.

(** Sample data: a gateway that creates the payment [2d8b-000f] and later
    reports it as succeeded. *)
Definition sample_gateway_env : Env :=
  mkEnv Sample.month_names 1
        (λ _ _ _, Some (mkCreated (u "2d8b-000f") (VStr (u "pending"))
                                  (Some (u "https://yoomoney.ru/checkout"))))
        (Sample.gateway (u "succeeded")) true.

(** *** The earlier gateway flow ([payments_old.py]) *)

Module Old.

(** [select_payment_month] of [payments_old.py]: callback data
    [pay_month_{month}_{year}]; it creates the gateway payment at once,
    for the price of the plan. *)
Definition select_payment_month (env : Env) (call : CallbackQuery) : M unit :=
  def_ (try_except
    (match Py.split "_" (data call) with
     | [_; _; p2; p3] =>
         m ← int_ p2;
         y ← int_ p3;
         user ← User_get (from_user call);
         d ← get_db;
         if is_month_paid d user m y then
           mn ← month_name env m;
           answer [Lit "Месяц "; FStr mn; Lit " "; FInt y; Lit " уже оплачен!"];;
           return_
         else
           match Pricing.get_price_by_class (course_or_class user) with
           | None => answer [Lit "Ошибка определения цены"];; return_
           | Some price_info =>
               let amt := inject_Z (Pricing.pi_price price_info) in
               mn ← month_name env m;
               let description :=
                 [Lit "Оплата занятий за "; FStr mn; Lit " "; FInt y; Lit " - ";
                  FStr (Pricing.pi_name price_info)] in
               let metadata := (telegram_id user, m, y, Pricing.pi_key price_info) in
               match create_payment env amt description metadata with
               | None =>
                   emit (edit_message_text
                           [Lit "❌ Ошибка при создании платежа.\n\n";
                            Lit "Возможные причины:\n";
                            Lit "• Неправильные настройки ЮKassa\n";
                            Lit "• Проблемы с интернет-соединением\n";
                            Lit "• Ошибка на стороне ЮKassa\n\n";
                            Lit "Попробуйте позже или обратитесь к администратору."]
                           UNIVERSAL_BUTTONS);;
                   return_
               | Some response =>
                   Payment_save (mkPayment (telegram_id user) (created_id response) amt
                                   (created_status response) description m y
                                   (Pricing.pi_key price_info) VNone);;
                   _ ← or_raise KeyError (confirmation_url response);
                   emit (edit_message_text
                           [Lit "✅ Платеж создан!\n\n";
                            Lit "👤 Ученик: "; FOpt (full_name user); Lit "\n";
                            Lit "📚 Класс: "; FOpt (course_or_class user); Lit "\n";
                            Lit "💯 Тариф: "; FStr (Pricing.pi_name price_info); Lit "\n";
                            Lit "📅 Месяц: "; FStr mn; Lit " "; FInt y; Lit "\n";
                            Lit "💰 Сумма: "; FDec amt; Lit " руб.\n\n";
                            Lit "1️⃣ Перейдите по ссылке и оплатите\n";
                            Lit "2️⃣ После оплаты нажмите 'Проверить оплату'\n";
                            Lit "3️⃣ Получите подтверждение"]
                           (check_payment_keyboard (created_id response) m y))
               end
           end
     | _ => answer [Lit "Ошибка в данных"];; return_
     end)
    (caught_ValueError_or_DoesNotExist (answer [Lit "Ошибка обработки"]))).

(** [confirm_payment] of [payments_old.py]: callback data
    [confirm_payment_{month}_{year}]. *)
Definition confirm_payment (env : Env) (call : CallbackQuery) : M unit :=
  def_ (try_except
    (match Py.split "_" (data call) with
     | [_; _; p2; p3] =>
         m ← int_ p2;
         y ← int_ p3;
         user ← User_get (from_user call);
         d ← get_db;
         if is_month_paid d user m y then
           answer [Lit "Этот месяц уже оплачен!"];; return_
         else
           match Pricing.get_price_by_class (course_or_class user) with
           | None => answer [Lit "Ошибка определения цены"];; return_
           | Some price_info =>
               let amt := inject_Z (Pricing.pi_price price_info) in
               mn ← month_name env m;
               let description :=
                 [Lit "Оплата занятий за "; FStr mn; Lit " "; FInt y; Lit " - ";
                  FStr (Pricing.pi_name price_info)] in
               let metadata := (telegram_id user, m, y, Pricing.pi_key price_info) in
               match create_payment env amt description metadata with
               | None =>
                   emit (edit_message_text
                           [Lit "❌ Ошибка при создании платежа.\n\n";
                            Lit "Возможные причины:\n";
                            Lit "• Неправильные настройки ЮKassa\n";
                            Lit "• Проблемы с интернет-соединением\n";
                            Lit "• Ошибка на стороне ЮKassa\n\n";
                            Lit "Попробуйте позже или обратитесь к администратору."]
                           UNIVERSAL_BUTTONS);;
                   return_
               | Some response =>
                   Payment_save (mkPayment (telegram_id user) (created_id response) amt
                                   (created_status response) description m y
                                   (Pricing.pi_key price_info) VNone);;
                   _ ← or_raise KeyError (confirmation_url response);
                   emit (edit_message_text
                           [Lit "✅ Платеж создан!\n\n";
                            Lit "💰 Сумма: "; FDec amt; Lit " руб.\n";
                            Lit "📅 За месяц: "; FStr mn; Lit " "; FInt y; Lit "\n";
                            Lit "💯 Тариф: "; FStr (Pricing.pi_name price_info); Lit "\n\n";
                            Lit "1️⃣ Перейдите по ссылке и оплатите\n";
                            Lit "2️⃣ После оплаты нажмите 'Проверить оплату'\n";
                            Lit "3️⃣ Получите подтверждение"]
                           (check_payment_keyboard (created_id response) m y))
               end
           end
     | _ => answer [Lit "Ошибка в данных"];; return_
     end)
    (caught_ValueError_or_DoesNotExist (answer [Lit "Ошибка обработки"]))).

End Old.

(** The description the gateway payment is created with:
    [f"Оплата занятий за {MONTH_NAMES[month]} {year} - {price_info['name']}"]. *)
Definition gateway_description (mn : pystr) (y : Z) (plan_name : pystr) : text :=
  [Lit "Оплата занятий за "; FStr mn; Lit " "; FInt y; Lit " - "; FStr plan_name].

(** The text shown when the gateway creates no payment. *)
Definition gateway_creation_failed : text :=
  [Lit "❌ Ошибка при создании платежа.\n\n";
   Lit "Возможные причины:\n";
   Lit "• Неправильные настройки ЮKassa\n";
   Lit "• Проблемы с интернет-соединением\n";
   Lit "• Ошибка на стороне ЮKassa\n\n";
   Lit "Попробуйте позже или обратитесь к администратору."].

(** The Payment row a creation handler stores for a gateway response. *)
Definition stored_intent (user : User) (response : created) (amt : Q) (mn : pystr)
    (m y : Z) (price_info : Pricing.price_info) : Payment :=
  mkPayment (telegram_id user) (created_id response) amt (created_status response)
            (gateway_description mn y (Pricing.pi_name price_info)) m y
            (Pricing.pi_key price_info) VNone.

(** What a creation handler has gone through when it stores a Payment of
    amount [amt]. *)
Definition creates_intent (env : Env) (call : CallbackQuery) (d : DB) (amt_of : Pricing.price_info -> Q)
    (d' : DB) : Prop :=
  ∃ a b p2 p3 m y user price_info mn response,
    Py.split "_" (data call) = [a; b; p2; p3]
    ∧ Py.int p2 = Some m ∧ Py.int p3 = Some y
    ∧ users d !! from_user call = Some user
    ∧ is_month_paid d user m y = false
    ∧ Pricing.get_price_by_class (course_or_class user) = Some price_info
    ∧ MONTH_NAMES env m = Some mn
    ∧ create_payment env (amt_of price_info)
        (gateway_description mn y (Pricing.pi_name price_info))
        (telegram_id user, m, y, Pricing.pi_key price_info) = Some response
    ∧ d' = mkDB (users d)
                (<[created_id response :=
                     stored_intent user response (amt_of price_info) mn m y price_info]>
                   (payments d))
                (history d) (admin_states d).

(** No balance is negative. *)
Definition balances_nonnegative (d : DB) : Prop :=
  map_Forall (λ _ usr, (0 <= balance usr)%Q) (users d).

(** The database after each of the handlers that write, run on [d]. *)
Definition after_handlers (env : Env) (call : CallbackQuery) (msg : Message) (d : DB)
    : list DB :=
  [final_db (check_payment env call) d;
   final_db (confirm_payment env call) d;
   final_db (Old.confirm_payment env call) d;
   final_db (Old.select_payment_month env call) d;
   final_db (select_balance_payment_month env call) d;
   final_db (handle_admin_mark_payment env call) d;
   final_db (handle_admin_text_input msg) d].

(** The users table is keyed by [telegram_id], the field [User.objects.get]
    looks users up by. *)
Definition keyed_by_id (d : DB) : Prop :=
  ∀ k usr, users d !! k = Some usr → telegram_id usr = k.

(** [d'] holds the users of [d], with no field but the balance changed. *)
Definition same_people (d d' : DB) : Prop :=
  ∀ k, option_Forall2 (λ a b, b = with_balance a (balance b)) (users d !! k) (users d' !! k).

(** ** The admin's choice of a payment method ([admin/admin.py])

    These two screens reply with keyboards of their own, so they are
    written by explicit state passing over the same database: a handler
    takes the database and gives the database and its replies. No
    exception leaves either body (each ends in [except Exception]), so the
    handlers of the [try] are the branches of the matches. *)

Module Ui.

(** The keyboards. The two generators are defined in [bot/keyboards.py],
    which is not among the sources: they are kept by name and argument.
    [InlineKeyboardMarkup] holds the buttons added to it, each with its
    text and callback data. *)
Inductive keyboard :=
| generate_admin_payment_method_keyboard (student_id : pystr)
| generate_admin_payment_months_keyboard (student_id : pystr)
| InlineKeyboardMarkup (buttons : list (string * pystr)).

Inductive reply :=
| answer_callback_query (t : text)
| edit_message_text (t : text) (k : keyboard).

Abbreviation handler := (CallbackQuery → DB → DB * list reply).

(** The decorator [admin_permission_callback]. *)
Definition admin_permission_callback (func : handler) : handler :=
  λ call d,
    match users d !! from_user call with
    | Some user =>
        if negb (is_admin user) then
          (d, [answer_callback_query [Lit "⛔ У вас нет администраторского доступа"]])
        else func call d
    | None => (d, [answer_callback_query [Lit "⛔ Пользователь не найден"]])
    end.

(** [AdminState.objects.update_or_create(admin_id=..., state='waiting_balance_amount',
    defaults={'data': {'student_id': student_id}})] *)
Definition AdminState_update_or_create (admin_id student_id : pystr) (d : DB) : DB :=
  mkDB (users d) (payments d) (history d) (<[admin_id := student_id]> (admin_states d)).

(** [handle_mark_payment_for_student]: the student id is the last part of
    the callback data. *)
Definition handle_mark_payment_for_student_body : handler :=
  λ call d,
    match last (Py.split "_" (data call)) with
    | None => (d, [answer_callback_query [Lit "❌ Произошла ошибка"]])
    | Some p =>
        let student_id := Py.strip p in
        if Py.eqb student_id [] || is_service_word student_id then
          (d, [answer_callback_query [Lit "❌ Неверный ID ученика"]])
        else
          match users d !! student_id with
          | None => (d, [answer_callback_query [Lit "❌ Ученик не найден"]])
          | Some student =>
              (d, [edit_message_text
                     [Lit "Выберите способ оплаты для ученика ";
                      FStr (or_str (full_name student) (u "Не указано")); Lit ":\n\n";
                      Lit "💳 Текущий баланс: "; FDec (balance student); Lit " ₽"]
                     (generate_admin_payment_method_keyboard student_id)])
          end
    end.

Definition handle_mark_payment_for_student : handler :=
  admin_permission_callback handle_mark_payment_for_student_body.

(** [handle_admin_payment_method_selection]: callback data
    [admin_month_payment_{student_id}] or [admin_balance_payment_{student_id}]. *)
Definition handle_admin_payment_method_selection_body : handler :=
  λ call d,
    match last (Py.split "_" (data call)) with
    | None => (d, [answer_callback_query [Lit "❌ Произошла ошибка"]])
    | Some p =>
        let student_id := Py.strip p in
        if Py.eqb student_id [] || is_service_word student_id then
          (d, [answer_callback_query [Lit "❌ Неверный ID ученика"]])
        else
          match users d !! student_id with
          | None => (d, [answer_callback_query [Lit "❌ Ученик не найден"]])
          | Some student =>
              if Py.startswith (data call) (u "admin_month_payment_") then
                (d, [edit_message_text
                       [Lit "Выберите месяц оплаты для ученика ";
                        FStr (or_str (full_name student) (u "Не указано")); Lit ":\n\n";
                        Lit "💳 Текущий баланс: "; FDec (balance student); Lit " ₽"]
                       (generate_admin_payment_months_keyboard student_id)])
              else if Py.startswith (data call) (u "admin_balance_payment_") then
                (AdminState_update_or_create (from_user call) student_id d,
                 [edit_message_text
                    [Lit "💰 Зачисление на баланс\n\n";
                     Lit "Ученик: "; FStr (or_str (full_name student) (u "Не указано"));
                     Lit "\n";
                     Lit "💳 Текущий баланс: "; FDec (balance student); Lit " ₽\n\n";
                     Lit "Введите сумму для зачисления на баланс:"]
                    (InlineKeyboardMarkup
                       [("⬅️ Назад"%string, u "mark_payment_for_student_" ++ student_id)])])
              else (d, [])
          end
    end.

Definition handle_admin_payment_method_selection : handler :=
  admin_permission_callback handle_admin_payment_method_selection_body.

End Ui.

(** Every wait state names a user of the table. *)
Definition wait_states_name_users (d : DB) : Prop :=
  ∀ admin_id student_id,
    admin_states d !! admin_id = Some student_id → is_Some (users d !! student_id).

(** The admins of the users table, as [User.objects.filter(is_admin=True)]
    yields them. *)
Definition admins_of (d : DB) : list User :=
  filter (λ a, is_admin a = true) (map_to_list (users d)).*2.

(** ** Student profiles ([profiles.py])

    The profile handlers work on the table of student profiles and on the
    module's dict [profile_creation_states]. They are written by explicit
    state passing: a handler takes the store and gives the store, its
    replies and the exception that leaves it, if any. The message texts
    come from [bot/texts.py] and the keyboards from [bot/keyboards.py],
    neither among the sources: both are kept by name, a text with the
    arguments of its [format]. *)

Module Profiles.

(** A row of [StudentProfile], with the fields the handlers set. *)
Record StudentProfile := mkProfile {
  profile_id : Z;
  owner : pystr;
  profile_name : pystr;
  full_name : pystr;
  class_number : pystr;
  education_level : option pystr;
  is_active : bool;
  is_registered : bool
}.

(** An entry of [profile_creation_states]: a dict whose keys
    [profile_name], [class_number] and [education_level] are added as the
    flow goes on. *)
Record creation_state := mkState {
  step : pystr;
  user_id : pystr;
  st_profile_name : option pystr;
  st_class_number : option pystr;
  st_education_level : option (option pystr)
}.

(** The users, the profile table with the next free [id] of its
    auto-increment key, and the dict of creation states. *)
Record Store := mkStore {
  accounts : gmap pystr User;
  student_profiles : gmap Z StudentProfile;
  next_id : Z;
  profile_creation_states : gmap pystr creation_state
}.

Inductive keyboard :=
| UNIVERSAL_BUTTONS
| generate_profiles_menu_keyboard
| generate_profile_school_classes_keyboard
| generate_profile_confirmation_keyboard.

Inductive text :=
| Literal (s : string)
| PROFILE_CREATION_WELCOME
| PROFILE_ALREADY_EXISTS
| PROFILE_CLASS_CHOICE (profile_name : pystr)
| PROFILE_CONFIRMATION (profile_name full_name class_number education_level : pystr)
| PROFILE_CREATED_SUCCESS (profile : StudentProfile)
| PROFILE_SWITCHED_SUCCESS (profile_name : pystr)
| PROFILE_DELETED_SUCCESS (profile_name : pystr).

Inductive reply :=
| answer_callback_query (s : string)
| send_message (t : text) (k : option keyboard)
| edit_message_text (t : text) (k : keyboard).

(** The exceptions that can leave these functions. *)
Inductive error :=
| IndexError
| MultipleObjectsReturned.

Abbreviation outcome := (Store * list reply * option error)%type.

(** [s.replace(old, '')] for a non-empty [old]: every occurrence, taken
    from the left without overlap, is dropped; [skip] counts the code
    points of an occurrence still to drop. *)
Fixpoint remove_all (old : pystr) (skip : nat) (s : pystr) : pystr :=
  match s with
  | [] => []
  | c :: r =>
      match skip with
      | S k => remove_all old k r
      | O => if Py.startswith s old then remove_all old (length old - 1) r
             else c :: remove_all old 0 r
      end
  end.

Definition with_active (b : bool) (p : StudentProfile) : StudentProfile :=
  mkProfile (profile_id p) (owner p) (profile_name p) (full_name p) (class_number p)
            (education_level p) b (is_registered p).

(** [StudentProfile.objects.get(id=profile_id, user__telegram_id=telegram_id)] *)
Definition get_owned (s : Store) (pid : Z) (telegram_id : pystr) : option StudentProfile :=
  match student_profiles s !! pid with
  | Some p => if Py.eqb (owner p) telegram_id then Some p else None
  | None => None
  end.

(** [create_profile] *)
Definition create_profile (call : CallbackQuery) (s : Store) : outcome :=
  match accounts s !! from_user call with
  | Some user =>
      (mkStore (accounts s) (student_profiles s) (next_id s)
               (<[from_user call := mkState (u "waiting_profile_name") (telegram_id user)
                                            None None None]>
                  (profile_creation_states s)),
       [edit_message_text PROFILE_CREATION_WELCOME UNIVERSAL_BUTTONS], None)
  | None => (s, [answer_callback_query "Пользователь не найден"], None)
  end.

(** [user.student_profiles.filter(profile_name=profile_name).exists()] *)
Definition name_taken (s : Store) (user : User) (name : pystr) : bool :=
  existsb (λ p, Py.eqb (owner p) (telegram_id user) && Py.eqb (profile_name p) name)
          (map_to_list (student_profiles s)).*2.

(** [handle_profile_creation_message] *)
Definition handle_profile_creation_message (message : Message) (s : Store) : outcome :=
  let telegram_id := msg_from_user message in
  match profile_creation_states s !! telegram_id with
  | None => (s, [], None)
  | Some state =>
      if Py.eqb (step state) (u "waiting_profile_name") then
        let profile_name := Py.strip (msg_text message) in
        if (length profile_name <? 2)%nat then
          (s, [send_message
                 (Literal "Пожалуйста, введите корректное имя профиля (минимум 2 символа):")
                 None], None)
        else
          match accounts s !! telegram_id with
          | None =>
              (s, [send_message (Literal "Произошла ошибка. Попробуйте еще раз.") None], None)
          | Some user =>
              if name_taken s user profile_name then
                (s, [send_message PROFILE_ALREADY_EXISTS None], None)
              else
                (mkStore (accounts s) (student_profiles s) (next_id s)
                         (<[telegram_id := mkState (u "waiting_class") (user_id state)
                                                   (Some profile_name)
                                                   (st_class_number state)
                                                   (st_education_level state)]>
                            (profile_creation_states s)),
                 [send_message (PROFILE_CLASS_CHOICE profile_name)
                               (Some generate_profile_school_classes_keyboard)], None)
          end
      else (s, [], None)
  end.

(** The class and the level a button of the class keyboard stands for. *)
Definition class_of_choice (raw_value : pystr) : pystr * option pystr :=
  if Py.eqb raw_value (u "10_base") then (u "10", Some (u "base"))
  else if Py.eqb raw_value (u "10_profile") then (u "10", Some (u "profile"))
  else if Py.eqb raw_value (u "11_base") then (u "11", Some (u "base"))
  else if Py.eqb raw_value (u "11_profile") then (u "11", Some (u "profile"))
  else (raw_value, None).

(** [handle_profile_class_choice]: the state is updated in place before
    the text is formatted, so it stays updated when [state['profile_name']]
    is missing. *)
Definition handle_profile_class_choice (call : CallbackQuery) (s : Store) : outcome :=
  let telegram_id := from_user call in
  match profile_creation_states s !! telegram_id with
  | None => (s, [], None)
  | Some state =>
      if negb (Py.eqb (step state) (u "waiting_class")) then (s, [], None)
      else
        let raw_value := remove_all (u "profile_class_") 0 (data call) in
        let '(class_number, education_level) := class_of_choice raw_value in
        let s' := mkStore (accounts s) (student_profiles s) (next_id s)
                    (<[telegram_id := mkState (u "waiting_confirmation") (user_id state)
                                              (st_profile_name state)
                                              (Some class_number)
                                              (Some education_level)]>
                       (profile_creation_states s)) in
        match st_profile_name state with
        | Some name =>
            (s', [edit_message_text
                    (PROFILE_CONFIRMATION name name class_number
                       (or_str education_level (u "Не указан")))
                    generate_profile_confirmation_keyboard], None)
        | None =>
            (s', [answer_callback_query "Произошла ошибка. Попробуйте еще раз."], None)
        end
  end.

(** [user.student_profiles.exclude(id=keep).update(is_active=False)] *)
Definition deactivate_others (telegram_id : pystr) (keep : Z)
    (table : gmap Z StudentProfile) : gmap Z StudentProfile :=
  (λ p, if Py.eqb (owner p) telegram_id && negb (profile_id p =? keep)
        then with_active false p else p) <$> table.

(** [confirm_profile_creation]. The block runs in [transaction.atomic()]:
    when the insertion is refused ([insert_ok = false]) nothing has been
    written. *)
Definition confirm_profile_creation (insert_ok : bool) (call : CallbackQuery) (s : Store)
    : outcome :=
  let sender := from_user call in
  let failed := (s, [answer_callback_query "Произошла ошибка при создании профиля"], None) in
  match profile_creation_states s !! sender with
  | None => (s, [], None)
  | Some state =>
      if negb (Py.eqb (step state) (u "waiting_confirmation")) then (s, [], None)
      else
        match accounts s !! sender with
        | None => failed
        | Some user =>
            match st_profile_name state, st_class_number state, st_education_level state with
            | Some name, Some class_number, Some education_level =>
                if insert_ok then
                  let profile := mkProfile (next_id s) (telegram_id user) name name
                                           class_number education_level true true in
                  (mkStore (accounts s)
                           (deactivate_others (telegram_id user) (next_id s)
                              (<[next_id s := profile]> (student_profiles s)))
                           (next_id s + 1)
                           (delete sender (profile_creation_states s)),
                   [edit_message_text (PROFILE_CREATED_SUCCESS profile)
                                      generate_profiles_menu_keyboard], None)
                else failed
            | _, _, _ => failed
            end
        end
  end.

(** [profile.user.student_profiles.update(is_active=False)] *)
Definition deactivate_all (telegram_id : pystr) (table : gmap Z StudentProfile)
    : gmap Z StudentProfile :=
  (λ p, if Py.eqb (owner p) telegram_id then with_active false p else p) <$> table.

(** [switch_to_profile]: callback data [switch_to_profile_{profile_id}]. *)
Definition switch_to_profile (call : CallbackQuery) (s : Store) : outcome :=
  match Py.split "_" (data call) !! 3%nat with
  | None => (s, [], Some IndexError)
  | Some part =>
      match Py.int part with
      | None => (s, [answer_callback_query "Профиль не найден"], None)
      | Some pid =>
          match get_owned s pid (from_user call) with
          | None => (s, [answer_callback_query "Профиль не найден"], None)
          | Some profile =>
              (mkStore (accounts s)
                       (<[profile_id profile := with_active true profile]>
                          (deactivate_all (owner profile) (student_profiles s)))
                       (next_id s) (profile_creation_states s),
               [edit_message_text (PROFILE_SWITCHED_SUCCESS (profile_name profile))
                                  generate_profiles_menu_keyboard], None)
          end
      end
  end.

(** [final_delete_profile]: callback data [final_delete_profile_{profile_id}]. *)
Definition final_delete_profile (call : CallbackQuery) (s : Store) : outcome :=
  match Py.split "_" (data call) !! 3%nat with
  | None => (s, [], Some IndexError)
  | Some part =>
      match Py.int part with
      | None => (s, [answer_callback_query "Профиль не найден"], None)
      | Some pid =>
          match get_owned s pid (from_user call) with
          | None => (s, [answer_callback_query "Профиль не найден"], None)
          | Some profile =>
              (mkStore (accounts s) (delete (profile_id profile) (student_profiles s))
                       (next_id s) (profile_creation_states s),
               [edit_message_text (PROFILE_DELETED_SUCCESS (profile_name profile))
                                  generate_profiles_menu_keyboard], None)
          end
      end
  end.

(** [is_user_creating_profile] *)
Definition is_user_creating_profile (telegram_id : pystr) (s : Store) : bool :=
  bool_decide (is_Some (profile_creation_states s !! telegram_id)).

(** [get_active_profile] ([profiles.py] and [payments_old.py]):
    [user.student_profiles.get(is_active=True)], [None] when there is
    none; with more than one, [MultipleObjectsReturned] is not caught. *)
Definition get_active_profile (user : User) (s : Store) : option StudentProfile + error :=
  match filter (λ p, owner p = telegram_id user ∧ is_active p = true)
               (map_to_list (student_profiles s)).*2 with
  | [] => inl None
  | [p] => inl (Some p)
  | _ => inr MultipleObjectsReturned
  end.

(** *** Vocabulary *)

(** The table is keyed by the rows' ids, all below the next free id. *)
Definition keyed (s : Store) : Prop :=
  ∀ k p, student_profiles s !! k = Some p → profile_id p = k ∧ k < next_id s.

(** No user has two active profiles. *)
Definition one_active (s : Store) : Prop :=
  ∀ i j p q, student_profiles s !! i = Some p → student_profiles s !! j = Some q →
    owner p = owner q → is_active p = true → is_active q = true → i = j.

(** A creation state holds the keys its step reads. *)
Definition state_complete (st : creation_state) : Prop :=
  (step st = u "waiting_class" → is_Some (st_profile_name st))
  ∧ (step st = u "waiting_confirmation" →
       is_Some (st_profile_name st) ∧ is_Some (st_class_number st)
       ∧ is_Some (st_education_level st)).

Definition states_complete (s : Store) : Prop :=
  map_Forall (λ _ st, state_complete st) (profile_creation_states s).

(** The stores after each of the handlers that write, run on [s]. *)
Definition after_handlers (insert_ok : bool) (call : CallbackQuery) (message : Message)
    (s : Store) : list Store :=
  [(create_profile call s).1.1;
   (handle_profile_creation_message message s).1.1;
   (handle_profile_class_choice call s).1.1;
   (confirm_profile_creation insert_ok call s).1.1;
   (switch_to_profile call s).1.1;
   (final_delete_profile call s).1.1].

End Profiles.

(** A store for the examples: the student 123 with an active and an
    inactive profile. *)
Module ProfileSample.

Definition ivan : Profiles.StudentProfile :=
  Profiles.mkProfile 1 (u "123") (u "Иван") (u "Иван") (u "9") None true true.

Definition anna : Profiles.StudentProfile :=
  Profiles.mkProfile 2 (u "123") (u "Анна") (u "Анна") (u "10") (Some (u "base")) false true.

Definition store : Profiles.Store :=
  Profiles.mkStore (Sample.people 0) (<[1 := ivan]> (<[2 := anna]> ∅)) 3 ∅.

End ProfileSample.

(** * Properties *)

(** ** Strings *)

Lemma eqb_eq (a b : pystr) : Py.eqb a b = true ↔ a = b.
Proof.
  revert b; induction a as [|x a IH]; intros [|y b]; simpl; try (split; congruence).
  rewrite andb_true_iff, N.eqb_eq, IH. split; [intros []; congruence | intros; simplify_eq; done].
Qed.

Lemma eqb_refl (a : pystr) : Py.eqb a a = true.
Proof. by apply eqb_eq. Qed.

Lemma startswith_spec (s p : pystr) : Py.startswith s p = true ↔ ∃ post, s = p ++ post.
Proof.
  revert s; induction p as [|x p IH]; intros s; simpl.
  - split; eauto.
  - destruct s as [|y s].
    + split; [done | intros [? ?]; done].
    + rewrite andb_true_iff, N.eqb_eq, IH. split.
      * intros [-> [post ->]]. eauto.
      * intros [post ?]. simplify_eq. eauto.
Qed.

Lemma contains_spec (needle hay : pystr) :
  Py.contains needle hay = true ↔ Py.substring needle hay.
Proof.
  unfold Py.substring. induction hay as [|c hay IH].
  - simpl. rewrite orb_false_r, startswith_spec. split.
    + intros [post ->]. by exists [], post.
    + intros (pre & post & H). destruct pre; simpl in H; [eauto|done].
  - cbn [Py.contains]. rewrite orb_true_iff, startswith_spec, IH. split.
    + intros [[post ->] | (pre & post & ->)].
      * by exists [], post.
      * by exists (c :: pre), post.
    + intros (pre & post & H). destruct pre as [|c' pre]; simpl in H.
      * left; eauto.
      * right. simplify_eq. by exists pre, post.
Qed.

Lemma contains_false (needle hay : pystr) :
  Py.contains needle hay = false ↔ ¬ Py.substring needle hay.
Proof. rewrite <- contains_spec. destruct (Py.contains needle hay); split; congruence. Qed.

(** The string functions on the inputs the handlers see. *)
Example split_callback_data :
  Py.split "_" (u "admin_mark_payment_123_3_2025")
    = [u "admin"; u "mark"; u "payment"; u "123"; u "3"; u "2025"]
  ∧ Py.split "_" (u "check_payment_2d8b-000f_4_2025")
    = [u "check"; u "payment"; u "2d8b-000f"; u "4"; u "2025"]
  ∧ Py.split "_" (u "a__b") = [u "a"; []; u "b"]
  ∧ Py.split "_" [] = [[]].
Proof. vm_compute. repeat split. Qed.

Example int_of_parts :
  Py.int (u "2025") = Some 2025 ∧ Py.int (u " -12 ") = Some (-12) ∧ Py.int (u "007") = Some 7
  ∧ Py.int (u "abc") = None ∧ Py.int (u "") = None ∧ Py.int (u "3.5") = None
  ∧ Py.int (u "+") = None.
Proof. vm_compute. repeat split. Qed.

Example lower_strip_labels :
  Py.strip (Py.lower (u "  10 КЛАСС ")) = u "10 класс"
  ∧ Py.strip (Py.lower (u "ЕГЭ Профиль")) = u "егэ профиль"
  ∧ Py.strip (Py.lower (u "OGE")) = u "oge".
Proof. vm_compute. repeat split. Qed.

Example decimal_of_str :
  Dec.of_str (u "1500.50") = Some (Dec.Fin (150050 # 100))
  ∧ Dec.of_str (u " 1000 ") = Some (Dec.Fin (1000 # 1))
  ∧ Dec.of_str (u "-5") = Some (Dec.Fin (-5 # 1))
  ∧ Dec.of_str (u "1e3") = Some (Dec.Fin (1000 # 1))
  ∧ Dec.of_str (u "1_0.5E-1") = Some (Dec.Fin (105 # 100))
  ∧ Dec.of_str (u "5.") = Some (Dec.Fin (5 # 1))
  ∧ Dec.of_str (u ".5") = Some (Dec.Fin (5 # 10))
  ∧ Dec.of_str (u "-Infinity") = Some (Dec.Inf true)
  ∧ Dec.of_str (u "sNaN12") = Some Dec.NaN
  ∧ Dec.of_str (u "abc") = None ∧ Dec.of_str (u "") = None ∧ Dec.of_str (u ".") = None
  ∧ Dec.of_str (u "1.5e") = None ∧ Dec.of_str (u "1.500.50") = None
  ∧ Dec.of_str (u "1 500") = None.
Proof. vm_compute. repeat split. Qed.

(** ** The pricing resolver *)

Lemma any_keyword_spec (kws : list pystr) (label : pystr) :
  Pricing.any_keyword kws label = true ↔ ∃ kw, kw ∈ kws ∧ Py.substring kw label.
Proof.
  induction kws as [|kw kws IH]; simpl.
  - split; [done | intros (? & H & _); by apply elem_of_nil in H].
  - destruct (Py.contains kw label) eqn:E.
    + split; [intros _ | done]. exists kw. split; [left | by apply contains_spec].
    + rewrite IH. apply contains_false in E. split.
      * intros (k & ? & ?). exists k. split; [by right | done].
      * intros (k & Hin & ?). apply elem_of_cons in Hin as [-> | ?]; [done | eauto].
Qed.

Lemma any_keyword_matches (label : pystr) (entry : pystr * Pricing.plan) :
  Pricing.any_keyword (Pricing.keywords entry.2) label = true ↔ Pricing.matches label entry.
Proof. apply any_keyword_spec. Qed.

Lemma scan_Some (table : list (pystr * Pricing.plan)) (label : pystr) (info : Pricing.price_info) :
  Pricing.scan table label = Some info ↔
  ∃ entry, Pricing.first_match table label entry ∧ info = Pricing.info_of entry.
Proof.
  unfold Pricing.first_match. induction table as [|e table IH]; simpl.
  - split; [done | intros (? & (pre & ? & H & _) & _); by destruct pre].
  - destruct (Pricing.any_keyword (Pricing.keywords e.2) label) eqn:E.
    + split.
      * intros [= <-]. exists e. split; [|done].
        exists [], table. by rewrite <- any_keyword_matches.
      * intros (entry & (pre & post & Heq & Hm & Hpre) & ->).
        destruct pre as [|e' pre]; simpl in Heq; simplify_eq; [done|].
        apply Forall_cons in Hpre as [Hn _]. by rewrite <- any_keyword_matches in Hn.
    + rewrite IH. split.
      * intros (entry & (pre & post & -> & Hm & Hpre) & ->). exists entry. split; [|done].
        exists (e :: pre), post. split_and!; [done | done |].
        apply Forall_cons. split; [|done]. rewrite <- any_keyword_matches. congruence.
      * intros (entry & (pre & post & Heq & Hm & Hpre) & ->).
        destruct pre as [|e' pre]; simpl in Heq; simplify_eq.
        { rewrite <- any_keyword_matches in Hm. congruence. }
        apply Forall_cons in Hpre as [_ Hpre]. exists entry. split; [|done]. by exists pre, post.
Qed.


Lemma normalised_nil : Py.strip (Py.lower []) = [].
Proof. reflexivity. Qed.

Lemma get_price_by_class_Some (class_info : option pystr) (info : Pricing.price_info) :
  Pricing.get_price_by_class class_info = Some info ↔
  ∃ s entry, class_info = Some s ∧ s ≠ [] ∧
    Pricing.first_match Pricing.PRICING_CONFIG (Py.strip (Py.lower s)) entry ∧
    info = Pricing.info_of entry.
Proof.
  destruct class_info as [[|c s]|]; cbn [Pricing.get_price_by_class].
  - split; [done | intros (s & e & ? & ? & _); congruence].
  - rewrite scan_Some. split.
    + intros (e & ? & ?). exists (c :: s), e. done.
    + intros (s' & e & [= <-] & _ & ? & ?). eauto.
  - split; [done | intros (s & e & ? & _); done].
Qed.


(** C10. A label that, lower-cased and trimmed, contains ["1"] and matches
    no keyword of the seven plans listed before [university_course_1] is
    resolved to [university_course_1], whose price is 1. *)
Theorem label_with_1_is_priced_one_ruble (s : pystr) :
  Py.substring (u "1") (Py.strip (Py.lower s)) →
  Forall (λ e, ¬ Pricing.matches (Py.strip (Py.lower s)) e) (take 7 Pricing.PRICING_CONFIG) →
  Pricing.get_price_by_class (Some s) =
    Some (Pricing.PriceInfo (u "university_course_1") (u "🎓1 курс ВУЗа") 1
                            (u "Студент 1 курса ВУЗа")).
Proof.
  intros Hone Hearlier.
  destruct s as [|c s].
  { rewrite normalised_nil in Hone. destruct Hone as (pre & post & H).
    destruct pre; vm_compute in H; congruence. }
  cbn [Pricing.get_price_by_class]. apply scan_Some.
  exists (u "university_course_1",
          Pricing.Plan (u "🎓1 курс ВУЗа") 1 (u "Студент 1 курса ВУЗа")
                       [u "1 курс"; u "course_1"; u "1"]).
  split; [|vm_compute; reflexivity].
  exists (take 7 Pricing.PRICING_CONFIG), (drop 8 Pricing.PRICING_CONFIG).
  split_and!; [vm_compute; reflexivity | | done].
  exists (u "1"). split; [|done]. cbn [Pricing.keywords snd]. set_solver.
Qed.

Lemma label_with_1_is_priced_one_ruble_witness :
  Pricing.pi_price <$> Pricing.get_price_by_class (Some (u "1 класс")) = Some 1.
Proof.
  rewrite (label_with_1_is_priced_one_ruble (u "1 класс")).
  - vm_compute. reflexivity.
  - apply contains_spec. vm_compute. reflexivity.
  - repeat (apply Forall_cons; split; [rewrite <- any_keyword_matches; vm_compute; congruence|]).
    apply Forall_nil. done.
Defined.

(** ** Computations that do not touch the database *)

Lemma world_eta w : w = mkWorld (db w) (sent w ++ []).
Proof. destruct w. simpl. by rewrite app_nil_r. Qed.

Lemma bind_run {A B} (m : M A) (f : A → M B) w :
  (m ≫= f) w = match m w with
               | (Normal a, w') => f a w'
               | (Returned, w') => (Returned, w')
               | (Raised e, w') => (Raised e, w')
               end.
Proof. reflexivity. Qed.

Lemma quiet_ret {A} (a : A) : quiet (mret a : M A).
Proof. intros w. exists (Normal a), []. unfold mret, M_ret. f_equal. apply world_eta. Qed.

Lemma quiet_pass : quiet pass.
Proof. apply quiet_ret. Qed.

Lemma quiet_return {A} : quiet (@return_ A).
Proof. intros w. exists Returned, []. unfold return_. f_equal. apply world_eta. Qed.

Lemma quiet_raise {A} e : quiet (@raise A e).
Proof. intros w. exists (Raised e), []. unfold raise. f_equal. apply world_eta. Qed.

Lemma quiet_emit a : quiet (emit a).
Proof. intros w. by exists (Normal tt), [a]. Qed.

Lemma quiet_answer t : quiet (answer t).
Proof. apply quiet_emit. Qed.

Lemma quiet_get_db : quiet get_db.
Proof. intros w. exists (Normal (db w)), []. unfold get_db. f_equal. apply world_eta. Qed.

Lemma quiet_bind {A B} (m : M A) (f : A → M B) :
  quiet m → (∀ a, quiet (f a)) → quiet (m ≫= f).
Proof.
  intros Hm Hf w. rewrite bind_run. destruct (Hm w) as (r & out & ->).
  destruct r as [a| |e]; [|by eexists _, _..].
  destruct (Hf a (mkWorld (db w) (sent w ++ out))) as (r' & out' & ->).
  exists r', (out ++ out'). simpl. by rewrite app_assoc.
Qed.

Lemma quiet_try {A} (body : M A) handler :
  quiet body → (∀ e h, handler e = Some h → quiet h) → quiet (try_except body handler).
Proof.
  intros Hb Hh w. unfold try_except. destruct (Hb w) as (r & out & ->).
  destruct r as [a| |e]; [by eexists _, _..|].
  destruct (handler e) as [h|] eqn:E; [|by eexists _, _].
  destruct (Hh e h E (mkWorld (db w) (sent w ++ out))) as (r' & out' & ->).
  exists r', (out ++ out'). simpl. by rewrite app_assoc.
Qed.

Lemma quiet_def body : quiet body → quiet (def_ body).
Proof.
  intros Hb w. unfold def_. destruct (Hb w) as (r & out & ->).
  destruct r; by eexists _, _.
Qed.

Lemma quiet_or_raise {A} e (o : option A) : quiet (or_raise e o).
Proof. destruct o; [apply quiet_ret | apply quiet_raise]. Qed.

Lemma quiet_month_name env m : quiet (month_name env m).
Proof. apply quiet_or_raise. Qed.

Lemma quiet_foldr_emit (f : User → action) (l : list User) :
  quiet (foldr (λ a k, emit (f a);; k) pass l).
Proof.
  induction l as [|a l IH]; simpl; [apply quiet_ret|].
  apply quiet_bind; [apply quiet_emit | done].
Qed.

Create HintDb quiet.
#[export] Hint Resolve quiet_ret quiet_pass quiet_return quiet_raise quiet_emit quiet_answer
  quiet_get_db quiet_or_raise quiet_month_name quiet_foldr_emit : quiet.

Ltac quiet_step :=
  first
    [ progress intros
    | solve [auto with quiet]
    | apply quiet_def
    | apply quiet_try
    | apply quiet_bind
    | match goal with
      | |- quiet (match ?x with _ => _ end) => destruct x eqn:?
      | |- quiet (if ?x then _ else _) => destruct x eqn:?
      | H : except_Exception _ _ = Some _ |- _ => injection H as <-
      | H : caught_ValueError_or_DoesNotExist _ ?e = Some _ |- _ =>
          destruct e; simpl in H; simplify_eq
      | H : Some _ = Some _ |- _ => injection H as <-
      | H : None = Some _ |- _ => discriminate H
      end ].

Ltac quiet_tac := repeat quiet_step.

Lemma quiet_final_db (h : M unit) (d : DB) : quiet h → final_db h d = d.
Proof.
  intros Hq. unfold final_db, run. destruct (Hq (mkWorld d [])) as (r & out & ->).
  by destruct r.
Qed.

Lemma silent_foldr_emit (f : User → action) (l : list User) :
  silent (foldr (λ a k, emit (f a);; k) pass l).
Proof.
  induction l as [|a l IH]; intros w; simpl.
  - exists []. unfold pass, mret, M_ret. f_equal. apply world_eta.
  - rewrite bind_run. unfold emit at 1.
    destruct (IH (mkWorld (db w) (sent w ++ [f a]))) as [out ->].
    exists (f a :: out). simpl. by rewrite <- app_assoc.
Qed.

Lemma silent_notify_payment_success env tid m y amt :
  silent (notify_payment_success env tid m y amt).
Proof.
  intros w. unfold notify_payment_success, def_, try_except, month_name.
  rewrite bind_run. destruct (MONTH_NAMES env m) as [mn|]; simpl.
  - by eexists [_].
  - exists []. unfold pass, mret, M_ret. f_equal. apply world_eta.
Qed.

Lemma silent_notify_admins_about_payment env user m y amt :
  silent (notify_admins_about_payment env user m y amt).
Proof.
  intros w. unfold notify_admins_about_payment, def_, try_except.
  rewrite bind_run. unfold get_db at 1.
  destruct (filter _ _) as [|a admins].
  - exists []. unfold return_. f_equal. apply world_eta.
  - cbv beta match. rewrite bind_run. unfold month_name.
    destruct (MONTH_NAMES env m) as [mn|]; unfold or_raise, mret, M_ret, raise; cbv beta match.
    + match goal with
      | |- context [foldr (λ a k, emit (@?f a);; k) pass ?l ?w0] =>
          destruct (silent_foldr_emit f l w0) as [out Hout]
      end.
      cbv beta in Hout. rewrite Hout. by exists out.
    + unfold except_Exception, pass, mret, M_ret. exists []. f_equal. apply world_eta.
Qed.

(** ** Running a handler step by step *)

Ltac unfold_M :=
  cbv beta delta [def_ try_except mbind M_bind mret M_ret or_raise int_ User_get User_save
    get_db set_db emit answer raise return_ pass PaymentHistory_create month_name index
    caught_ValueError_or_DoesNotExist except_Exception Payment_get Payment_save
    AdminState_delete credit_and_save].

Ltac red_M :=
  cbv beta match;
  cbn [db sent users payments history admin_states fst snd negb orb andb];
  cbv beta match.

Ltac step_notify :=
  match goal with
  | |- context [notify_payment_success ?e ?t ?m ?y ?a ?w] =>
      let out := fresh "out" in
      destruct (silent_notify_payment_success e t m y a w) as [out ->]; red_M
  | |- context [notify_admins_about_payment ?e ?usr ?m ?y ?a ?w] =>
      let out := fresh "out" in
      destruct (silent_notify_admins_about_payment e usr m y a w) as [out ->]; red_M
  end.

(** Case analysis on a stuck scrutinee that is not itself a match. *)
Ltac case_stuck :=
  match goal with
  | |- context [match ?x with _ => _ end] =>
      lazymatch x with
      | context [match _ with _ => _ end] => fail
      | _ => destruct x eqn:?
      end
  end; red_M.

(** ** The gateway success poll *)

(** Every run of [check_payment] either leaves the database as it was, or
    went through the [succeeded] branch of an unpaid month with a local
    intent: the intent is saved as succeeded and, unless the insertion
    fails, one History Record is appended. *)
Lemma check_payment_cases env call d :
  final_db (check_payment env call) d = d ∨
  ∃ a b pid p3 p4 m y user info payment,
    Py.split "_" (data call) = [a; b; pid; p3; p4] ∧
    Py.int p3 = Some m ∧ Py.int p4 = Some y ∧
    users d !! from_user call = Some user ∧
    is_month_paid d user m y = false ∧
    get_payment env pid = Some info ∧
    is_str (dict_get info (u "status")) (u "succeeded") = true ∧
    payments d !! pid = Some payment ∧
    let saved := <[yookassa_payment_id payment := succeeded_payment payment info]> (payments d) in
    final_db (check_payment env call) d =
      mkDB (users d) saved
           (if history_insert_ok env then
              history d ++ [mkHistory (telegram_id user) (Some (yookassa_payment_id payment))
                                      m y (amount payment) (pay_pricing_plan payment)
                                      default_payment_type default_status]
            else history d)
           (admin_states d).
Proof.
  unfold final_db, run, check_payment, commit_succeeded. unfold_M. red_M.
  destruct (Py.split "_" (data call)) as [|a [|b [|pid [|p3 [|p4 [|]]]]]]; red_M; auto.
  destruct (Py.int p3) as [m|] eqn:Hm; red_M; auto.
  destruct (Py.int p4) as [y|] eqn:Hy; red_M; auto.
  destruct (users d !! from_user call) as [user|] eqn:Hu; red_M; auto.
  destruct (is_month_paid d user m y) eqn:Hpaid; red_M.
  { destruct (MONTH_NAMES env m); red_M; auto. }
  destruct (get_payment env pid) as [[|kv info]|] eqn:Hget; red_M; auto.
  destruct (is_str (dict_get (kv :: info) (u "status")) (u "succeeded")) eqn:Hs; red_M.
  2: { repeat case_stuck; auto. }
  destruct (payments d !! pid) as [payment|] eqn:Hp; red_M; auto.
  right. exists a, b, pid, p3, p4, m, y, user, (kv :: info), payment.
  split_and!; try done.
  destruct (history_insert_ok env); red_M; [|done].
  repeat step_notify.
  destruct (MONTH_NAMES env m); red_M; done.
Qed.

Lemma paid_test_spec (r : PaymentHistory) (tid : pystr) (m y : Z) :
  Py.eqb (h_user r) tid && (month r =? m) && (year r =? y)
    && Py.eqb (h_status r) (u "completed") = true
  ↔ h_user r = tid ∧ month r = m ∧ year r = y ∧ h_status r = u "completed".
Proof. rewrite !andb_true_iff, !eqb_eq, !Z.eqb_eq. tauto. Qed.

Lemma is_month_paid_true (d : DB) (user : User) (m y : Z) :
  is_month_paid d user m y = true ↔
  ∃ r, r ∈ history d ∧ h_user r = telegram_id user ∧ month r = m ∧ year r = y
       ∧ h_status r = u "completed".
Proof.
  unfold is_month_paid. rewrite existsb_exists. split.
  - intros (r & Hin & Ht). exists r. split; [by apply list_elem_of_In | by apply paid_test_spec].
  - intros (r & Hin & Ht). exists r. split; [by apply list_elem_of_In | by apply paid_test_spec].
Qed.

Lemma is_month_paid_false (d : DB) (user : User) (m y : Z) :
  is_month_paid d user m y = false ↔ completed_for d (telegram_id user) m y = [].
Proof.
  rewrite <- not_true_iff_false, is_month_paid_true. unfold completed_for. split.
  - intros Hno. destruct (filter _ _) as [|r l] eqn:E; [done|]. exfalso. apply Hno.
    assert (Hin : r ∈ r :: l) by left. rewrite <- E in Hin.
    apply list_elem_of_filter in Hin as [? ?]. by exists r.
  - intros E (r & Hin & Hr). by apply (filter_nil_not_elem_of _ _ r E Hr).
Qed.

Lemma default_status_completed : default_status = u "completed".
Proof. reflexivity. Qed.

(** C8. When the gateway reports a status other than [succeeded], the poll
    changes nothing in the database; it answers with the fixed text for
    [pending] and for [canceled], and otherwise with the raw status. *)
Theorem check_payment_other_status env call d a b pid p3 p4 info :
  Py.split "_" (data call) = [a; b; pid; p3; p4] →
  get_payment env pid = Some info →
  let payment_status := dict_get info (u "status") in
  is_str payment_status (u "succeeded") = false →
  final_db (check_payment env call) d = d
  ∧ ∀ m y user,
      Py.int p3 = Some m → Py.int p4 = Some y →
      users d !! from_user call = Some user →
      is_month_paid d user m y = false →
      info ≠ [] →
      (payment_status = VStr (u "pending") →
         run (check_payment env call) d =
           (d, [answer_callback_query [Lit "Платеж еще не завершен. Попробуйте позже."]], None))
      ∧ (payment_status = VStr (u "canceled") →
         run (check_payment env call) d =
           (d, [answer_callback_query [Lit "Платеж отменен."]], None))
      ∧ (is_str payment_status (u "pending") = false →
         is_str payment_status (u "canceled") = false →
         run (check_payment env call) d =
           (d, [answer_callback_query [Lit "Статус платежа: "; FVal payment_status]], None)).
Proof.
  intros Hsplit Hget st Hns. split.
  - destruct (check_payment_cases env call d) as [H|H]; [done|].
    destruct H as (a' & b' & pid' & p3' & p4' & m & y & user & info' & payment & Hs' & _ & _
                   & _ & _ & Hget' & Hst & _).
    rewrite Hsplit in Hs'. simplify_eq. unfold st in Hns. congruence.
  - intros m y user Hm Hy Hu Hpaid Hne.
    assert (Hrun : ∀ out, 
      (if is_str st (u "pending") then [answer_callback_query [Lit "Платеж еще не завершен. Попробуйте позже."]]
       else if is_str st (u "canceled") then [answer_callback_query [Lit "Платеж отменен."]]
       else [answer_callback_query [Lit "Статус платежа: "; FVal st]]) = out →
      run (check_payment env call) d = (d, out, None)).
    { intros out <-. unfold run, check_payment. rewrite Hsplit. unfold_M. red_M.
      rewrite Hm; red_M. rewrite Hy; red_M. rewrite Hu; red_M. rewrite Hpaid; red_M.
      rewrite Hget. destruct info as [|kv info]; [done|]. red_M.
      fold st. rewrite Hns.
      destruct (is_str st (u "pending")); red_M; [by destruct d|].
      destruct (is_str st (u "canceled")); red_M; by destruct d. }
    split_and!.
    + intros Hst. apply Hrun. by rewrite Hst.
    + intros Hst. apply Hrun. by rewrite Hst.
    + intros H1 H2. apply Hrun. by rewrite H1, H2.
Qed.

Lemma check_payment_other_status_witness :
  final_db (check_payment (Sample.env (u "pending") true)
              (mkCall (u "123") (u "check_payment_2d8b-000f_3_2025")))
           (Sample.db 0 [])
  = Sample.db 0 [].
Proof.
  apply (check_payment_other_status (Sample.env (u "pending") true)
           (mkCall (u "123") (u "check_payment_2d8b-000f_3_2025")) (Sample.db 0 [])
           (u "check") (u "payment") (u "2d8b-000f") (u "3") (u "2025")
           [(u "id", VStr (u "2d8b-000f")); (u "status", VStr (u "pending"))]).
  - vm_compute. reflexivity.
  - vm_compute. reflexivity.
  - vm_compute. reflexivity.
Defined.

(** C4. After a poll that committed a History Record, a second poll with
    the same callback data writes nothing, whatever the gateway answers:
    the month keeps exactly the one completed record of the first poll. *)
Theorem check_payment_repeated_poll env1 env2 call d :
  let d1 := final_db (check_payment env1 call) d in
  let d2 := final_db (check_payment env2 call) d1 in
  history d1 ≠ history d →
  d2 = d1
  ∧ ∃ r, history d1 = history d ++ [r]
         ∧ h_status r = u "completed"
         ∧ completed_for d2 (h_user r) (month r) (year r) = [r].
Proof.
  intros d1 d2 Hnew. subst d2.
  destruct (check_payment_cases env1 call d) as [H|H]; [unfold d1 in Hnew; by rewrite H in Hnew|].
  destruct H as (a & b & pid & p3 & p4 & m & y & user & info & payment & Hsplit & Hm & Hy
                 & Hu & Hpaid & Hget & Hst & Hp & Hd1).
  fold d1 in Hd1. cbv zeta in Hd1.
  destruct (history_insert_ok env1); [|by rewrite Hd1 in Hnew].
  set (r := mkHistory (telegram_id user) (Some (yookassa_payment_id payment)) m y
                      (amount payment) (pay_pricing_plan payment)
                      default_payment_type default_status) in *.
  assert (Hpaid1 : is_month_paid d1 user m y = true).
  { apply is_month_paid_true. exists r. rewrite Hd1. cbn [history].
    split; [apply elem_of_app; right; left | done]. }
  assert (Hsame : final_db (check_payment env2 call) d1 = d1).
  { destruct (check_payment_cases env2 call d1) as [H|H]; [done|].
    destruct H as (a' & b' & pid' & p3' & p4' & m' & y' & user' & info' & payment' & Hsplit'
                   & Hm' & Hy' & Hu' & Hpaid' & _).
    rewrite Hsplit in Hsplit'. simplify_eq.
    rewrite Hd1 in Hu'. cbn [users] in Hu'. congruence. }
  split; [done|]. rewrite Hsame. exists r. split_and!.
  - by rewrite Hd1.
  - done.
  - cbn [h_user month year r].
    apply is_month_paid_false in Hpaid. unfold completed_for in *.
    rewrite Hd1. cbn [history]. rewrite filter_app, Hpaid.
    by rewrite filter_cons_True.
Qed.

Lemma check_payment_repeated_poll_witness :
  let call := mkCall (u "123") (u "check_payment_2d8b-000f_3_2025") in
  let d1 := final_db (check_payment (Sample.env (u "succeeded") true) call) (Sample.db 0 []) in
  final_db (check_payment (Sample.env (u "succeeded") true) call) d1 = d1.
Proof.
  intros call d1.
  apply (check_payment_repeated_poll (Sample.env (u "succeeded") true)
           (Sample.env (u "succeeded") true) call (Sample.db 0 [])).
  vm_compute. congruence.
Defined.

(** [confirm_payment] stores the month and the year of its own callback
    data on the Payment it creates. *)
Lemma confirm_payment_stores_month env call d a b p2 p3 m y user info mn response :
  Py.split "_" (data call) = [a; b; p2; p3] →
  Py.int p2 = Some m → Py.int p3 = Some y →
  users d !! from_user call = Some user →
  is_month_paid d user m y = false →
  Pricing.get_price_by_class (course_or_class user) = Some info →
  MONTH_NAMES env m = Some mn →
  let description :=
    [Lit "Оплата занятий за "; FStr mn; Lit " "; FInt y; Lit " - ";
     FStr (Pricing.pi_name info)] in
  create_payment env (TEST_PRICE env) description
    (telegram_id user, m, y, Pricing.pi_key info) = Some response →
  ∃ payment,
    final_db (confirm_payment env call) d =
      mkDB (users d) (<[created_id response := payment]> (payments d)) (history d)
           (admin_states d)
    ∧ payment_month payment = m ∧ payment_year payment = y
    ∧ amount payment = TEST_PRICE env
    ∧ pay_pricing_plan payment = Pricing.pi_key info.
Proof.
  intros Hsplit Hm Hy Hu Hpaid Hprice Hmn description Hcreate.
  unfold final_db, run, confirm_payment.
  rewrite Hsplit. unfold_M. red_M.
  rewrite Hm; red_M. rewrite Hy; red_M. rewrite Hu; red_M. rewrite Hpaid; red_M.
  rewrite Hprice; red_M. rewrite Hmn; red_M. fold description. rewrite Hcreate; red_M.
  exists (mkPayment (telegram_id user) (created_id response) (TEST_PRICE env)
            (created_status response) description m y (Pricing.pi_key info) VNone).
  split; [|done].
  destruct (confirmation_url response); red_M; reflexivity.
Qed.

(** C9. The month and the year of the guard and of the written record are
    those of the callback data: a poll whose callback names (m, y) commits
    a record for (m, y) whatever month and year the local intent stores,
    and whether or not the intent's own month is already paid. *)
Theorem check_payment_records_callback_month env call d a b pid p3 p4 m y user info payment :
  Py.split "_" (data call) = [a; b; pid; p3; p4] →
  Py.int p3 = Some m → Py.int p4 = Some y →
  users d !! from_user call = Some user →
  is_month_paid d user m y = false →
  get_payment env pid = Some info →
  is_str (dict_get info (u "status")) (u "succeeded") = true →
  payments d !! pid = Some payment →
  history_insert_ok env = true →
  ∃ r, history (final_db (check_payment env call) d) = history d ++ [r]
       ∧ h_user r = telegram_id user
       ∧ month r = m ∧ year r = y
       ∧ ((payment_month payment, payment_year payment) ≠ (m, y) →
          (month r, year r) ≠ (payment_month payment, payment_year payment)).
Proof.
  intros Hsplit Hm Hy Hu Hpaid Hget Hst Hp Hok.
  destruct (check_payment_cases env call d) as [H|H].
  - exfalso. revert H. unfold final_db, run, check_payment, commit_succeeded.
    rewrite Hsplit. unfold_M. red_M.
    rewrite Hm; red_M. rewrite Hy; red_M. rewrite Hu; red_M. rewrite Hpaid; red_M.
    rewrite Hget. destruct info as [|kv info]; [done|]. red_M.
    rewrite Hst; red_M. rewrite Hp; red_M. rewrite Hok; red_M.
    repeat step_notify.
    destruct (MONTH_NAMES env m); red_M; intros H; apply (f_equal history) in H;
      cbn [history] in H; by apply (f_equal length) in H; rewrite length_app in H; simpl in H; lia.
  - destruct H as (a' & b' & pid' & p3' & p4' & m' & y' & user' & info' & payment' & Hsplit'
                   & Hm' & Hy' & Hu' & _ & Hget' & _ & Hp' & ->).
    rewrite Hsplit in Hsplit'. simplify_eq. rewrite Hok. cbn [history].
    eexists. split_and!; [reflexivity | done | done | done |].
    cbn [month year]. congruence.
Qed.

Lemma check_payment_records_callback_month_witness :
  ∃ r, history (final_db (check_payment (Sample.env (u "succeeded") true)
                            (mkCall (u "123") (u "check_payment_2d8b-000f_4_2025")))
                         (Sample.db 0 [Sample.paid_march]))
       = [Sample.paid_march; r]
       ∧ month r = 4 ∧ (month r, year r) ≠ (payment_month Sample.intent, payment_year Sample.intent).
Proof.
  destruct (check_payment_records_callback_month (Sample.env (u "succeeded") true)
           (mkCall (u "123") (u "check_payment_2d8b-000f_4_2025"))
           (Sample.db 0 [Sample.paid_march])
           (u "check") (u "payment") (u "2d8b-000f") (u "4") (u "2025") 4 2025
           (Sample.student 0)
           [(u "id", VStr (u "2d8b-000f")); (u "status", VStr (u "succeeded"))]
           Sample.intent)
    as (r & Hh & _ & Hm & Hy & Hne);
    [vm_compute; reflexivity..|].
  exists r. split_and!; [exact Hh | exact Hm |].
  apply Hne. vm_compute. congruence.
Defined.


(** ** The balance-backed payment *)

(** Every run of [select_balance_payment_month] either leaves the database
    as it was, or passed the guard and the funds check: the debited
    balance is saved and, unless the insertion fails, one History Record
    is appended. *)
Lemma balance_payment_cases env call d :
  final_db (select_balance_payment_month env call) d = d ∨
  ∃ a b c p3 p4 m y user info,
    Py.split "_" (data call) = [a; b; c; p3; p4] ∧
    Py.int p3 = Some m ∧ Py.int p4 = Some y ∧
    users d !! from_user call = Some user ∧
    is_month_paid d user m y = false ∧
    Pricing.get_price_by_class (course_or_class user) = Some info ∧
    let P := inject_Z (Pricing.pi_price info) in
    Qlt_bool (balance user) P = false ∧
    final_db (select_balance_payment_month env call) d =
      mkDB (<[telegram_id user := with_balance user (balance user - P)]> (users d))
           (payments d)
           (if history_insert_ok env then
              history d ++ [mkHistory (telegram_id user) None m y P (Pricing.pi_key info)
                                      (u "balance") (u "completed")]
            else history d)
           (admin_states d).
Proof.
  unfold final_db, run, select_balance_payment_month. unfold_M. red_M.
  destruct (Py.split "_" (data call)) as [|a [|b [|c [|p3 [|p4 [|]]]]]]; red_M; auto.
  destruct (Py.int p3) as [m|] eqn:Hm; red_M; auto.
  destruct (Py.int p4) as [y|] eqn:Hy; red_M; auto.
  destruct (users d !! from_user call) as [user|] eqn:Hu; red_M; auto.
  destruct (is_month_paid d user m y) eqn:Hpaid; red_M.
  { destruct (MONTH_NAMES env m); red_M; auto. }
  destruct (Pricing.get_price_by_class (course_or_class user)) as [info|] eqn:Hprice; red_M; auto.
  destruct (Qlt_bool (balance user) (inject_Z (Pricing.pi_price info))) eqn:Hlt; red_M; auto.
  right. exists a, b, c, p3, p4, m, y, user, info.
  split_and!; try done.
  destruct (history_insert_ok env); red_M; [|done].
  repeat step_notify.
  destruct (MONTH_NAMES env m); red_M; done.
Qed.

Lemma Qlt_bool_true (a b : Q) : Qlt_bool a b = true ↔ (a < b)%Q.
Proof.
  unfold Qlt_bool. rewrite negb_true_iff, <- not_true_iff_false, Qle_bool_iff.
  split; [apply Qnot_le_lt | apply Qlt_not_le].
Qed.

Lemma Qlt_bool_false (a b : Q) : Qlt_bool a b = false ↔ (b <= a)%Q.
Proof.
  unfold Qlt_bool. by rewrite negb_false_iff, Qle_bool_iff.
Qed.

(** C3. A balance-backed payment of an unpaid month with resolved price P
    and balance B: when P <= B the balance becomes B - P and exactly one
    History Record is appended, of type [balance], status [completed] and
    amount P; when B < P the run is rejected with the insufficient-funds
    answer naming P and B, and the database is unchanged. *)
Theorem balance_payment_debits_or_rejects env call d a b c p3 p4 m y user info :
  Py.split "_" (data call) = [a; b; c; p3; p4] →
  Py.int p3 = Some m → Py.int p4 = Some y →
  users d !! from_user call = Some user →
  telegram_id user = from_user call →
  is_month_paid d user m y = false →
  Pricing.get_price_by_class (course_or_class user) = Some info →
  let P := inject_Z (Pricing.pi_price info) in
  let B := balance user in
  ((P <= B)%Q → history_insert_ok env = true →
     final_db (select_balance_payment_month env call) d =
       mkDB (<[from_user call := with_balance user (B - P)]> (users d)) (payments d)
            (history d ++ [mkHistory (from_user call) None m y P (Pricing.pi_key info)
                                     (u "balance") (u "completed")])
            (admin_states d))
  ∧ ((B < P)%Q →
     run (select_balance_payment_month env call) d =
       (d, [answer_callback_query
              [Lit "Недостаточно средств на балансе!\nТребуется: "; FDec P;
               Lit " ₽\nДоступно: "; FDec B; Lit " ₽"]], None)).
Proof.
  intros Hsplit Hm Hy Hu Hid Hpaid Hprice P B. split.
  - intros Hge Hok. apply Qlt_bool_false in Hge.
    destruct (balance_payment_cases env call d) as [H|H].
    + exfalso. revert H. unfold final_db, run, select_balance_payment_month.
      rewrite Hsplit. unfold_M. red_M.
      rewrite Hm; red_M. rewrite Hy; red_M. rewrite Hu; red_M. rewrite Hpaid; red_M.
      rewrite Hprice; red_M. fold P B. rewrite Hge; red_M. rewrite Hok; red_M.
      repeat step_notify.
      destruct (MONTH_NAMES env m); red_M; intros H; apply (f_equal history) in H;
        cbn [history] in H; by apply (f_equal length) in H; rewrite length_app in H; simpl in H; lia.
    + destruct H as (a' & b' & c' & p3' & p4' & m' & y' & user' & info' & Hsplit' & Hm' & Hy'
                     & Hu' & _ & Hprice' & _ & ->).
      rewrite Hsplit in Hsplit'. simplify_eq. by rewrite Hok, Hid.
  - intros Hlt. apply Qlt_bool_true in Hlt.
    unfold run, select_balance_payment_month.
    rewrite Hsplit. unfold_M. red_M.
    rewrite Hm; red_M. rewrite Hy; red_M. rewrite Hu; red_M. rewrite Hpaid; red_M.
    rewrite Hprice; red_M. fold P B. rewrite Hlt; red_M. by destruct d.
Qed.

Lemma balance_payment_debits_or_rejects_witness :
  let call := mkCall (u "123") (u "pay_balance_month_3_2025") in
  let d' := final_db (select_balance_payment_month (Sample.env (u "pending") true) call)
                     (Sample.db 6000 []) in
  balance <$> users d' !! u "123" = Some (6000 - 5650)%Q
  ∧ history d' = [mkHistory (u "123") None 3 2025 5650 (u "oge_9") (u "balance") (u "completed")].
Proof.
  intros call d'. subst d'.
  rewrite (proj1 (balance_payment_debits_or_rejects (Sample.env (u "pending") true) call (Sample.db 6000 [])
                    (u "pay") (u "balance") (u "month") (u "3") (u "2025") 3 2025
                    (Sample.student 6000)
                    (Pricing.PriceInfo (u "oge_9") (u "💯ОГЭ(9 класс)") 5650
                                       (u "2 часа / 1 раз в неделю"))
                    ltac:(vm_compute; reflexivity) ltac:(vm_compute; reflexivity)
                    ltac:(vm_compute; reflexivity) ltac:(vm_compute; reflexivity)
                    ltac:(vm_compute; reflexivity) ltac:(vm_compute; reflexivity)
                    ltac:(vm_compute; reflexivity))).
  - split; vm_compute; reflexivity.
  - vm_compute. congruence.
  - reflexivity.
Defined.

(** ** The admin cash credit *)

Lemma cash_price_positive class : 0 < (cash_price class).1.
Proof.
  unfold cash_price.
  destruct (Pricing.get_price_by_class class) as [info|] eqn:E; [|done].
  apply get_price_by_class_Some in E as (s & entry & _ & _ & Hfirst & ->).
  destruct Hfirst as (pre & post & Heq & _).
  assert (Hin : entry ∈ Pricing.PRICING_CONFIG) by (rewrite Heq; set_solver).
  assert (Hall : Forall (λ e, 0 < Pricing.price e.2) Pricing.PRICING_CONFIG).
  { repeat (apply Forall_cons; split; [done|]). apply Forall_nil. done. }
  rewrite Forall_forall in Hall. by apply Hall.
Qed.

(** Every run of [handle_admin_mark_payment] either leaves the database as
    it was, or reached the credit: the credited balance is saved, and the
    History Record is appended afterwards, when the month and the year
    parse as integers and the insertion succeeds. *)
Lemma admin_cash_cases env call d :
  final_db (handle_admin_mark_payment env call) d = d ∨
  ∃ admin p3 p4 p5 student,
    users d !! from_user call = Some admin ∧ is_admin admin = true ∧
    Py.split "_" (data call) !! 3%nat = Some p3 ∧
    Py.split "_" (data call) !! 4%nat = Some p4 ∧
    Py.split "_" (data call) !! 5%nat = Some p5 ∧
    Py.strip p3 ≠ [] ∧ is_service_word (Py.strip p3) = false ∧
    users d !! Py.strip p3 = Some student ∧
    let price := (cash_price (class_number student)).1 in
    let label := (cash_price (class_number student)).2 in
    final_db (handle_admin_mark_payment env call) d =
      mkDB (<[telegram_id student :=
                with_balance student (balance student + inject_Z price)]> (users d))
           (payments d)
           (match Py.int (Py.strip p4), Py.int (Py.strip p5) with
            | Some m, Some y =>
                if history_insert_ok env then
                  history d ++ [mkHistory (telegram_id student) None m y (inject_Z price)
                                          label (u "cash") (u "completed")]
                else history d
            | _, _ => history d
            end)
           (admin_states d).
Proof.
  unfold final_db, run, handle_admin_mark_payment, admin_permission_callback,
    handle_admin_mark_payment_body. unfold_M. red_M.
  destruct (users d !! from_user call) as [admin|] eqn:Hadmin; red_M; auto.
  destruct (is_admin admin) eqn:Hisadmin; red_M; auto.
  destruct (length (Py.split "_" (data call)) <? 5)%nat eqn:Hlen; red_M; auto.
  destruct (Py.split "_" (data call) !! 3%nat) as [p3|] eqn:H3; red_M; auto.
  destruct (Py.split "_" (data call) !! 4%nat) as [p4|] eqn:H4; red_M; auto.
  destruct (Py.split "_" (data call) !! 5%nat) as [p5|] eqn:H5; red_M; auto.
  destruct (Py.eqb (Py.strip p3) []) eqn:Hempty; red_M; auto.
  destruct (is_service_word (Py.strip p3)) eqn:Hword; red_M; auto.
  destruct (users d !! Py.strip p3) as [student|] eqn:Hstudent; red_M; auto.
  right. exists admin, p3, p4, p5, student.
  split_and!; try done.
  { intros E. apply eqb_eq in E. congruence. }
  destruct (cash_price (class_number student)) as [price label]. red_M.
  destruct (Py.int (Py.strip p4)) as [m|]; red_M; [|done].
  destruct (Py.int (Py.strip p5)) as [y|]; red_M; [|done].
  destruct (history_insert_ok env); red_M; done.
Qed.

(** C5. The admin cash credit of a student for a month writes one
    completed History Record of type [cash] and adds the price to the
    student's balance: the price and label of the resolved plan, or 5000
    and the generic label when the class resolves to no plan; the balance
    grows; for the class ["9 класс"] the price is 5650. *)
Theorem admin_cash_writes_record_and_credits env call d admin p3 p4 p5 student m y :
  users d !! from_user call = Some admin → is_admin admin = true →
  Py.split "_" (data call) !! 3%nat = Some p3 →
  Py.split "_" (data call) !! 4%nat = Some p4 →
  Py.split "_" (data call) !! 5%nat = Some p5 →
  Py.strip p3 ≠ [] → is_service_word (Py.strip p3) = false →
  users d !! Py.strip p3 = Some student →
  telegram_id student = Py.strip p3 →
  Py.int (Py.strip p4) = Some m → Py.int (Py.strip p5) = Some y →
  history_insert_ok env = true →
  let price := (cash_price (class_number student)).1 in
  let label := (cash_price (class_number student)).2 in
  final_db (handle_admin_mark_payment env call) d =
    mkDB (<[Py.strip p3 := with_balance student (balance student + inject_Z price)]> (users d))
         (payments d)
         (history d ++ [mkHistory (Py.strip p3) None m y (inject_Z price) label
                                  (u "cash") (u "completed")])
         (admin_states d)
  ∧ (balance student < balance student + inject_Z price)%Q
  ∧ (∀ info, Pricing.get_price_by_class (class_number student) = Some info →
       price = Pricing.pi_price info ∧ label = Pricing.pi_name info)
  ∧ (Pricing.get_price_by_class (class_number student) = None →
       price = 5000 ∧ label = u "стандартный тариф")
  ∧ (class_number student = Some (u "9 класс") → price = 5650).
Proof.
  intros Hadmin Hisadmin H3 H4 H5 Hne Hword Hstudent Hid Hm Hy Hok price label.
  split_and!.
  - assert (Hlen : (length (Py.split "_" (data call)) <? 5)%nat = false).
    { apply Nat.ltb_ge. apply lookup_lt_Some in H5. lia. }
    assert (Hempty : Py.eqb (Py.strip p3) [] = false).
    { apply not_true_iff_false. by rewrite eqb_eq. }
    unfold final_db, run, handle_admin_mark_payment, admin_permission_callback,
      handle_admin_mark_payment_body. unfold_M. red_M.
    rewrite Hadmin; red_M. rewrite Hisadmin; red_M. rewrite Hlen; red_M.
    rewrite H3; red_M. rewrite H4; red_M. rewrite H5; red_M.
    rewrite Hempty, Hword; red_M. rewrite Hstudent; red_M.
    subst price label. destruct (cash_price (class_number student)) as [price label]. red_M.
    rewrite Hm; red_M. rewrite Hy; red_M. rewrite Hok; red_M.
    unfold with_balance at 1 3. cbn [telegram_id]. by rewrite Hid.
  - rewrite <- (Qplus_0_r (balance student)) at 1. apply Qplus_lt_r.
    change 0%Q with (inject_Z 0). rewrite <- Zlt_Qlt. apply cash_price_positive.
  - intros info E. subst price label. unfold cash_price. by rewrite E.
  - intros E. subst price label. unfold cash_price. by rewrite E.
  - intros E. subst price. rewrite E. vm_compute. reflexivity.
Qed.

Lemma admin_cash_writes_record_and_credits_witness :
  let call := mkCall (u "100") (u "admin_mark_payment_123_3_2025") in
  let d' := final_db (handle_admin_mark_payment (Sample.env (u "pending") true) call)
                     (Sample.db 0 []) in
  balance <$> users d' !! u "123" = Some (0 + 5650)%Q
  ∧ history d' = [mkHistory (u "123") None 3 2025 5650 (u "💯ОГЭ(9 класс)") (u "cash")
                            (u "completed")].
Proof.
  intros call d'. subst d'.
  rewrite (proj1 (admin_cash_writes_record_and_credits (Sample.env (u "pending") true) call (Sample.db 0 [])
                    Sample.admin (u "123") (u "3") (u "2025") (Sample.student 0) 3 2025
                    ltac:(vm_compute; reflexivity) ltac:(vm_compute; reflexivity)
                    ltac:(vm_compute; reflexivity) ltac:(vm_compute; reflexivity)
                    ltac:(vm_compute; reflexivity) ltac:(vm_compute; congruence)
                    ltac:(vm_compute; reflexivity) ltac:(vm_compute; reflexivity)
                    ltac:(vm_compute; reflexivity) ltac:(vm_compute; reflexivity)
                    ltac:(vm_compute; reflexivity) ltac:(vm_compute; reflexivity))).
  split; vm_compute; reflexivity.
Defined.

(** ** The invariant of the month-paid ledger *)

Lemma stable_of_quiet {A} (m : M A) : quiet m → history_stable m.
Proof. intros Hq w. by destruct (Hq w) as (r & out & ->). Qed.

Lemma stable_bind {A B} (m : M A) (f : A → M B) :
  history_stable m → (∀ a, history_stable (f a)) → history_stable (m ≫= f).
Proof.
  intros Hm Hf w. rewrite bind_run. specialize (Hm w).
  destruct (m w) as [[a| |e] w']; [|done..].
  simpl in Hm. by rewrite Hf.
Qed.

Lemma stable_try {A} (body : M A) handler :
  history_stable body → (∀ e h, handler e = Some h → history_stable h) →
  history_stable (try_except body handler).
Proof.
  intros Hb Hh w. unfold try_except. specialize (Hb w).
  destruct (body w) as [[a| |e] w']; [done..|].
  destruct (handler e) as [h|] eqn:E; [|done].
  simpl in Hb. by rewrite (Hh e h E).
Qed.

Lemma stable_def body : history_stable body → history_stable (def_ body).
Proof.
  intros Hb w. unfold def_. specialize (Hb w). by destruct (body w) as [[a| |e] w'].
Qed.

Lemma stable_User_save usr : history_stable (User_save usr).
Proof. by intros w. Qed.

Lemma stable_Payment_save p : history_stable (Payment_save p).
Proof. by intros w. Qed.

Lemma stable_AdminState_delete a : history_stable (AdminState_delete a).
Proof. by intros w. Qed.

Lemma stable_User_get tid : history_stable (User_get tid).
Proof. apply stable_of_quiet. unfold User_get. quiet_tac. Qed.

Lemma stable_credit_and_save student amt : history_stable (credit_and_save student amt).
Proof.
  unfold credit_and_save. destruct (Dec.add _ _); [|by apply stable_of_quiet; quiet_tac..].
  apply stable_bind; [apply stable_User_save | intros; apply stable_of_quiet; quiet_tac].
Qed.

Create HintDb stable.
#[export] Hint Resolve stable_User_save stable_Payment_save stable_AdminState_delete
  stable_User_get stable_credit_and_save : stable.

Ltac stable_step :=
  first
    [ progress intros
    | solve [auto with stable]
    | solve [apply stable_of_quiet; auto with quiet]
    | apply stable_def
    | apply stable_try
    | apply stable_bind
    | match goal with
      | |- history_stable (match ?x with _ => _ end) => destruct x eqn:?
      | |- history_stable (if ?x then _ else _) => destruct x eqn:?
      | H : except_Exception _ _ = Some _ |- _ => injection H as <-
      | H : caught_ValueError_or_DoesNotExist _ ?e = Some _ |- _ =>
          destruct e; simpl in H; simplify_eq
      | H : Some _ = Some _ |- _ => injection H as <-
      | H : None = Some _ |- _ => discriminate H
      | H : match ?e with _ => _ end = Some _ |- _ => destruct e; simplify_eq
      end ].

Ltac stable_tac := repeat stable_step.

Lemma stable_final_db (h : M unit) (d : DB) :
  history_stable h → history (final_db h d) = history d.
Proof.
  intros Hs. unfold final_db, run. specialize (Hs (mkWorld d [])).
  by destruct (h (mkWorld d [])) as [[a| |e] w'].
Qed.

(** Creating a gateway payment and crediting a free amount write no
    History Record. *)
Lemma confirm_payment_history env call d :
  history (final_db (confirm_payment env call) d) = history d.
Proof. apply stable_final_db. unfold confirm_payment, int_. stable_tac. Qed.

Lemma admin_text_input_history msg d :
  history (final_db (handle_admin_text_input msg) d) = history d.
Proof.
  apply stable_final_db.
  unfold handle_admin_text_input, admin_permission, handle_admin_text_input_body.
  stable_tac.
Qed.

Lemma one_completed_same_history (d d' : DB) :
  history d' = history d → one_completed_per_month d → one_completed_per_month d'.
Proof. intros Hh Hinv student m y. unfold completed_for. rewrite Hh. apply Hinv. Qed.

(** Appending a record for a month that has no completed record keeps the
    invariant. *)
Lemma one_completed_append (d d' : DB) (user : User) (r : PaymentHistory) :
  history d' = history d ++ [r] →
  h_user r = telegram_id user →
  is_month_paid d user (month r) (year r) = false →
  one_completed_per_month d → one_completed_per_month d'.
Proof.
  intros Hh Hu Hpaid Hinv student m y. unfold completed_for. rewrite Hh, filter_app, length_app.
  destruct (decide (h_user r = student ∧ month r = m ∧ year r = y)) as [(<- & <- & <-)|Hne].
  - apply is_month_paid_false in Hpaid. rewrite <- Hu in Hpaid. unfold completed_for in Hpaid.
    rewrite Hpaid. simpl. pose proof (length_filter
      (λ r0, h_user r0 = h_user r ∧ month r0 = month r ∧ year r0 = year r
             ∧ h_status r0 = u "completed") [r]) as Hl. simpl in Hl. lia.
  - rewrite filter_cons_False by tauto. rewrite filter_nil. simpl.
    specialize (Hinv student m y). unfold completed_for in Hinv. lia.
Qed.

(** The guarded flows keep the invariant. *)
Lemma guarded_flows_keep_invariant env call msg d :
  one_completed_per_month d →
  one_completed_per_month (final_db (check_payment env call) d)
  ∧ one_completed_per_month (final_db (confirm_payment env call) d)
  ∧ one_completed_per_month (final_db (select_balance_payment_month env call) d)
  ∧ one_completed_per_month (final_db (handle_admin_text_input msg) d).
Proof.
  intros Hinv. split_and!.
  - destruct (check_payment_cases env call d) as [-> | H]; [done|].
    destruct H as (a & b & pid & p3 & p4 & m & y & user & info & payment & _ & _ & _ & _
                   & Hpaid & _ & _ & _ & ->).
    destruct (history_insert_ok env).
    + by eapply (one_completed_append d _ user).
    + by eapply one_completed_same_history.
  - eapply one_completed_same_history; [apply confirm_payment_history | done].
  - destruct (balance_payment_cases env call d) as [-> | H]; [done|].
    destruct H as (a & b & c & p3 & p4 & m & y & user & info & _ & _ & _ & _ & Hpaid & _ & _ & ->).
    destruct (history_insert_ok env).
    + by eapply (one_completed_append d _ user).
    + by eapply one_completed_same_history.
  - eapply one_completed_same_history; [apply admin_text_input_history | done].
Qed.

(** ** The already-paid guard *)

(** The guarded flows: with a completed record for the month, the gateway
    poll, the creation of a gateway payment and the balance payment answer
    that the month is paid and change nothing. *)
Lemma check_payment_rejects_paid_month env call d a b pid p3 p4 m y user mn :
  Py.split "_" (data call) = [a; b; pid; p3; p4] →
  Py.int p3 = Some m → Py.int p4 = Some y →
  users d !! from_user call = Some user →
  is_month_paid d user m y = true →
  MONTH_NAMES env m = Some mn →
  run (check_payment env call) d =
    (d, [answer_callback_query [Lit "Месяц "; FStr mn; Lit " "; FInt y; Lit " уже оплачен!"]],
     None).
Proof.
  intros Hsplit Hm Hy Hu Hpaid Hmn. unfold run, check_payment.
  rewrite Hsplit. unfold_M. red_M.
  rewrite Hm; red_M. rewrite Hy; red_M. rewrite Hu; red_M. rewrite Hpaid; red_M.
  rewrite Hmn; red_M. by destruct d.
Qed.

Lemma confirm_payment_rejects_paid_month env call d a b p2 p3 m y user :
  Py.split "_" (data call) = [a; b; p2; p3] →
  Py.int p2 = Some m → Py.int p3 = Some y →
  users d !! from_user call = Some user →
  is_month_paid d user m y = true →
  run (confirm_payment env call) d =
    (d, [answer_callback_query [Lit "Этот месяц уже оплачен!"]], None).
Proof.
  intros Hsplit Hm Hy Hu Hpaid. unfold run, confirm_payment.
  rewrite Hsplit. unfold_M. red_M.
  rewrite Hm; red_M. rewrite Hy; red_M. rewrite Hu; red_M. rewrite Hpaid; red_M.
  by destruct d.
Qed.

Lemma balance_payment_rejects_paid_month env call d a b c p3 p4 m y user mn :
  Py.split "_" (data call) = [a; b; c; p3; p4] →
  Py.int p3 = Some m → Py.int p4 = Some y →
  users d !! from_user call = Some user →
  is_month_paid d user m y = true →
  MONTH_NAMES env m = Some mn →
  run (select_balance_payment_month env call) d =
    (d, [answer_callback_query [Lit "Месяц "; FStr mn; Lit " "; FInt y; Lit " уже оплачен!"]],
     None).
Proof.
  intros Hsplit Hm Hy Hu Hpaid Hmn. unfold run, select_balance_payment_month.
  rewrite Hsplit. unfold_M. red_M.
  rewrite Hm; red_M. rewrite Hy; red_M. rewrite Hu; red_M. rewrite Hpaid; red_M.
  rewrite Hmn; red_M. by destruct d.
Qed.

(** C1. [handle_admin_mark_payment] has no already-paid guard: for a
    student whose March 2025 already has a completed record, the admin
    cash credit of March 2025 is not rejected; it credits the balance and
    appends a second completed record for the same month, which breaks
    the invariant of one completed record per (student, month, year). *)
Theorem admin_cash_ignores_paid_month :
  let call := mkCall (u "100") (u "admin_mark_payment_123_3_2025") in
  let env := Sample.env (u "pending") true in
  let d := Sample.db 0 [Sample.paid_march] in
  let d' := final_db (handle_admin_mark_payment env call) d in
  is_month_paid d (Sample.student 0) 3 2025 = true
  ∧ length (completed_for d (u "123") 3 2025) = 1%nat
  ∧ length (completed_for d' (u "123") 3 2025) = 2%nat
  ∧ balance <$> users d !! u "123" = Some 0%Q
  ∧ balance <$> users d' !! u "123" = Some (0 + 5650)%Q
  ∧ (∃ t1 t2, messages (handle_admin_mark_payment env call) d =
                [edit_message_text t1 ADMIN_MARKUP; send_message (chat_of (u "123")) t2 None])
  ∧ one_completed_per_month d
  ∧ ¬ one_completed_per_month d'.
Proof.
  cbv zeta. split_and!; try (vm_compute; reflexivity).
  - eexists _, _. vm_compute. reflexivity.
  - intros student m y. unfold completed_for.
    etrans; [apply length_filter | done].
  - intros H. specialize (H (u "123") 3 2025). vm_compute in H. lia.
Qed.

(** ** Balance mutation and history write *)

(** C2. The claim that a failure between the balance save and the history
    write leaves no partial state fails on the code, which saves the
    balance first and wraps nothing in a transaction: a balance payment
    whose history insertion is refused after the guard has passed keeps
    the debit without a record, and an admin cash credit whose month is
    not an integer keeps the credit without a record. *)
Theorem balance_saved_without_record :
  (let call := mkCall (u "123") (u "pay_balance_month_3_2025") in
   let d := Sample.db 6000 [] in
   let d' := final_db (select_balance_payment_month (Sample.env (u "pending") false) call) d in
   is_month_paid d (Sample.student 6000) 3 2025 = false
   ∧ balance <$> users d' !! u "123" = Some (6000 - 5650)%Q
   ∧ history d' = []
   ∧ ¬ pair_applied_or_not d d')
  ∧ (let call := mkCall (u "100") (u "admin_mark_payment_123_abc_2025") in
     let d := Sample.db 0 [] in
     let d' := final_db (handle_admin_mark_payment (Sample.env (u "pending") true) call) d in
     balance <$> users d' !! u "123" = Some (0 + 5650)%Q
     ∧ history d' = []
     ∧ messages (handle_admin_mark_payment (Sample.env (u "pending") true) call) d
       = [answer_callback_query [Lit "❌ Произошла ошибка"]]
     ∧ ¬ pair_applied_or_not d d').
Proof.
  cbv zeta. split_and!; try (vm_compute; reflexivity).
  - intros [[Hu _] | [_ Hh]].
    + apply (f_equal (λ us, balance <$> us !! u "123")) in Hu. vm_compute in Hu. congruence.
    + apply Hh. vm_compute. reflexivity.
  - intros [[Hu _] | [_ Hh]].
    + apply (f_equal (λ us, balance <$> us !! u "123")) in Hu. vm_compute in Hu. congruence.
    + apply Hh. vm_compute. reflexivity.
Qed.

(** The balance mutation is saved before the History Record is written:
    a run of the balance payment or of the admin cash credit ends with
    nothing applied, with the balance saved and the record appended, or,
    when a step fails after the save (the insertion is refused; in the
    admin path also a month or year that is not an integer), with the
    balance saved and no record. A record without the balance mutation
    does not occur. *)
Lemma pair_outcome_of_payment env call d :
  pair_outcome (history_insert_ok env = false)
               d (final_db (select_balance_payment_month env call) d)
  ∧ pair_outcome (history_insert_ok env = false
                  ∨ ∃ p4 p5, Py.split "_" (data call) !! 4%nat = Some p4
                             ∧ Py.split "_" (data call) !! 5%nat = Some p5
                             ∧ (Py.int (Py.strip p4) = None ∨ Py.int (Py.strip p5) = None))
                 d (final_db (handle_admin_mark_payment env call) d).
Proof.
  split.
  - destruct (balance_payment_cases env call d) as [H|H]; [by apply nothing_applied|].
    destruct H as (a & b & c & p3 & p4 & m & y & user & info & _ & _ & _ & _ & _ & _ & _ & ->).
    destruct (history_insert_ok env) eqn:Hok.
    + by eapply (both_applied _ _ _ (with_balance user _)).
    + by eapply (balance_only _ _ _ (with_balance user _)).
  - destruct (admin_cash_cases env call d) as [H|H]; [by apply nothing_applied|].
    destruct H as (admin & p3 & p4 & p5 & student & _ & _ & _ & H4 & H5 & _ & _ & _ & ->).
    destruct (Py.int (Py.strip p4)) as [m|] eqn:Hm;
      [destruct (Py.int (Py.strip p5)) as [y|] eqn:Hy;
         [destruct (history_insert_ok env) eqn:Hok|]|].
    + by eapply (both_applied _ _ _ (with_balance student _)).
    + eapply (balance_only _ _ _ (with_balance student _)); [by left | done].
    + eapply (balance_only _ _ _ (with_balance student _)); [|done].
      right. exists p4, p5. auto.
    + eapply (balance_only _ _ _ (with_balance student _)); [|done].
      right. exists p4, p5. auto.
Qed.

(** ** The admin free-amount credit *)

Lemma Qle_bool_false (a b : Q) : Qle_bool a b = false ↔ (b < a)%Q.
Proof.
  rewrite <- not_true_iff_false, Qle_bool_iff. split; [apply Qnot_le_lt | apply Qlt_not_le].
Qed.



(** * Further properties *)

(** ** The price table *)

Lemma substring_trans (a b c : pystr) :
  Py.substring a b → Py.substring b c → Py.substring a c.
Proof.
  intros (p1 & q1 & ->) (p2 & q2 & ->).
  exists (p2 ++ p1), (q1 ++ q2). by rewrite <- !app_assoc.
Qed.

(** The plan a scan returns, by its position: no plan at a smaller
    position matches. *)
Lemma scan_first_index (table : list (pystr * Pricing.plan)) (label : pystr)
    (info : Pricing.price_info) :
  Pricing.scan table label = Some info →
  ∃ i entry, table !! i = Some entry ∧ info = Pricing.info_of entry
    ∧ Pricing.matches label entry
    ∧ ∀ j earlier, (j < i)%nat → table !! j = Some earlier → ¬ Pricing.matches label earlier.
Proof.
  induction table as [|e table IH]; simpl; [done|].
  destruct (Pricing.any_keyword (Pricing.keywords e.2) label) eqn:E.
  - intros [= <-]. exists 0%nat, e. split_and!; [done | done | by apply any_keyword_matches |].
    intros j earlier Hj. lia.
  - intros H. destruct (IH H) as (i & entry & Hi & -> & Hm & Hfirst).
    exists (S i), entry. split_and!; [done | done | done |].
    intros [|j] earlier Hj Hl; simpl in Hl.
    + simplify_eq. rewrite <- any_keyword_matches. congruence.
    + apply (Hfirst j); [lia | done].
Qed.

Lemma get_price_by_class_scan (class_info : option pystr) (info : Pricing.price_info) :
  Pricing.get_price_by_class class_info = Some info →
  ∃ s, class_info = Some s
       ∧ Pricing.scan Pricing.PRICING_CONFIG (Py.strip (Py.lower s)) = Some info.
Proof. destruct class_info as [[|c s]|]; [done | eauto | done]. Qed.

(** X1. The plans [university_course_5] and [university_course_6] are
    never returned: each of their keywords contains ["5"] (or ["6"]), a
    keyword of the earlier plan [class_5_6], which therefore wins. *)
Theorem university_course_5_6_never_resolved (class_info : option pystr)
    (info : Pricing.price_info) :
  Pricing.get_price_by_class class_info = Some info →
  Pricing.pi_key info ≠ u "university_course_5"
  ∧ Pricing.pi_key info ≠ u "university_course_6".
Proof.
  intros H. apply get_price_by_class_scan in H as (s & _ & H).
  apply scan_first_index in H as (i & entry & Hi & -> & (kw & Hkw & Hsub) & Hfirst).
  set (label := Py.strip (Py.lower s)) in *.
  assert (Hshadow : ∀ digit, Py.substring digit kw → digit = u "5" ∨ digit = u "6" →
                    (6 < i)%nat → False).
  { intros digit Hd Hin Hlt.
    apply (Hfirst 6%nat
             (u "class_5_6",
              Pricing.Plan (u "💯5, 6 класс") 3670 (u "1 час / 1 раз в неделю")
                           [u "5"; u "6"; u "5 класс"; u "6 класс"]) Hlt).
    - vm_compute. reflexivity.
    - exists digit. split; [|by apply (substring_trans digit kw label)].
      cbn [Pricing.keywords snd]. destruct Hin as [-> | ->]; [left | right; left]. }
  destruct i as [|[|[|[|[|[|[|[|[|[|[|[|[|i]]]]]]]]]]]]]; vm_compute in Hi; simplify_eq;
    try (split; intros Hk; vm_compute in Hk; congruence).
  - exfalso. cbn [Pricing.keywords snd] in Hkw.
    assert (Py.substring (u "5") kw).
    { apply contains_spec.
      repeat (apply elem_of_cons in Hkw as [-> | Hkw]; [vm_compute; reflexivity|]).
      by apply elem_of_nil in Hkw. }
    eapply Hshadow; [done | by left | lia].
  - exfalso. cbn [Pricing.keywords snd] in Hkw.
    assert (Py.substring (u "6") kw).
    { apply contains_spec.
      repeat (apply elem_of_cons in Hkw as [-> | Hkw]; [vm_compute; reflexivity|]).
      by apply elem_of_nil in Hkw. }
    eapply Hshadow; [done | by right | lia].
Qed.

Lemma university_course_5_6_never_resolved_witness :
  ∃ info, Pricing.get_price_by_class (Some (u "5 курс")) = Some info
          ∧ Pricing.pi_price info = 3670
          ∧ Pricing.pi_key info ≠ u "university_course_5".
Proof.
  eexists. split; [vm_compute; reflexivity|]. split; [reflexivity|].
  apply (university_course_5_6_never_resolved (Some (u "5 курс"))).
  vm_compute. reflexivity.
Defined.

Ltac N_cases :=
  repeat match goal with
    | H : _ && _ = true |- _ => apply andb_true_iff in H as [? ?]
    | H : _ && _ = false |- _ => apply andb_false_iff in H as [? | ?]
    | H : _ || _ = true |- _ => apply orb_true_iff in H as [? | ?]
    | H : _ || _ = false |- _ => apply orb_false_iff in H as [? ?]
    | H : negb _ = true |- _ => apply negb_true_iff in H
    | H : negb _ = false |- _ => apply negb_false_iff in H
    | H : (_ <=? _)%N = true |- _ => apply N.leb_le in H
    | H : (_ <=? _)%N = false |- _ => apply N.leb_gt in H
    | H : (_ =? _)%N = true |- _ => apply N.eqb_eq in H
    | H : (_ =? _)%N = false |- _ => apply N.eqb_neq in H
    end.

Lemma isspace_true (c : N) :
  Py.isspace c = true →
  (9 <= c <= 13 ∨ 28 <= c <= 32 ∨ c = 133 ∨ c = 160 ∨ 5760 <= c)%N.
Proof. unfold Py.isspace, Py.in_range. intros H. N_cases; lia. Qed.

Lemma lower_cp_cases (c : N) :
  Py.lower_cp c = c
  ∨ ((97 <= Py.lower_cp c <= 122 ∨ 224 <= Py.lower_cp c <= 254
      ∨ 1072 <= Py.lower_cp c <= 1119)
     ∧ (65 <= c <= 90 ∨ 192 <= c <= 222 ∨ 1024 <= c <= 1071))%N.
Proof.
  unfold Py.lower_cp.
  repeat (match goal with |- context [if ?b then _ else _] => destruct b eqn:? end;
          [right; N_cases; lia|]).
  by left.
Qed.

Lemma isspace_lower_cp (c : N) : Py.isspace (Py.lower_cp c) = Py.isspace c.
Proof.
  destruct (lower_cp_cases c) as [-> | [Hl Hc]]; [done|].
  destruct (Py.isspace (Py.lower_cp c)) eqn:E1; [apply isspace_true in E1; lia|].
  destruct (Py.isspace c) eqn:E2; [apply isspace_true in E2; lia | done].
Qed.

Lemma forallb_isspace_lower (pad : pystr) :
  forallb Py.isspace (Py.lower pad) = forallb Py.isspace pad.
Proof.
  induction pad as [|c pad IH]; [done|]. simpl. by rewrite isspace_lower_cp, IH.
Qed.

Lemma lstrip_spaces (pad t : pystr) :
  forallb Py.isspace pad = true → Py.lstrip (pad ++ t) = Py.lstrip t.
Proof.
  induction pad as [|c pad IH]; [done|]. simpl.
  intros [Hc Hpad]%andb_true_iff. rewrite Hc. by apply IH.
Qed.

Lemma lstrip_nil_iff (s : pystr) : Py.lstrip s = [] ↔ forallb Py.isspace s = true.
Proof.
  induction s as [|c s IH]; [done|]. simpl. destruct (Py.isspace c); [done|].
  split; done.
Qed.

Lemma lstrip_app_keep (s t : pystr) :
  Py.lstrip s ≠ [] → Py.lstrip (s ++ t) = Py.lstrip s ++ t.
Proof.
  induction s as [|c s IH]; [done|]. simpl. destruct (Py.isspace c); [done|]. done.
Qed.

Lemma forallb_isspace_rev (pad : pystr) :
  forallb Py.isspace (rev pad) = forallb Py.isspace pad.
Proof.
  induction pad as [|c pad IH]; [done|]. simpl.
  rewrite forallb_app, IH. simpl. rewrite andb_true_r. apply andb_comm.
Qed.

(** [strip] drops any whitespace padding. *)
Lemma strip_padding (pad1 s pad2 : pystr) :
  forallb Py.isspace pad1 = true → forallb Py.isspace pad2 = true →
  Py.strip (pad1 ++ s ++ pad2) = Py.strip s.
Proof.
  intros H1 H2. unfold Py.strip. rewrite (lstrip_spaces pad1) by done.
  destruct (Py.lstrip s) as [|c t] eqn:E.
  - apply lstrip_nil_iff in E.
    assert (Hall : Py.lstrip (s ++ pad2) = []).
    { apply lstrip_nil_iff. rewrite forallb_app. by rewrite E, H2. }
    by rewrite Hall.
  - rewrite lstrip_app_keep by (rewrite E; done). rewrite E.
    rewrite rev_app_distr. rewrite lstrip_spaces; [done|].
    by rewrite forallb_isspace_rev.
Qed.

Lemma get_price_by_class_scan_eq (s : pystr) :
  Pricing.get_price_by_class (Some s)
    = Pricing.scan Pricing.PRICING_CONFIG (Py.strip (Py.lower s)).
Proof. destruct s; [vm_compute; reflexivity | reflexivity]. Qed.

(** X2. Labels that differ only in letter case and in surrounding
    whitespace are priced alike. *)
Theorem get_price_by_class_ignores_case_and_padding (s s' pad1 pad2 : pystr) :
  forallb Py.isspace pad1 = true → forallb Py.isspace pad2 = true →
  Py.lower s' = Py.lower s →
  Pricing.get_price_by_class (Some (pad1 ++ s' ++ pad2))
    = Pricing.get_price_by_class (Some s).
Proof.
  intros H1 H2 Hcase. rewrite !get_price_by_class_scan_eq. f_equal.
  unfold Py.lower. rewrite !map_app. fold (Py.lower pad1) (Py.lower s') (Py.lower pad2).
  rewrite Hcase. apply strip_padding; by rewrite forallb_isspace_lower.
Qed.

Lemma get_price_by_class_ignores_case_and_padding_witness :
  Pricing.get_price_by_class (Some (u "  " ++ u "10 КЛАСС" ++ u " "))
    = Pricing.get_price_by_class (Some (u "10 класс"))
  ∧ Pricing.pi_price <$> Pricing.get_price_by_class (Some (u "10 класс")) = Some 7000.
Proof.
  split; [|vm_compute; reflexivity].
  apply get_price_by_class_ignores_case_and_padding; vm_compute; reflexivity.
Defined.

(** X3. A label whose normalised form contains ["9"] is priced as the
    first plan of the table, [oge_9] (5650), whatever else it contains. *)
Theorem label_with_9_is_priced_as_oge (s : pystr) :
  Py.substring (u "9") (Py.strip (Py.lower s)) →
  Pricing.get_price_by_class (Some s) =
    Some (Pricing.PriceInfo (u "oge_9") (u "💯ОГЭ(9 класс)") 5650
                            (u "2 часа / 1 раз в неделю")).
Proof.
  intros H9. rewrite get_price_by_class_scan_eq.
  change Pricing.PRICING_CONFIG with
    ((u "oge_9", Pricing.Plan (u "💯ОГЭ(9 класс)") 5650 (u "2 часа / 1 раз в неделю")
                              [u "9"; u "oge"; u "огэ"; u "9 класс"])
       :: drop 1 Pricing.PRICING_CONFIG).
  cbn [Pricing.scan Pricing.keywords snd Pricing.any_keyword].
  apply contains_spec in H9. by rewrite H9.
Qed.

Lemma label_with_9_is_priced_as_oge_witness :
  Pricing.pi_price <$> Pricing.get_price_by_class (Some (u "1 курс, 2019")) = Some 5650.
Proof.
  rewrite (label_with_9_is_priced_as_oge (u "1 курс, 2019")).
  - vm_compute. reflexivity.
  - apply contains_spec. vm_compute. reflexivity.
Defined.

(** X4. Whatever [get_price_by_class] returns is one of
    [get_all_price_options()], which lists the thirteen plans under
    pairwise different keys. *)
Theorem resolved_price_is_listed :
  (∀ class_info info,
     Pricing.get_price_by_class class_info = Some info → info ∈ get_all_price_options)
  ∧ length get_all_price_options = 13%nat
  ∧ NoDup (Pricing.pi_key <$> get_all_price_options).
Proof.
  split_and!.
  - intros class_info info H. apply get_price_by_class_scan in H as (s & _ & H).
    apply scan_first_index in H as (i & entry & Hi & -> & _).
    unfold get_all_price_options. apply list_elem_of_fmap. exists entry. split; [done|].
    by apply list_elem_of_lookup_2 in Hi.
  - reflexivity.
  - apply (bool_decide_unpack _). vm_compute. reflexivity.
Qed.

(** ** The gateway poll: errors and frame *)


(** X6. When the gateway gives no answer, or answers [succeeded] for a
    payment that has no local Payment row, the poll reports it and changes
    nothing: no History Record is made up. *)
Theorem check_payment_without_gateway_or_intent env call d a b pid p3 p4 m y user :
  Py.split "_" (data call) = [a; b; pid; p3; p4] →
  Py.int p3 = Some m → Py.int p4 = Some y →
  users d !! from_user call = Some user →
  is_month_paid d user m y = false →
  (get_payment env pid = None ∨ get_payment env pid = Some [] →
     run (check_payment env call) d
       = (d, [answer_callback_query [Lit "Ошибка получения информации о платеже"]], None))
  ∧ (∀ info,
       get_payment env pid = Some info →
       is_str (dict_get info (u "status")) (u "succeeded") = true →
       payments d !! pid = None →
       run (check_payment env call) d
         = (d, [answer_callback_query [Lit "Платеж не найден в базе данных"]], None)).
Proof.
  intros Hsplit Hm Hy Hu Hpaid. split.
  - intros Hget. unfold run, check_payment. rewrite Hsplit. unfold_M. red_M.
    rewrite Hm; red_M. rewrite Hy; red_M. rewrite Hu; red_M. rewrite Hpaid; red_M.
    destruct Hget as [-> | ->]; red_M; by destruct d.
  - intros info Hget Hst Hp. unfold run, check_payment, commit_succeeded.
    rewrite Hsplit. unfold_M. red_M.
    rewrite Hm; red_M. rewrite Hy; red_M. rewrite Hu; red_M. rewrite Hpaid; red_M.
    rewrite Hget. destruct info as [|kv info]; [done|]. red_M.
    rewrite Hst; red_M. rewrite Hp; red_M. by destruct d.
Qed.

Lemma check_payment_without_gateway_or_intent_witness :
  run (check_payment (Sample.env (u "succeeded") true)
         (mkCall (u "123") (u "check_payment_unknown_3_2025")))
      (Sample.db 0 [])
  = (Sample.db 0 [], [answer_callback_query [Lit "Платеж не найден в базе данных"]], None).
Proof.
  apply (proj2 (check_payment_without_gateway_or_intent (Sample.env (u "succeeded") true)
           (mkCall (u "123") (u "check_payment_unknown_3_2025")) (Sample.db 0 [])
           (u "check") (u "payment") (u "unknown") (u "3") (u "2025") 3 2025
           (Sample.student 0)
           ltac:(vm_compute; reflexivity) ltac:(vm_compute; reflexivity)
           ltac:(vm_compute; reflexivity) ltac:(vm_compute; reflexivity)
           ltac:(vm_compute; reflexivity))
           [(u "id", VStr (u "unknown")); (u "status", VStr (u "succeeded"))]);
    vm_compute; reflexivity.
Defined.

(** X7. Whatever the input, the poll leaves every user row (so every
    balance) and every wait state as they were, changes at most the
    Payment row it saves, and appends at most one History Record, which
    then refers to a Payment. *)
Theorem check_payment_frame env call d :
  let d' := final_db (check_payment env call) d in
  users d' = users d
  ∧ admin_states d' = admin_states d
  ∧ (payments d' = payments d
     ∨ ∃ p, payments d' = <[yookassa_payment_id p := p]> (payments d)
            ∧ status p = VStr (u "succeeded"))
  ∧ (history d' = history d
     ∨ ∃ r, history d' = history d ++ [r] ∧ is_Some (h_payment r)
            ∧ payment_type r = default_payment_type).
Proof.
  cbv zeta. destruct (check_payment_cases env call d) as [-> | H]; [by auto|].
  destruct H as (a & b & pid & p3 & p4 & m & y & user & info & payment & _ & _ & _ & _ & _
                 & _ & _ & _ & ->).
  cbn [users payments history admin_states]. split_and!; [done | done | |].
  - right. by exists (succeeded_payment payment info).
  - destruct (history_insert_ok env); [right | by left].
    eexists. split_and!; [done | by eexists | done].
Qed.

(** ** The gateway flow, step after step *)

Lemma is_month_paid_history (d d' : DB) (user : User) (m y : Z) :
  history d' = history d → is_month_paid d' user m y = is_month_paid d user m y.
Proof. unfold is_month_paid. by intros ->. Qed.

Lemma is_month_paid_append (d d' : DB) (r : PaymentHistory) (user : User) (m y : Z) :
  history d' = history d ++ [r] →
  is_month_paid d' user m y
    = is_month_paid d user m y
      || (Py.eqb (h_user r) (telegram_id user) && (month r =? m) && (year r =? y)
          && Py.eqb (h_status r) (u "completed")).
Proof.
  unfold is_month_paid. intros ->. rewrite existsb_app. simpl. by rewrite orb_false_r.
Qed.

(** The database after a poll that commits. *)
Lemma check_payment_commits env call d a b pid p3 p4 m y user info payment :
  Py.split "_" (data call) = [a; b; pid; p3; p4] →
  Py.int p3 = Some m → Py.int p4 = Some y →
  users d !! from_user call = Some user →
  is_month_paid d user m y = false →
  get_payment env pid = Some info →
  is_str (dict_get info (u "status")) (u "succeeded") = true →
  payments d !! pid = Some payment →
  history_insert_ok env = true →
  final_db (check_payment env call) d =
    mkDB (users d)
         (<[yookassa_payment_id payment := succeeded_payment payment info]> (payments d))
         (history d ++ [mkHistory (telegram_id user) (Some (yookassa_payment_id payment))
                                  m y (amount payment) (pay_pricing_plan payment)
                                  default_payment_type default_status])
         (admin_states d).
Proof.
  intros Hsplit Hm Hy Hu Hpaid Hget Hst Hp Hok.
  unfold final_db, run, check_payment, commit_succeeded.
  rewrite Hsplit. unfold_M. red_M.
  rewrite Hm; red_M. rewrite Hy; red_M. rewrite Hu; red_M. rewrite Hpaid; red_M.
  rewrite Hget. destruct info as [|kv info]; [done|]. red_M.
  rewrite Hst; red_M. rewrite Hp; red_M. rewrite Hok; red_M.
  repeat step_notify.
  destruct (MONTH_NAMES env m); red_M; reflexivity.
Qed.

(** X8. The guard is per month, not per payment: after a succeeded gateway
    payment has paid one month, a poll that names the same payment and
    another unpaid month commits a second record for it. One payment then
    stands behind two paid months. *)
Theorem one_payment_pays_two_months env call1 call2 d a b pid p3 p4 a' b' q3 q4
    m1 y1 m2 y2 user info payment :
  Py.split "_" (data call1) = [a; b; pid; p3; p4] →
  Py.int p3 = Some m1 → Py.int p4 = Some y1 →
  Py.split "_" (data call2) = [a'; b'; pid; q3; q4] →
  Py.int q3 = Some m2 → Py.int q4 = Some y2 →
  from_user call2 = from_user call1 →
  users d !! from_user call1 = Some user →
  is_month_paid d user m1 y1 = false → is_month_paid d user m2 y2 = false →
  (m1, y1) ≠ (m2, y2) →
  get_payment env pid = Some info →
  is_str (dict_get info (u "status")) (u "succeeded") = true →
  payments d !! pid = Some payment → yookassa_payment_id payment = pid →
  history_insert_ok env = true →
  let d1 := final_db (check_payment env call1) d in
  let d2 := final_db (check_payment env call2) d1 in
  ∃ r1 r2,
    history d2 = history d ++ [r1; r2]
    ∧ h_payment r1 = Some pid ∧ h_payment r2 = Some pid
    ∧ (month r1, year r1) = (m1, y1) ∧ (month r2, year r2) = (m2, y2)
    ∧ amount_paid r1 = amount payment ∧ amount_paid r2 = amount payment
    ∧ h_status r1 = u "completed" ∧ h_status r2 = u "completed".
Proof.
  intros Hs1 Hm1 Hy1 Hs2 Hm2 Hy2 Hfrom Hu Hp1 Hp2 Hne Hget Hst Hp Hid Hok d1 d2.
  assert (Hd1 := check_payment_commits env call1 d a b pid p3 p4 m1 y1 user info payment
                   Hs1 Hm1 Hy1 Hu Hp1 Hget Hst Hp Hok).
  fold d1 in Hd1.
  assert (Hu1 : users d1 !! from_user call2 = Some user) by (by rewrite Hd1, Hfrom).
  assert (Hpaid1 : is_month_paid d1 user m2 y2 = false).
  { rewrite (is_month_paid_append d d1 _ user m2 y2) by (by rewrite Hd1).
    rewrite Hp2. cbn [month year orb].
    destruct (Z.eqb_spec m1 m2) as [->|]; [|by rewrite andb_false_r].
    destruct (Z.eqb_spec y1 y2) as [->|]; [done|]. by rewrite andb_false_r. }
  assert (Hpay1 : payments d1 !! pid = Some (succeeded_payment payment info)).
  { rewrite Hd1. cbn [payments]. rewrite Hid. apply lookup_insert_eq. }
  assert (Hd2 := check_payment_commits env call2 d1 a' b' pid q3 q4 m2 y2 user info
                   (succeeded_payment payment info) Hs2 Hm2 Hy2 Hu1 Hpaid1 Hget Hst Hpay1 Hok).
  fold d2 in Hd2. rewrite Hd2, Hd1. cbn [history]. rewrite <- app_assoc.
  eexists _, _. split; [reflexivity|].
  cbn [h_payment month year amount_paid h_status succeeded_payment yookassa_payment_id amount].
  by rewrite Hid.
Qed.

Lemma one_payment_pays_two_months_witness :
  let env := Sample.env (u "succeeded") true in
  let d1 := final_db (check_payment env (mkCall (u "123") (u "check_payment_2d8b-000f_3_2025")))
                     (Sample.db 0 []) in
  let d2 := final_db (check_payment env (mkCall (u "123") (u "check_payment_2d8b-000f_4_2025")))
                     d1 in
  ∃ r1 r2, history d2 = [r1; r2]
           ∧ h_payment r1 = Some (u "2d8b-000f") ∧ h_payment r2 = Some (u "2d8b-000f")
           ∧ (month r1, year r1) = (3, 2025) ∧ (month r2, year r2) = (4, 2025).
Proof.
  cbv zeta.
  destruct (one_payment_pays_two_months (Sample.env (u "succeeded") true)
              (mkCall (u "123") (u "check_payment_2d8b-000f_3_2025"))
              (mkCall (u "123") (u "check_payment_2d8b-000f_4_2025"))
              (Sample.db 0 [])
              (u "check") (u "payment") (u "2d8b-000f") (u "3") (u "2025")
              (u "check") (u "payment") (u "4") (u "2025") 3 2025 4 2025
              (Sample.student 0)
              [(u "id", VStr (u "2d8b-000f")); (u "status", VStr (u "succeeded"))]
              Sample.intent)
    as (r1 & r2 & Hh & H1 & H2 & H3 & H4 & _);
    try (vm_compute; reflexivity); [vm_compute; congruence|].
  exists r1, r2. split_and!; done.
Defined.

(** ** Creating a gateway payment *)

(** Every run of a creation handler leaves the database as it was or
    stores one Payment row for the gateway's response. *)
Lemma confirm_payment_cases env call d :
  final_db (confirm_payment env call) d = d
  ∨ creates_intent env call d (λ _, TEST_PRICE env) (final_db (confirm_payment env call) d).
Proof.
  unfold creates_intent, confirm_payment.
  unfold final_db, run. unfold_M. red_M.
  destruct (Py.split "_" (data call)) as [|a [|b [|p2 [|p3 [|]]]]]; red_M; auto.
  destruct (Py.int p2) as [m|] eqn:Hm; red_M; auto.
  destruct (Py.int p3) as [y|] eqn:Hy; red_M; auto.
  destruct (users d !! from_user call) as [user|] eqn:Hu; red_M; auto.
  destruct (is_month_paid d user m y) eqn:Hpaid; red_M.
  { auto. }
  destruct (Pricing.get_price_by_class (course_or_class user)) as [price_info|] eqn:Hprice;
    red_M; auto.
  destruct (MONTH_NAMES env m) as [mn|] eqn:Hmn; red_M; auto.
  match goal with |- context [create_payment env ?amt ?desc ?meta] =>
    destruct (create_payment env amt desc meta) as [response|] eqn:Hcreate; red_M; auto end.
  right. exists a, b, p2, p3, m, y, user, price_info, mn, response.
  split_and!; try done.
  destruct (confirmation_url response); red_M; reflexivity.
Qed.

Lemma old_confirm_payment_cases env call d :
  final_db (Old.confirm_payment env call) d = d
  ∨ creates_intent env call d (λ info, inject_Z (Pricing.pi_price info))
      (final_db (Old.confirm_payment env call) d).
Proof.
  unfold creates_intent, Old.confirm_payment.
  unfold final_db, run. unfold_M. red_M.
  destruct (Py.split "_" (data call)) as [|a [|b [|p2 [|p3 [|]]]]]; red_M; auto.
  destruct (Py.int p2) as [m|] eqn:Hm; red_M; auto.
  destruct (Py.int p3) as [y|] eqn:Hy; red_M; auto.
  destruct (users d !! from_user call) as [user|] eqn:Hu; red_M; auto.
  destruct (is_month_paid d user m y) eqn:Hpaid; red_M.
  { auto. }
  destruct (Pricing.get_price_by_class (course_or_class user)) as [price_info|] eqn:Hprice;
    red_M; auto.
  destruct (MONTH_NAMES env m) as [mn|] eqn:Hmn; red_M; auto.
  match goal with |- context [create_payment env ?amt ?desc ?meta] =>
    destruct (create_payment env amt desc meta) as [response|] eqn:Hcreate; red_M; auto end.
  right. exists a, b, p2, p3, m, y, user, price_info, mn, response.
  split_and!; try done.
  destruct (confirmation_url response); red_M; reflexivity.
Qed.

Lemma old_select_payment_month_cases env call d :
  final_db (Old.select_payment_month env call) d = d
  ∨ creates_intent env call d (λ info, inject_Z (Pricing.pi_price info))
      (final_db (Old.select_payment_month env call) d).
Proof.
  unfold creates_intent, Old.select_payment_month.
  unfold final_db, run. unfold_M. red_M.
  destruct (Py.split "_" (data call)) as [|a [|b [|p2 [|p3 [|]]]]]; red_M; auto.
  destruct (Py.int p2) as [m|] eqn:Hm; red_M; auto.
  destruct (Py.int p3) as [y|] eqn:Hy; red_M; auto.
  destruct (users d !! from_user call) as [user|] eqn:Hu; red_M; auto.
  destruct (is_month_paid d user m y) eqn:Hpaid; red_M.
  { destruct (MONTH_NAMES env m); red_M; auto. }
  destruct (Pricing.get_price_by_class (course_or_class user)) as [price_info|] eqn:Hprice;
    red_M; auto.
  destruct (MONTH_NAMES env m) as [mn|] eqn:Hmn; red_M; auto.
  match goal with |- context [create_payment env ?amt ?desc ?meta] =>
    destruct (create_payment env amt desc meta) as [response|] eqn:Hcreate; red_M; auto end.
  right. exists a, b, p2, p3, m, y, user, price_info, mn, response.
  split_and!; try done.
  destruct (confirmation_url response); red_M; reflexivity.
Qed.

(** X9. The earlier handlers [select_payment_month] and [confirm_payment]
    of [payments_old.py] leave the same database on every input and store
    the price of the resolved plan as the amount; [confirm_payment] of
    [payments.py] goes through the same steps and stores [TEST_PRICE]
    instead. *)
Theorem creation_handlers_compared env call d :
  final_db (Old.select_payment_month env call) d = final_db (Old.confirm_payment env call) d
  ∧ (final_db (Old.confirm_payment env call) d = d
     ∨ creates_intent env call d (λ info, inject_Z (Pricing.pi_price info))
         (final_db (Old.confirm_payment env call) d))
  ∧ (final_db (confirm_payment env call) d = d
     ∨ creates_intent env call d (λ _, TEST_PRICE env) (final_db (confirm_payment env call) d)).
Proof.
  split_and!; [|apply old_confirm_payment_cases | apply confirm_payment_cases].
  unfold final_db, run, Old.select_payment_month, Old.confirm_payment. unfold_M. red_M.
  destruct (Py.split "_" (data call)) as [|a [|b [|p2 [|p3 [|]]]]]; red_M; try done.
  destruct (Py.int p2) as [m|]; red_M; [|done].
  destruct (Py.int p3) as [y|]; red_M; [|done].
  destruct (users d !! from_user call) as [user|]; red_M; [|done].
  destruct (is_month_paid d user m y); red_M.
  { by destruct (MONTH_NAMES env m). }
  destruct (Pricing.get_price_by_class (course_or_class user)) as [price_info|]; red_M; [|done].
  destruct (MONTH_NAMES env m) as [mn|]; red_M; [|done].
  match goal with |- context [create_payment env ?amt ?desc ?meta] =>
    destruct (create_payment env amt desc meta) as [response|]; red_M; [|done] end.
  by destruct (confirmation_url response).
Qed.

(** X10. Creating a gateway payment pays nothing: whatever the input, the
    three creation handlers leave the users, the History Records and the
    wait states as they were, so no balance changes and no month becomes
    paid before a poll. *)
Theorem creating_a_payment_pays_nothing env call d :
  Forall (λ h : Env → CallbackQuery → M unit,
            let d' := final_db (h env call) d in
            users d' = users d ∧ history d' = history d ∧ admin_states d' = admin_states d
            ∧ ∀ user m y, is_month_paid d' user m y = is_month_paid d user m y)
         [confirm_payment; Old.confirm_payment; Old.select_payment_month].
Proof.
  assert (Hframe : ∀ amt_of d',
            d' = d ∨ creates_intent env call d amt_of d' →
            users d' = users d ∧ history d' = history d ∧ admin_states d' = admin_states d
            ∧ ∀ user m y, is_month_paid d' user m y = is_month_paid d user m y).
  { intros amt_of d' [-> | H]; [done|].
    destruct H as (a & b & p2 & p3 & m & y & user & info & mn & response & _ & _ & _ & _ & _
                   & _ & _ & _ & ->).
    split_and!; try done. }
  apply Forall_cons. split; [eapply Hframe, confirm_payment_cases|].
  apply Forall_cons. split; [eapply Hframe, old_confirm_payment_cases|].
  apply Forall_cons. split; [eapply Hframe, old_select_payment_month_cases|].
  apply Forall_nil. done.
Qed.

(** X11. [confirm_payment] when the gateway lets it down: with no payment
    created it shows the failure text and stores nothing; with a response
    that carries no confirmation URL the Payment row is already stored
    when the lookup fails, and the [KeyError] leaves the handler. *)
Theorem confirm_payment_when_gateway_fails env call d a b p2 p3 m y user price_info mn :
  Py.split "_" (data call) = [a; b; p2; p3] →
  Py.int p2 = Some m → Py.int p3 = Some y →
  users d !! from_user call = Some user →
  is_month_paid d user m y = false →
  Pricing.get_price_by_class (course_or_class user) = Some price_info →
  MONTH_NAMES env m = Some mn →
  let created :=
    create_payment env (TEST_PRICE env)
      (gateway_description mn y (Pricing.pi_name price_info))
      (telegram_id user, m, y, Pricing.pi_key price_info) in
  (created = None →
     run (confirm_payment env call) d
       = (d, [edit_message_text gateway_creation_failed UNIVERSAL_BUTTONS], None))
  ∧ (∀ response,
       created = Some response → confirmation_url response = None →
       run (confirm_payment env call) d
         = (mkDB (users d)
                 (<[created_id response :=
                      stored_intent user response (TEST_PRICE env) mn m y price_info]>
                    (payments d))
                 (history d) (admin_states d),
            [], Some KeyError)).
Proof.
  intros Hsplit Hm Hy Hu Hpaid Hprice Hmn created. subst created. split.
  - intros Hcreate. unfold run, confirm_payment. rewrite Hsplit. unfold_M. red_M.
    rewrite Hm; red_M. rewrite Hy; red_M. rewrite Hu; red_M. rewrite Hpaid; red_M.
    rewrite Hprice; red_M. rewrite Hmn; red_M.
    unfold gateway_description in Hcreate. rewrite Hcreate; red_M. by destruct d.
  - intros response Hcreate Hurl. unfold run, confirm_payment. rewrite Hsplit. unfold_M. red_M.
    rewrite Hm; red_M. rewrite Hy; red_M. rewrite Hu; red_M. rewrite Hpaid; red_M.
    rewrite Hprice; red_M. rewrite Hmn; red_M.
    unfold gateway_description in Hcreate. rewrite Hcreate; red_M. rewrite Hurl; red_M.
    reflexivity.
Qed.

Lemma confirm_payment_when_gateway_fails_witness :
  run (confirm_payment (Sample.env (u "pending") true)
         (mkCall (u "123") (u "confirm_payment_3_2025")))
      (Sample.db 0 [])
  = (Sample.db 0 [], [edit_message_text gateway_creation_failed UNIVERSAL_BUTTONS], None).
Proof.
  apply (proj1 (confirm_payment_when_gateway_fails (Sample.env (u "pending") true)
           (mkCall (u "123") (u "confirm_payment_3_2025")) (Sample.db 0 [])
           (u "confirm") (u "payment") (u "3") (u "2025") 3 2025 (Sample.student 0)
           (Pricing.PriceInfo (u "oge_9") (u "💯ОГЭ(9 класс)") 5650
                              (u "2 часа / 1 раз в неделю"))
           (u "Март")
           ltac:(vm_compute; reflexivity) ltac:(vm_compute; reflexivity)
           ltac:(vm_compute; reflexivity) ltac:(vm_compute; reflexivity)
           ltac:(vm_compute; reflexivity) ltac:(vm_compute; reflexivity)
           ltac:(vm_compute; reflexivity))).
  vm_compute. reflexivity.
Defined.

(** The database after [confirm_payment] has created a payment. *)
Lemma confirm_payment_creates env call d a b p2 p3 m y user price_info mn response :
  Py.split "_" (data call) = [a; b; p2; p3] →
  Py.int p2 = Some m → Py.int p3 = Some y →
  users d !! from_user call = Some user →
  is_month_paid d user m y = false →
  Pricing.get_price_by_class (course_or_class user) = Some price_info →
  MONTH_NAMES env m = Some mn →
  create_payment env (TEST_PRICE env)
    (gateway_description mn y (Pricing.pi_name price_info))
    (telegram_id user, m, y, Pricing.pi_key price_info) = Some response →
  final_db (confirm_payment env call) d =
    mkDB (users d)
         (<[created_id response :=
              stored_intent user response (TEST_PRICE env) mn m y price_info]> (payments d))
         (history d) (admin_states d).
Proof.
  intros Hsplit Hm Hy Hu Hpaid Hprice Hmn Hcreate.
  unfold final_db, run, confirm_payment. rewrite Hsplit. unfold_M. red_M.
  rewrite Hm; red_M. rewrite Hy; red_M. rewrite Hu; red_M. rewrite Hpaid; red_M.
  rewrite Hprice; red_M. rewrite Hmn; red_M.
  unfold gateway_description in Hcreate. rewrite Hcreate; red_M.
  destruct (confirmation_url response); red_M; reflexivity.
Qed.

(** X12. The gateway flow from creation to commit: [confirm_payment]
    followed by a poll that finds the payment succeeded writes one History
    Record for the month, of type card, whose amount is [TEST_PRICE] (not
    the price of the plan) and whose plan is the resolved plan's key; the
    Payment row becomes succeeded and no balance changes. *)
Theorem gateway_flow_confirm_then_poll env call1 call2 d a b p2 p3 a' b' q3 q4 m y
    user price_info mn response info :
  Py.split "_" (data call1) = [a; b; p2; p3] →
  Py.int p2 = Some m → Py.int p3 = Some y →
  users d !! from_user call1 = Some user →
  is_month_paid d user m y = false →
  Pricing.get_price_by_class (course_or_class user) = Some price_info →
  MONTH_NAMES env m = Some mn →
  create_payment env (TEST_PRICE env)
    (gateway_description mn y (Pricing.pi_name price_info))
    (telegram_id user, m, y, Pricing.pi_key price_info) = Some response →
  Py.split "_" (data call2) = [a'; b'; created_id response; q3; q4] →
  Py.int q3 = Some m → Py.int q4 = Some y →
  from_user call2 = from_user call1 →
  get_payment env (created_id response) = Some info →
  is_str (dict_get info (u "status")) (u "succeeded") = true →
  history_insert_ok env = true →
  let d1 := final_db (confirm_payment env call1) d in
  let d2 := final_db (check_payment env call2) d1 in
  history d1 = history d
  ∧ history d2 = history d ++ [mkHistory (telegram_id user) (Some (created_id response)) m y
                                         (TEST_PRICE env) (Pricing.pi_key price_info)
                                         (u "card") (u "completed")]
  ∧ users d2 = users d
  ∧ status <$> payments d2 !! created_id response = Some (VStr (u "succeeded")).
Proof.
  intros Hs1 Hm Hy Hu Hpaid Hprice Hmn Hcreate Hs2 Hm2 Hy2 Hfrom Hget Hst Hok d1 d2.
  assert (Hd1 := confirm_payment_creates env call1 d a b p2 p3 m y user price_info mn
                   response Hs1 Hm Hy Hu Hpaid Hprice Hmn Hcreate).
  fold d1 in Hd1.
  assert (Hu1 : users d1 !! from_user call2 = Some user) by (by rewrite Hd1, Hfrom).
  assert (Hpaid1 : is_month_paid d1 user m y = false).
  { rewrite (is_month_paid_history d d1); [done | by rewrite Hd1]. }
  assert (Hp1 : payments d1 !! created_id response
                = Some (stored_intent user response (TEST_PRICE env) mn m y price_info)).
  { rewrite Hd1. apply lookup_insert_eq. }
  assert (Hd2 := check_payment_commits env call2 d1 a' b' (created_id response) q3 q4 m y user
                   info _ Hs2 Hm2 Hy2 Hu1 Hpaid1 Hget Hst Hp1 Hok).
  fold d2 in Hd2. rewrite Hd2, Hd1.
  cbn [users history payments stored_intent yookassa_payment_id amount pay_pricing_plan].
  split_and!; try done.
  rewrite lookup_insert_eq. done.
Qed.

Lemma gateway_flow_confirm_then_poll_witness :
  let d1 := final_db (confirm_payment sample_gateway_env
                        (mkCall (u "123") (u "confirm_payment_3_2025")))
                     (Sample.db_waiting 0 (u "123")) in
  let d2 := final_db (check_payment sample_gateway_env
                        (mkCall (u "123") (u "check_payment_2d8b-000f_3_2025")))
                     d1 in
  history d2 = [mkHistory (u "123") (Some (u "2d8b-000f")) 3 2025 1 (u "oge_9")
                          (u "card") (u "completed")]
  ∧ users d2 = Sample.people 0.
Proof.
  cbv zeta.
  destruct (gateway_flow_confirm_then_poll sample_gateway_env
              (mkCall (u "123") (u "confirm_payment_3_2025"))
              (mkCall (u "123") (u "check_payment_2d8b-000f_3_2025"))
              (Sample.db_waiting 0 (u "123"))
              (u "confirm") (u "payment") (u "3") (u "2025")
              (u "check") (u "payment") (u "3") (u "2025") 3 2025 (Sample.student 0)
              (Pricing.PriceInfo (u "oge_9") (u "💯ОГЭ(9 класс)") 5650
                                 (u "2 часа / 1 раз в неделю"))
              (u "Март")
              (mkCreated (u "2d8b-000f") (VStr (u "pending"))
                         (Some (u "https://yoomoney.ru/checkout")))
              [(u "id", VStr (u "2d8b-000f")); (u "status", VStr (u "succeeded"))])
    as (_ & Hh & Hu & _); try (vm_compute; reflexivity).
  split; [exact Hh | exact Hu].
Defined.

(** ** The admin handlers: cases, access and frame *)

(** Every run of [handle_admin_text_input] leaves the database as it was,
    or drops the sender's wait state because its student is gone, or
    credits the student and drops the wait state. *)
Lemma admin_text_input_cases msg d :
  let d' := final_db (handle_admin_text_input msg) d in
  d' = d
  ∨ (∃ sid, admin_states d !! msg_from_user msg = Some sid ∧ users d !! sid = None
            ∧ d' = mkDB (users d) (payments d) (history d)
                        (delete (msg_from_user msg) (admin_states d)))
  ∨ (∃ sid student q,
       admin_states d !! msg_from_user msg = Some sid ∧ users d !! sid = Some student
       ∧ Dec.of_str (Py.replace "," "." (msg_text msg)) = Some (Dec.Fin q)
       ∧ (0 < q)%Q
       ∧ d' = mkDB (<[telegram_id student := with_balance student (balance student + q)]>
                      (users d))
                   (payments d) (history d) (delete (msg_from_user msg) (admin_states d))).
Proof.
  cbv zeta.
  unfold final_db, run, handle_admin_text_input, admin_permission,
    handle_admin_text_input_body. unfold_M. red_M.
  destruct (users d !! msg_from_user msg) as [admin|]; red_M; auto.
  destruct (is_admin admin); red_M; auto.
  destruct (admin_states d !! msg_from_user msg) as [sid|] eqn:Hstate; red_M; auto.
  destruct (Dec.of_str (Py.replace "," "." (msg_text msg))) as [amt|] eqn:Hin; red_M; auto.
  destruct amt as [q|neg|]; cbn [Dec.le_zero Dec.add]; red_M; auto.
  - destruct (Qle_bool q 0) eqn:Hle; red_M; auto.
    apply Qle_bool_false in Hle.
    destruct (users d !! sid) as [student|] eqn:Hstudent; red_M.
    + right; right. exists sid, student, q. by split_and!.
    + right; left. exists sid. by split_and!.
  - destruct neg; red_M; auto.
    destruct (users d !! sid) as [student|] eqn:Hstudent; red_M; auto.
    right; left. exists sid. by split_and!.
Qed.

(** X13. Access to the admin handlers. The callback decorator answers a
    caller who is not a user or not an admin with a refusal and never
    runs the handler; for an admin it runs the handler and changes
    nothing of its outcome, unless the handler lets [User.DoesNotExist]
    out. The message decorator refuses a non-admin in the same way, and
    for a sender who is not a user its own lookup raises
    [User.DoesNotExist], which nothing catches. *)
Theorem admin_decorators_gate (on_call : CallbackQuery → M unit) (on_msg : Message → M unit)
    call msg d :
  (users d !! from_user call = None →
     run (admin_permission_callback on_call call) d
       = (d, [answer_callback_query [Lit "⛔ Пользователь не найден"]], None))
  ∧ (∀ usr, users d !! from_user call = Some usr → is_admin usr = false →
       run (admin_permission_callback on_call call) d
         = (d, [answer_callback_query [Lit "⛔ У вас нет администраторского доступа"]],
            None))
  ∧ (∀ usr, users d !! from_user call = Some usr → is_admin usr = true →
       (on_call call (mkWorld d [])).1 ≠ Raised User_DoesNotExist →
       run (admin_permission_callback on_call call) d = run (on_call call) d)
  ∧ (users d !! msg_from_user msg = None →
       run (admin_permission on_msg msg) d = (d, [], Some User_DoesNotExist))
  ∧ (∀ usr, users d !! msg_from_user msg = Some usr → is_admin usr = false →
       run (admin_permission on_msg msg) d
         = (d, [send_message (chat_of (msg_from_user msg))
                  [Lit "⛔ У вас нет администраторского доступа"] None], None))
  ∧ (∀ usr, users d !! msg_from_user msg = Some usr → is_admin usr = true →
       run (admin_permission on_msg msg) d = run (on_msg msg) d).
Proof.
  split_and!.
  - intros Hu. unfold run, admin_permission_callback. unfold_M. red_M.
    rewrite Hu; red_M. by destruct d.
  - intros usr Hu Hna. unfold run, admin_permission_callback. unfold_M. red_M.
    rewrite Hu; red_M. rewrite Hna; red_M. by destruct d.
  - intros usr Hu Ha Hok. unfold run, admin_permission_callback. unfold_M. red_M.
    rewrite Hu; red_M. rewrite Ha; red_M.
    destruct (on_call call (mkWorld d [])) as [[v| |e] w]; red_M; try done.
    destruct e; red_M; try done.
  - intros Hu. unfold run, admin_permission. unfold_M. red_M.
    rewrite Hu; red_M. done.
  - intros usr Hu Hna. unfold run, admin_permission. unfold_M. red_M.
    rewrite Hu; red_M. rewrite Hna; red_M. by destruct d.
  - intros usr Hu Ha. unfold run, admin_permission. unfold_M. red_M.
    rewrite Hu; red_M. rewrite Ha; red_M.
    by destruct (on_msg msg (mkWorld d [])) as [[v| |e] w].
Qed.

(** X14. A caller who is not an admin changes nothing through the admin
    cash credit or the free-amount input, whatever the callback data or
    the text. *)
Theorem admin_handlers_closed_to_students env call msg d caller sender :
  users d !! from_user call = Some caller → is_admin caller = false →
  users d !! msg_from_user msg = Some sender → is_admin sender = false →
  final_db (handle_admin_mark_payment env call) d = d
  ∧ final_db (handle_admin_text_input msg) d = d.
Proof.
  intros Hc Hnc Hs Hns. split.
  - unfold final_db, run, handle_admin_mark_payment, admin_permission_callback.
    unfold_M. red_M. rewrite Hc; red_M. by rewrite Hnc.
  - unfold final_db, run, handle_admin_text_input, admin_permission.
    unfold_M. red_M. rewrite Hs; red_M. by rewrite Hns.
Qed.

Lemma admin_handlers_closed_to_students_witness :
  final_db (handle_admin_mark_payment (Sample.env (u "pending") true)
              (mkCall (u "123") (u "admin_mark_payment_123_3_2025")))
           (Sample.db_waiting 0 (u "123"))
    = Sample.db_waiting 0 (u "123")
  ∧ final_db (handle_admin_text_input (mkMsg (u "123") (u "1000")))
             (Sample.db_waiting 0 (u "123"))
    = Sample.db_waiting 0 (u "123").
Proof.
  apply (admin_handlers_closed_to_students (Sample.env (u "pending") true)
           (mkCall (u "123") (u "admin_mark_payment_123_3_2025"))
           (mkMsg (u "123") (u "1000")) (Sample.db_waiting 0 (u "123"))
           (Sample.student 0) (Sample.student 0));
    vm_compute; reflexivity.
Defined.

(** X15. [handle_admin_mark_payment] on callback data it cannot use, for
    an admin caller: fewer than five parts are refused as a wrong format;
    exactly five parts pass that test and fail on the missing year with
    the general error; an empty or reserved student id and an unknown
    student are refused by name. Nothing is changed in any of these. *)
Theorem admin_mark_payment_rejects_bad_input env call d admin :
  users d !! from_user call = Some admin → is_admin admin = true →
  let parts := Py.split "_" (data call) in
  let refused (t : string) :=
    run (handle_admin_mark_payment env call) d = (d, [answer_callback_query [Lit t]], None) in
  ((length parts < 5)%nat → refused "❌ Неверный формат данных"%string)
  ∧ (length parts = 5%nat → refused "❌ Произошла ошибка"%string)
  ∧ (∀ p3 p4 p5,
       parts !! 3%nat = Some p3 → parts !! 4%nat = Some p4 → parts !! 5%nat = Some p5 →
       Py.strip p3 = [] ∨ is_service_word (Py.strip p3) = true →
       refused "❌ Неверный ID ученика"%string)
  ∧ (∀ p3 p4 p5,
       parts !! 3%nat = Some p3 → parts !! 4%nat = Some p4 → parts !! 5%nat = Some p5 →
       Py.strip p3 ≠ [] → is_service_word (Py.strip p3) = false →
       users d !! Py.strip p3 = None →
       refused "❌ Ученик не найден"%string).
Proof.
  intros Hadmin Hisadmin parts refused. subst refused. cbv beta.
  split_and!.
  - intros Hlen. apply Nat.ltb_lt in Hlen.
    unfold run, handle_admin_mark_payment, admin_permission_callback,
      handle_admin_mark_payment_body. unfold_M. red_M.
    rewrite Hadmin; red_M. rewrite Hisadmin; red_M. fold parts. rewrite Hlen; red_M.
    by destruct d.
  - intros Hlen.
    assert (Hlt : (length parts <? 5)%nat = false) by (apply Nat.ltb_ge; lia).
    assert (H3 : is_Some (parts !! 3%nat)) by (apply lookup_lt_is_Some; lia).
    assert (H4 : is_Some (parts !! 4%nat)) by (apply lookup_lt_is_Some; lia).
    assert (H5 : parts !! 5%nat = None) by (apply lookup_ge_None; lia).
    destruct H3 as [p3 H3], H4 as [p4 H4].
    unfold run, handle_admin_mark_payment, admin_permission_callback,
      handle_admin_mark_payment_body. unfold_M. red_M.
    rewrite Hadmin; red_M. rewrite Hisadmin; red_M. fold parts. rewrite Hlt; red_M.
    rewrite H3; red_M. rewrite H4; red_M. rewrite H5; red_M. by destruct d.
  - intros p3 p4 p5 H3 H4 H5 Hbad.
    assert (Hlt : (length parts <? 5)%nat = false).
    { apply Nat.ltb_ge. apply lookup_lt_Some in H5. lia. }
    assert (Hcond : Py.eqb (Py.strip p3) [] || is_service_word (Py.strip p3) = true).
    { destruct Hbad as [-> | ->]; [done | by rewrite orb_true_r]. }
    unfold run, handle_admin_mark_payment, admin_permission_callback,
      handle_admin_mark_payment_body. unfold_M. red_M.
    rewrite Hadmin; red_M. rewrite Hisadmin; red_M. fold parts. rewrite Hlt; red_M.
    rewrite H3; red_M. rewrite H4; red_M. rewrite H5; red_M. rewrite Hcond; red_M.
    by destruct d.
  - intros p3 p4 p5 H3 H4 H5 Hne Hword Hstudent.
    assert (Hlt : (length parts <? 5)%nat = false).
    { apply Nat.ltb_ge. apply lookup_lt_Some in H5. lia. }
    assert (Hempty : Py.eqb (Py.strip p3) [] = false).
    { apply not_true_iff_false. by rewrite eqb_eq. }
    unfold run, handle_admin_mark_payment, admin_permission_callback,
      handle_admin_mark_payment_body. unfold_M. red_M.
    rewrite Hadmin; red_M. rewrite Hisadmin; red_M. fold parts. rewrite Hlt; red_M.
    rewrite H3; red_M. rewrite H4; red_M. rewrite H5; red_M.
    rewrite Hempty, Hword; red_M. rewrite Hstudent; red_M. by destruct d.
Qed.

Lemma admin_mark_payment_rejects_bad_input_witness :
  run (handle_admin_mark_payment (Sample.env (u "pending") true)
         (mkCall (u "100") (u "admin_mark_payment_123_3")))
      (Sample.db 0 [])
  = (Sample.db 0 [], [answer_callback_query [Lit "❌ Произошла ошибка"]], None).
Proof.
  apply (admin_mark_payment_rejects_bad_input (Sample.env (u "pending") true)
           (mkCall (u "100") (u "admin_mark_payment_123_3")) (Sample.db 0 [])
           Sample.admin ltac:(vm_compute; reflexivity) ltac:(vm_compute; reflexivity)).
  vm_compute. reflexivity.
Defined.

(** ** Invariants of the users table *)

(** What a handler does to the users table: nothing, or one user's balance
    is replaced by a value that is non-negative or not below the old one. *)
Lemma users_after_handlers env call msg d d' :
  d' ∈ after_handlers env call msg d →
  users d' = users d
  ∨ ∃ k usr b, users d !! k = Some usr ∧ (0 <= b ∨ balance usr <= b)%Q
               ∧ users d' = <[telegram_id usr := with_balance usr b]> (users d).
Proof.
  assert (Hintent : ∀ amt_of d1, d1 = d ∨ creates_intent env call d amt_of d1 →
                      users d1 = users d).
  { intros amt_of d1 [-> | H]; [done|].
    by destruct H as (a & b & p2 & p3 & m & y & user & info & mn & response & _ & _ & _ & _
                      & _ & _ & _ & _ & ->). }
  assert (Hgrow : ∀ B q : Q, (0 < q)%Q → (B <= B + q)%Q).
  { intros B q Hq. rewrite <- (Qplus_0_r B) at 1. apply Qplus_le_r. by apply Qlt_le_weak. }
  unfold after_handlers. rewrite !elem_of_cons, elem_of_nil.
  intros [-> | [-> | [-> | [-> | [-> | [-> | [-> | []]]]]]]].
  - left. destruct (check_payment_cases env call d) as [-> | H]; [done|].
    by destruct H as (a & b & pid & p3 & p4 & m & y & user & info & payment & _ & _ & _ & _
                      & _ & _ & _ & _ & ->).
  - left. eapply Hintent, confirm_payment_cases.
  - left. eapply Hintent, old_confirm_payment_cases.
  - left. eapply Hintent, old_select_payment_month_cases.
  - destruct (balance_payment_cases env call d) as [-> | H]; [by left|]. right.
    destruct H as (a & b & c & p3 & p4 & m & y & user & info & _ & _ & _ & Hu & _ & _
                   & Hlt & ->).
    exists (from_user call), user, (balance user - inject_Z (Pricing.pi_price info))%Q.
    split_and!; [done | | done].
    left. apply Qlt_bool_false in Hlt. unfold Qminus. by apply Qle_minus_iff in Hlt.
  - destruct (admin_cash_cases env call d) as [-> | H]; [by left|]. right.
    destruct H as (admin & p3 & p4 & p5 & student & _ & _ & _ & _ & _ & _ & _ & Hs & ->).
    exists (Py.strip p3), student,
      (balance student + inject_Z (cash_price (class_number student)).1)%Q.
    split_and!; [done | | done].
    right. apply Hgrow. change 0%Q with (inject_Z 0). rewrite <- Zlt_Qlt.
    apply cash_price_positive.
  - destruct (admin_text_input_cases msg d) as [-> | [H | H]]; [by left | |].
    + left. by destruct H as (sid & _ & _ & ->).
    + right. destruct H as (sid & student & q & _ & Hs & _ & Hq & ->).
      exists sid, student, (balance student + q)%Q. split_and!; [done | | done].
      right. by apply Hgrow.
Qed.

(** X16. No handler overdraws: if no balance is negative before, none is
    negative after any of the handlers, whatever the callback data, the
    text, the gateway's answers and the outcome of the insertion. *)
Theorem handlers_keep_balances_nonnegative env call msg d :
  balances_nonnegative d →
  Forall balances_nonnegative (after_handlers env call msg d).
Proof.
  intros Hd. apply Forall_forall. intros d' Hin.
  unfold balances_nonnegative in *.
  destruct (users_after_handlers env call msg d d' Hin)
    as [-> | (k & usr & b & Hu & Hb & ->)]; [done|].
  apply map_Forall_insert_2; [|done].
  cbn [with_balance balance]. destruct Hb as [Hb | Hb]; [done|].
  eapply Qle_trans; [|exact Hb]. exact (Hd k usr Hu).
Qed.

Lemma handlers_keep_balances_nonnegative_witness :
  Forall balances_nonnegative
    (after_handlers (Sample.env (u "succeeded") true)
       (mkCall (u "123") (u "pay_balance_month_3_2025")) (mkMsg (u "100") (u "1500,50"))
       (Sample.db_waiting 6000 (u "123"))).
Proof.
  apply handlers_keep_balances_nonnegative.
  unfold balances_nonnegative, Sample.db_waiting, Sample.people. cbn [users].
  repeat (apply map_Forall_insert_2; [vm_compute; discriminate|]). apply map_Forall_empty.
Defined.

(** X17. No handler adds or removes a user, or changes anything of a user
    but the balance: on a users table keyed by [telegram_id] the table
    after any handler is keyed in the same way and holds the same people. *)
Theorem handlers_keep_the_same_people env call msg d :
  keyed_by_id d →
  Forall (λ d', keyed_by_id d' ∧ same_people d d') (after_handlers env call msg d).
Proof.
  intros Hkey. apply Forall_forall. intros d' Hin.
  assert (Hrefl : ∀ o : option User,
            option_Forall2 (λ a b, b = with_balance a (balance b)) o o).
  { intros [[]|]; by constructor. }
  destruct (users_after_handlers env call msg d d' Hin)
    as [E | (k & usr & b & Hu & _ & E)].
  - split.
    + intros k usr. rewrite E. apply Hkey.
    + intros k. rewrite E. apply Hrefl.
  - pose proof (Hkey k usr Hu) as Hid. split.
    + intros k' usr'. rewrite E.
      destruct (decide (telegram_id usr = k')) as [<- | Hne].
      * rewrite lookup_insert_eq. by intros [= <-].
      * rewrite lookup_insert_ne by done. apply Hkey.
    + intros k'. rewrite E.
      destruct (decide (telegram_id usr = k')) as [<- | Hne].
      * rewrite lookup_insert_eq, Hid, Hu. by constructor.
      * rewrite lookup_insert_ne by done. apply Hrefl.
Qed.

Lemma handlers_keep_the_same_people_witness :
  Forall (λ d', keyed_by_id d' ∧ same_people (Sample.db_waiting 6000 (u "123")) d')
    (after_handlers (Sample.env (u "succeeded") true)
       (mkCall (u "123") (u "pay_balance_month_3_2025")) (mkMsg (u "100") (u "1500,50"))
       (Sample.db_waiting 6000 (u "123"))).
Proof.
  apply handlers_keep_the_same_people.
  intros k usr Hk.
  assert (Hall : map_Forall (λ k usr, telegram_id usr = k)
                   (users (Sample.db_waiting 6000 (u "123")))).
  { unfold Sample.db_waiting, Sample.db, Sample.people. cbn [users].
    repeat (apply map_Forall_insert_2; [reflexivity|]). apply map_Forall_empty. }
  exact (Hall k usr Hk).
Defined.

(** ** A cash credit followed by a balance payment *)

Lemma admin_cash_commits env call d admin p3 p4 p5 student m y :
  users d !! from_user call = Some admin → is_admin admin = true →
  Py.split "_" (data call) !! 3%nat = Some p3 →
  Py.split "_" (data call) !! 4%nat = Some p4 →
  Py.split "_" (data call) !! 5%nat = Some p5 →
  Py.strip p3 ≠ [] → is_service_word (Py.strip p3) = false →
  users d !! Py.strip p3 = Some student →
  Py.int (Py.strip p4) = Some m → Py.int (Py.strip p5) = Some y →
  history_insert_ok env = true →
  final_db (handle_admin_mark_payment env call) d =
    mkDB (<[telegram_id student :=
              with_balance student
                (balance student + inject_Z (cash_price (class_number student)).1)]> (users d))
         (payments d)
         (history d ++ [mkHistory (telegram_id student) None m y
                                  (inject_Z (cash_price (class_number student)).1)
                                  (cash_price (class_number student)).2
                                  (u "cash") (u "completed")])
         (admin_states d).
Proof.
  intros Hadmin Hisadmin H3 H4 H5 Hne Hword Hstudent Hm Hy Hok.
  assert (Hlen : (length (Py.split "_" (data call)) <? 5)%nat = false).
  { apply Nat.ltb_ge. apply lookup_lt_Some in H5. lia. }
  assert (Hempty : Py.eqb (Py.strip p3) [] = false).
  { apply not_true_iff_false. by rewrite eqb_eq. }
  unfold final_db, run, handle_admin_mark_payment, admin_permission_callback,
    handle_admin_mark_payment_body. unfold_M. red_M.
  rewrite Hadmin; red_M. rewrite Hisadmin; red_M. rewrite Hlen; red_M.
  rewrite H3; red_M. rewrite H4; red_M. rewrite H5; red_M.
  rewrite Hempty, Hword; red_M. rewrite Hstudent; red_M.
  destruct (cash_price (class_number student)) as [price label]. red_M.
  rewrite Hm; red_M. rewrite Hy; red_M. rewrite Hok; red_M. done.
Qed.

Lemma balance_payment_commits env call d a b c p3 p4 m y user info :
  Py.split "_" (data call) = [a; b; c; p3; p4] →
  Py.int p3 = Some m → Py.int p4 = Some y →
  users d !! from_user call = Some user →
  is_month_paid d user m y = false →
  Pricing.get_price_by_class (course_or_class user) = Some info →
  (inject_Z (Pricing.pi_price info) <= balance user)%Q →
  history_insert_ok env = true →
  final_db (select_balance_payment_month env call) d =
    mkDB (<[telegram_id user :=
              with_balance user (balance user - inject_Z (Pricing.pi_price info))]> (users d))
         (payments d)
         (history d ++ [mkHistory (telegram_id user) None m y
                                  (inject_Z (Pricing.pi_price info)) (Pricing.pi_key info)
                                  (u "balance") (u "completed")])
         (admin_states d).
Proof.
  intros Hsplit Hm Hy Hu Hpaid Hprice Hge Hok. apply Qlt_bool_false in Hge.
  destruct (balance_payment_cases env call d) as [H|H].
  - exfalso. revert H. unfold final_db, run, select_balance_payment_month.
    rewrite Hsplit. unfold_M. red_M.
    rewrite Hm; red_M. rewrite Hy; red_M. rewrite Hu; red_M. rewrite Hpaid; red_M.
    rewrite Hprice; red_M. rewrite Hge; red_M. rewrite Hok; red_M.
    repeat step_notify.
    destruct (MONTH_NAMES env m); red_M; intros H; apply (f_equal history) in H;
      cbn [history] in H; by apply (f_equal length) in H; rewrite length_app in H; simpl in H; lia.
  - destruct H as (a' & b' & c' & p3' & p4' & m' & y' & user' & info' & Hsplit' & Hm' & Hy'
                   & Hu' & _ & Hprice' & _ & ->).
    rewrite Hsplit in Hsplit'. simplify_eq. by rewrite Hok.
Qed.

(** X18. What an admin's cash mark leaves to the student. The mark makes
    the month paid and also credits its price to the balance, so: a
    balance payment of the student for the same month is refused as
    already paid and the credit stays on the balance; a balance payment
    for another, unpaid month goes through when both class fields resolve
    to the same plan, after which both months are paid, two records have
    been written and the balance is back at its value before the mark. *)
Theorem cash_mark_then_balance_payment env call pay d admin p3 p4 p5 student m y
    a b c q3 q4 m2 y2 mn :
  users d !! from_user call = Some admin → is_admin admin = true →
  Py.split "_" (data call) !! 3%nat = Some p3 →
  Py.split "_" (data call) !! 4%nat = Some p4 →
  Py.split "_" (data call) !! 5%nat = Some p5 →
  Py.strip p3 ≠ [] → is_service_word (Py.strip p3) = false →
  users d !! Py.strip p3 = Some student →
  Py.int (Py.strip p4) = Some m → Py.int (Py.strip p5) = Some y →
  history_insert_ok env = true →
  from_user pay = telegram_id student →
  Py.split "_" (data pay) = [a; b; c; q3; q4] →
  Py.int q3 = Some m2 → Py.int q4 = Some y2 →
  MONTH_NAMES env m2 = Some mn →
  let d1 := final_db (handle_admin_mark_payment env call) d in
  let d2 := final_db (select_balance_payment_month env pay) d1 in
  (m2 = m → y2 = y →
     run (select_balance_payment_month env pay) d1
       = (d1, [answer_callback_query
                 [Lit "Месяц "; FStr mn; Lit " "; FInt y2; Lit " уже оплачен!"]], None)
     ∧ balance <$> users d1 !! telegram_id student
       = Some (balance student + inject_Z (cash_price (class_number student)).1)%Q)
  ∧ (∀ info,
       is_month_paid d student m2 y2 = false → (m2 ≠ m ∨ y2 ≠ y) →
       Pricing.get_price_by_class (class_number student) = Some info →
       Pricing.get_price_by_class (course_or_class student) = Some info →
       (0 <= balance student)%Q →
       is_month_paid d2 student m y = true ∧ is_month_paid d2 student m2 y2 = true
       ∧ length (history d2) = (length (history d) + 2)%nat
       ∧ ∃ student', users d2 !! telegram_id student = Some student'
                     ∧ (balance student' == balance student)%Q).
Proof.
  intros Hadmin Hisadmin H3 H4 H5 Hne Hword Hstudent Hm Hy Hok Hfrom Hsplit Hm2 Hy2 Hmn d1 d2.
  pose proof (admin_cash_commits env call d admin p3 p4 p5 student m y
                Hadmin Hisadmin H3 H4 H5 Hne Hword Hstudent Hm Hy Hok) as Hd1.
  fold d1 in Hd1.
  set (credited := with_balance student
                     (balance student + inject_Z (cash_price (class_number student)).1)) in *.
  assert (Hu1 : users d1 !! from_user pay = Some credited).
  { rewrite Hd1, Hfrom. apply lookup_insert_eq. }
  assert (Hpaid1 : ∀ m' y', is_month_paid d1 credited m' y'
                     = is_month_paid d student m' y' || ((m =? m') && (y =? y'))).
  { intros m' y'.
    rewrite (is_month_paid_append d d1 _ credited m' y' ltac:(by rewrite Hd1)).
    cbn [h_user month year h_status credited with_balance telegram_id].
    unfold is_month_paid. cbn [telegram_id].
    rewrite (proj2 (eqb_eq _ _) eq_refl). f_equal.
    rewrite andb_true_l. by rewrite (proj2 (eqb_eq (u "completed") _) eq_refl), andb_true_r. }
  split.
  - intros -> ->. split.
    + apply (balance_payment_rejects_paid_month env pay d1 a b c q3 q4 m y credited mn);
        try done.
      rewrite Hpaid1, !Z.eqb_refl. apply orb_true_r.
    + rewrite <- Hfrom, Hu1. done.
  - intros info Hunpaid Hother Hclass Hcourse Hnonneg.
    assert (Hcash : (cash_price (class_number student)).1 = Pricing.pi_price info).
    { unfold cash_price. by rewrite Hclass. }
    assert (Hunpaid1 : is_month_paid d1 credited m2 y2 = false).
    { rewrite Hpaid1, Hunpaid. cbn [orb]. apply andb_false_iff.
      destruct Hother as [H | H]; [left | right]; apply Z.eqb_neq; congruence. }
    assert (Hge : (inject_Z (Pricing.pi_price info) <= balance credited)%Q).
    { cbn [credited with_balance balance]. rewrite Hcash.
      rewrite <- (Qplus_0_l (inject_Z (Pricing.pi_price info))) at 1.
      by apply Qplus_le_l. }
    pose proof (balance_payment_commits env pay d1 a b c q3 q4 m2 y2 credited info
                  Hsplit Hm2 Hy2 Hu1 Hunpaid1 Hcourse Hge Hok) as Hd2.
    fold d2 in Hd2.
    assert (Hh2 : history d2 = history d ++
              [mkHistory (telegram_id student) None m y
                 (inject_Z (cash_price (class_number student)).1)
                 (cash_price (class_number student)).2 (u "cash") (u "completed");
               mkHistory (telegram_id student) None m2 y2
                 (inject_Z (Pricing.pi_price info)) (Pricing.pi_key info)
                 (u "balance") (u "completed")]).
    { rewrite Hd2. cbn [history]. rewrite Hd1. cbn [history].
      by rewrite <- app_assoc. }
    split_and!.
    + apply is_month_paid_true. eexists. split.
      * rewrite Hh2. apply elem_of_app. right. left.
      * done.
    + apply is_month_paid_true. eexists. split.
      * rewrite Hh2. apply elem_of_app. right. right. left.
      * done.
    + rewrite Hh2, length_app. done.
    + eexists. split.
      * rewrite Hd2. cbn [users credited with_balance telegram_id]. apply lookup_insert_eq.
      * cbn [credited with_balance balance]. rewrite Hcash. unfold Qminus.
        rewrite <- Qplus_assoc, Qplus_opp_r. apply Qplus_0_r.
Qed.

Lemma cash_mark_then_balance_payment_witness :
  let env := Sample.env (u "pending") true in
  let d1 := final_db (handle_admin_mark_payment env
                        (mkCall (u "100") (u "admin_mark_payment_123_3_2025")))
                     (Sample.db 0 []) in
  let d2 := final_db (select_balance_payment_month env
                        (mkCall (u "123") (u "pay_balance_month_4_2025"))) d1 in
  is_month_paid d2 (Sample.student 0) 3 2025 = true
  ∧ is_month_paid d2 (Sample.student 0) 4 2025 = true
  ∧ length (history d2) = (length (history (Sample.db 0 [])) + 2)%nat
  ∧ ∃ student', users d2 !! telegram_id (Sample.student 0) = Some student'
                ∧ (balance student' == balance (Sample.student 0))%Q.
Proof.
  intros env d1 d2.
  refine (proj2 (cash_mark_then_balance_payment env
            (mkCall (u "100") (u "admin_mark_payment_123_3_2025"))
            (mkCall (u "123") (u "pay_balance_month_4_2025"))
            (Sample.db 0 []) Sample.admin (u "123") (u "3") (u "2025") (Sample.student 0)
            3 2025 (u "pay") (u "balance") (u "month") (u "4") (u "2025") 4 2025
            (u "Апрель") _ _ _ _ _ _ _ _ _ _ _ _ _ _ _ _)
          (Pricing.PriceInfo (u "oge_9") (u "💯ОГЭ(9 класс)") 5650 (u "2 часа / 1 раз в неделю"))
          _ _ _ _ _);
    try (vm_compute; reflexivity); try (vm_compute; congruence).
  left. lia.
Defined.

(** ** The replies of the free-amount input *)



(** X20. Whatever the sender and the text, [handle_admin_text_input] never
    sends its hint about the format of the amount (no statement of the
    inner [try] raises [ValueError]), and it touches neither the payments,
    nor the History Records, nor the wait state of anyone but the sender. *)
Theorem admin_text_input_never_hints msg d :
  (send_message this_chat
     [Lit "❌ Неверный формат суммы. Введите число (например: 1000 или 1000.50):"] None
     ∉ messages (handle_admin_text_input msg) d)
  ∧ payments (final_db (handle_admin_text_input msg) d) = payments d
  ∧ history (final_db (handle_admin_text_input msg) d) = history d
  ∧ ∀ other, other ≠ msg_from_user msg →
      admin_states (final_db (handle_admin_text_input msg) d) !! other
        = admin_states d !! other.
Proof.
  split.
  - assert (Hout : ∀ l : list action,
              Forall (λ a, a ≠ send_message this_chat
                [Lit "❌ Неверный формат суммы. Введите число (например: 1000 или 1000.50):"]
                None) l →
              send_message this_chat
                [Lit "❌ Неверный формат суммы. Введите число (например: 1000 или 1000.50):"]
                None ∉ l).
    { intros l Hl Hin. by apply (proj1 (Forall_forall _ _) Hl _ Hin). }
    apply Hout.
    unfold messages, run, handle_admin_text_input, admin_permission,
      handle_admin_text_input_body. unfold_M. red_M.
    destruct (users d !! msg_from_user msg) as [admin|]; red_M; [|by constructor].
    destruct (is_admin admin); red_M; [|by repeat constructor].
    destruct (admin_states d !! msg_from_user msg) as [sid|]; red_M; [|by constructor].
    destruct (Dec.of_str (Py.replace "," "." (msg_text msg))) as [amt|]; red_M;
      [|by repeat constructor].
    destruct amt as [q|neg|]; cbn [Dec.le_zero Dec.add]; red_M; [| |by repeat constructor].
    + destruct (Qle_bool q 0); red_M; [by repeat constructor|].
      destruct (users d !! sid) as [student|]; red_M; by repeat constructor.
    + destruct neg; red_M; [by repeat constructor|].
      destruct (users d !! sid) as [student|]; red_M; by repeat constructor.
  - destruct (admin_text_input_cases msg d) as [E | [H | H]]; cbv zeta in *.
    + by rewrite E.
    + destruct H as (sid & _ & _ & ->). cbn [payments history admin_states].
      split_and!; try done. intros other Hother. by rewrite lookup_delete_ne.
    + destruct H as (sid & student & q & _ & _ & _ & _ & ->).
      cbn [payments history admin_states].
      split_and!; try done. intros other Hother. by rewrite lookup_delete_ne.
Qed.

(** ** The admin's choice of a payment method *)

Lemma split_aux_nonempty sep s cur : Py.split_aux sep s cur ≠ [].
Proof.
  revert cur. induction s as [|c r IH]; intros cur; simpl; [done|].
  destruct (c =? sep)%N; [done | apply IH].
Qed.








(** ** Wait states *)

(** [handle_admin_payment_method_selection] changes nothing, or stores a
    wait state of an admin caller for an existing student. *)
Lemma payment_method_selection_cases call d :
  let d' := (Ui.handle_admin_payment_method_selection call d).1 in
  d' = d
  ∨ ∃ admin p student,
      users d !! from_user call = Some admin ∧ is_admin admin = true
      ∧ last (Py.split "_" (data call)) = Some p
      ∧ users d !! Py.strip p = Some student
      ∧ Py.startswith (data call) (u "admin_month_payment_") = false
      ∧ Py.startswith (data call) (u "admin_balance_payment_") = true
      ∧ d' = Ui.AdminState_update_or_create (from_user call) (Py.strip p) d.
Proof.
  cbv zeta. unfold Ui.handle_admin_payment_method_selection, Ui.admin_permission_callback,
    Ui.handle_admin_payment_method_selection_body.
  destruct (users d !! from_user call) as [admin|] eqn:Hadmin; [|by left].
  destruct (is_admin admin) eqn:Hisadmin; cbn [negb]; [|by left].
  destruct (last (Py.split "_" (data call))) as [p|] eqn:Hlast; [|by left].
  destruct (Py.eqb (Py.strip p) [] || is_service_word (Py.strip p)); [by left|].
  destruct (users d !! Py.strip p) as [student|] eqn:Hstudent; [|by left].
  destruct (Py.startswith (data call) (u "admin_month_payment_")) eqn:Hmonth; [by left|].
  destruct (Py.startswith (data call) (u "admin_balance_payment_")) eqn:Hbal; [|by left].
  right. exists admin, p, student. by split_and!.
Qed.

(** What a handler does to the wait states: nothing, or the sender's is
    deleted. *)
Lemma admin_states_after_handlers env call msg d d' :
  d' ∈ after_handlers env call msg d →
  admin_states d' = admin_states d
  ∨ admin_states d' = delete (msg_from_user msg) (admin_states d).
Proof.
  assert (Hintent : ∀ amt_of d1, d1 = d ∨ creates_intent env call d amt_of d1 →
                      admin_states d1 = admin_states d).
  { intros amt_of d1 [-> | H]; [done|].
    by destruct H as (a & b & p2 & p3 & m & y & user & info & mn & response & _ & _ & _ & _
                      & _ & _ & _ & _ & ->). }
  unfold after_handlers. rewrite !elem_of_cons, elem_of_nil.
  intros [-> | [-> | [-> | [-> | [-> | [-> | [-> | []]]]]]]].
  - left. destruct (check_payment_cases env call d) as [-> | H]; [done|].
    by destruct H as (a & b & pid & p3 & p4 & m & y & user & info & payment & _ & _ & _ & _
                      & _ & _ & _ & _ & ->).
  - left. eapply Hintent, confirm_payment_cases.
  - left. eapply Hintent, old_confirm_payment_cases.
  - left. eapply Hintent, old_select_payment_month_cases.
  - left. destruct (balance_payment_cases env call d) as [-> | H]; [done|].
    by destruct H as (a & b & c & p3 & p4 & m & y & user & info & _ & _ & _ & _ & _ & _
                      & _ & ->).
  - left. destruct (admin_cash_cases env call d) as [-> | H]; [done|].
    by destruct H as (admin & p3 & p4 & p5 & student & _ & _ & _ & _ & _ & _ & _ & _ & ->).
  - destruct (admin_text_input_cases msg d) as [-> | [H | H]]; [by left | |]; right.
    + by destruct H as (sid & _ & _ & ->).
    + by destruct H as (sid & student & q & _ & _ & _ & _ & ->).
Qed.

Lemma mark_payment_for_student_reads_only call d :
  (Ui.handle_mark_payment_for_student call d).1 = d.
Proof.
  unfold Ui.handle_mark_payment_for_student, Ui.admin_permission_callback,
    Ui.handle_mark_payment_for_student_body.
  destruct (users d !! from_user call) as [admin|]; [|done].
  destruct (negb (is_admin admin)); [done|].
  destruct (last (Py.split "_" (data call))) as [p|]; [|done].
  destruct (Py.eqb (Py.strip p) [] || is_service_word (Py.strip p)); [done|].
  by destruct (users d !! Py.strip p).
Qed.

(** X22. The two screens of the payment-method choice. Showing the methods
    changes nothing. The choice itself leaves users, payments and History
    Records alone and can only write the caller's own wait state; a caller
    who is not an admin changes nothing; and for an admin and an existing
    student, callback data with neither of the two prefixes gets no reply
    at all. *)
Theorem payment_method_screens_frame call d :
  let d' := (Ui.handle_admin_payment_method_selection call d).1 in
  (Ui.handle_mark_payment_for_student call d).1 = d
  ∧ users d' = users d ∧ payments d' = payments d ∧ history d' = history d
  ∧ (∀ other, other ≠ from_user call → admin_states d' !! other = admin_states d !! other)
  ∧ (∀ caller, users d !! from_user call = Some caller → is_admin caller = false → d' = d)
  ∧ (∀ admin p student,
       users d !! from_user call = Some admin → is_admin admin = true →
       last (Py.split "_" (data call)) = Some p →
       Py.strip p ≠ [] → is_service_word (Py.strip p) = false →
       users d !! Py.strip p = Some student →
       Py.startswith (data call) (u "admin_month_payment_") = false →
       Py.startswith (data call) (u "admin_balance_payment_") = false →
       Ui.handle_admin_payment_method_selection call d = (d, [])).
Proof.
  cbv zeta. split_and!.
  - apply mark_payment_for_student_reads_only.
  - destruct (payment_method_selection_cases call d) as [-> | H]; [done|].
    by destruct H as (admin & p & student & _ & _ & _ & _ & _ & _ & ->).
  - destruct (payment_method_selection_cases call d) as [-> | H]; [done|].
    by destruct H as (admin & p & student & _ & _ & _ & _ & _ & _ & ->).
  - destruct (payment_method_selection_cases call d) as [-> | H]; [done|].
    by destruct H as (admin & p & student & _ & _ & _ & _ & _ & _ & ->).
  - intros other Hother.
    destruct (payment_method_selection_cases call d) as [-> | H]; [done|].
    destruct H as (admin & p & student & _ & _ & _ & _ & _ & _ & ->).
    cbn [Ui.AdminState_update_or_create admin_states]. by rewrite lookup_insert_ne.
  - intros caller Hcaller Hnot.
    unfold Ui.handle_admin_payment_method_selection, Ui.admin_permission_callback.
    by rewrite Hcaller, Hnot.
  - intros admin p student Hadmin Hisadmin Hlast Hne Hword Hstudent Hmonth Hbal.
    assert (Hempty : Py.eqb (Py.strip p) [] = false).
    { apply not_true_iff_false. by rewrite eqb_eq. }
    unfold Ui.handle_admin_payment_method_selection, Ui.admin_permission_callback,
      Ui.handle_admin_payment_method_selection_body.
    by rewrite Hadmin, Hisadmin, Hlast, Hempty, Hword, Hstudent, Hmonth, Hbal.
Qed.

(** X23. A wait state always names a user: the choice of a balance credit
    stores one only after it has found the student, and no handler removes
    a user. So if every wait state names a user before, the same holds
    after each handler and each of the two screens. *)
Theorem wait_states_keep_naming_users env call msg d :
  wait_states_name_users d →
  Forall wait_states_name_users
    ((Ui.handle_admin_payment_method_selection call d).1
       :: (Ui.handle_mark_payment_for_student call d).1
       :: after_handlers env call msg d).
Proof.
  intros Hd. apply Forall_cons. split; [|apply Forall_cons; split].
  - destruct (payment_method_selection_cases call d) as [-> | H]; [done|].
    destruct H as (admin & p & student & _ & _ & _ & Hstudent & _ & _ & ->).
    intros a sid. cbn [Ui.AdminState_update_or_create admin_states users].
    destruct (decide (from_user call = a)) as [<- | Hne].
    + rewrite lookup_insert_eq. intros [= <-]. by eexists.
    + rewrite lookup_insert_ne by done. apply Hd.
  - by rewrite mark_payment_for_student_reads_only.
  - apply Forall_forall. intros d' Hin a sid Hstate.
    assert (Hwas : admin_states d !! a = Some sid).
    { destruct (admin_states_after_handlers env call msg d d' Hin) as [E | E];
        rewrite E in Hstate; [done|].
      by apply lookup_delete_Some in Hstate as [_ ?]. }
    destruct (Hd a sid Hwas) as [usr Husr].
    destruct (users_after_handlers env call msg d d' Hin)
      as [-> | (k & usr' & b & _ & _ & ->)]; [by eexists|].
    destruct (decide (telegram_id usr' = sid)) as [<- | Hne].
    + rewrite lookup_insert_eq. by eexists.
    + rewrite lookup_insert_ne by done. by eexists.
Qed.

Lemma wait_states_keep_naming_users_witness :
  Forall wait_states_name_users
    ((Ui.handle_admin_payment_method_selection
        (mkCall (u "100") (u "admin_balance_payment_123")) (Sample.db_waiting 0 (u "123"))).1
       :: (Ui.handle_mark_payment_for_student
             (mkCall (u "100") (u "admin_balance_payment_123"))
             (Sample.db_waiting 0 (u "123"))).1
       :: after_handlers (Sample.env (u "pending") true)
            (mkCall (u "100") (u "admin_balance_payment_123")) (mkMsg (u "100") (u "1000"))
            (Sample.db_waiting 0 (u "123"))).
Proof.
  apply wait_states_keep_naming_users.
  intros a sid. unfold Sample.db_waiting. cbn [admin_states users].
  intros [[_ <-] | [_ H]]%lookup_insert_Some; [|by rewrite lookup_empty in H].
  vm_compute. by eexists.
Defined.



(** ** Notifications *)

Lemma foldr_emit_run (f : User → action) (l : list User) (w : world) :
  foldr (λ a k, emit (f a);; k) pass l w = (Normal tt, mkWorld (db w) (sent w ++ map f l)).
Proof.
  revert w. induction l as [|a l IH]; intros w; simpl.
  - unfold pass, mret, M_ret. rewrite app_nil_r. by destruct w.
  - rewrite bind_run. unfold emit at 1. rewrite IH. simpl. by rewrite <- app_assoc.
Qed.

(** X25. The two notifications never fail and never write. The payer gets
    one message with the payment menu; every admin of the users table,
    and nobody else, gets one notice, in table order. For a month outside
    [MONTH_NAMES] the [KeyError] is swallowed and nothing is sent. *)
Theorem notifications_reach_and_never_fail env user tid m y amt d :
  (∃ out, run (notify_payment_success env tid m y amt) d = (d, out, None)
          ∧ (MONTH_NAMES env m = None → out = [])
          ∧ (is_Some (MONTH_NAMES env m) →
               ∃ t, out = [send_message (chat_of tid) t (Some payment_menu_keyboard)]))
  ∧ (∃ out, run (notify_admins_about_payment env user m y amt) d = (d, out, None)
            ∧ (MONTH_NAMES env m = None → out = [])
            ∧ (is_Some (MONTH_NAMES env m) →
                 ∃ t, out = map (λ a, send_message (chat_of (telegram_id a)) t None)
                                (admins_of d))).
Proof.
  split.
  - unfold run, notify_payment_success. unfold_M. red_M.
    destruct (MONTH_NAMES env m) as [mn|]; red_M.
    + eexists. split; [by destruct d|]. split; [done|]. intros _. by eexists.
    + eexists. split; [by destruct d|]. split; [done|]. by intros [? ?].
  - unfold run, notify_admins_about_payment, def_, try_except.
    rewrite bind_run. unfold get_db at 1. cbn [db].
    fold (admins_of d).
    destruct (admins_of d) as [|a admins] eqn:Hadmins.
    + exists []. unfold return_. split; [by destruct d|]. split; [done|].
      intros _. by exists [].
    + cbv beta match. rewrite bind_run. unfold month_name.
      destruct (MONTH_NAMES env m) as [mn|];
        unfold or_raise, mret, M_ret, raise; cbv beta match.
      * rewrite foldr_emit_run. cbn [db sent app].
        eexists. split; [by destruct d|]. split; [done|]. intros _. by eexists.
      * unfold except_Exception, pass, mret, M_ret.
        exists []. split; [by destruct d|]. split; [done|]. by intros [? ?].
Qed.

(** ** Student profiles *)

Lemma get_owned_Some s pid tid p :
  Profiles.get_owned s pid tid = Some p ↔
  Profiles.student_profiles s !! pid = Some p ∧ Profiles.owner p = tid.
Proof.
  unfold Profiles.get_owned.
  destruct (Profiles.student_profiles s !! pid) as [q|]; [|split; [done | by intros [? _]]].
  destruct (Py.eqb (Profiles.owner q) tid) eqn:E.
  - apply eqb_eq in E. split; [by intros [= <-] | by intros [[= <-] _]].
  - split; [done|]. intros [[= ->] Ho]. apply eqb_eq in Ho. congruence.
Qed.

(** What a profile handler does to the table: nothing; or a new active
    row under the next id, the caller's other rows switched off; or a row
    of the caller switched on and the caller's other rows off; or a row of
    the caller deleted. *)
Lemma profile_table_after_handlers insert_ok call message s s' :
  s' ∈ Profiles.after_handlers insert_ok call message s →
  (Profiles.student_profiles s' = Profiles.student_profiles s
   ∧ Profiles.next_id s' = Profiles.next_id s)
  ∨ (∃ tid name cn el,
       Profiles.student_profiles s'
         = Profiles.deactivate_others tid (Profiles.next_id s)
             (<[Profiles.next_id s :=
                  Profiles.mkProfile (Profiles.next_id s) tid name name cn el true true]>
                (Profiles.student_profiles s))
       ∧ Profiles.next_id s' = Profiles.next_id s + 1)
  ∨ (∃ pid profile,
       Profiles.student_profiles s !! pid = Some profile
       ∧ Profiles.owner profile = from_user call
       ∧ Profiles.next_id s' = Profiles.next_id s
       ∧ (Profiles.student_profiles s'
            = <[Profiles.profile_id profile := Profiles.with_active true profile]>
                (Profiles.deactivate_all (Profiles.owner profile)
                   (Profiles.student_profiles s))
          ∨ Profiles.student_profiles s'
            = delete (Profiles.profile_id profile) (Profiles.student_profiles s))).
Proof.
  unfold Profiles.after_handlers. rewrite !elem_of_cons, elem_of_nil.
  intros [-> | [-> | [-> | [-> | [-> | [-> | []]]]]]].
  - left. unfold Profiles.create_profile.
    by destruct (Profiles.accounts s !! from_user call).
  - left. unfold Profiles.handle_profile_creation_message.
    destruct (Profiles.profile_creation_states s !! msg_from_user message) as [st|]; [|done].
    destruct (Py.eqb (Profiles.step st) (u "waiting_profile_name")); [|done].
    destruct (length (Py.strip (msg_text message)) <? 2)%nat; [done|].
    destruct (Profiles.accounts s !! msg_from_user message) as [user|]; [|done].
    by destruct (Profiles.name_taken s user (Py.strip (msg_text message))).
  - left. unfold Profiles.handle_profile_class_choice.
    destruct (Profiles.profile_creation_states s !! from_user call) as [st|]; [|done].
    destruct (negb (Py.eqb (Profiles.step st) (u "waiting_class"))); [done|].
    destruct (Profiles.class_of_choice _) as [cn el].
    by destruct (Profiles.st_profile_name st).
  - unfold Profiles.confirm_profile_creation.
    destruct (Profiles.profile_creation_states s !! from_user call) as [st|]; [|by left].
    destruct (negb (Py.eqb (Profiles.step st) (u "waiting_confirmation"))); [by left|].
    destruct (Profiles.accounts s !! from_user call) as [user|]; [|by left].
    destruct (Profiles.st_profile_name st) as [name|]; [|by left].
    destruct (Profiles.st_class_number st) as [cn|]; [|by left].
    destruct (Profiles.st_education_level st) as [el|]; [|by left].
    destruct insert_ok; [|by left].
    right; left. by exists (telegram_id user), name, cn, el.
  - unfold Profiles.switch_to_profile.
    destruct (Py.split "_" (data call) !! 3%nat) as [part|]; [|by left].
    destruct (Py.int part) as [pid|]; [|by left].
    destruct (Profiles.get_owned s pid (from_user call)) as [profile|] eqn:Hget; [|by left].
    apply get_owned_Some in Hget as [Hrow Howner].
    right; right. exists pid, profile. split_and!; try done. by left.
  - unfold Profiles.final_delete_profile.
    destruct (Py.split "_" (data call) !! 3%nat) as [part|]; [|by left].
    destruct (Py.int part) as [pid|]; [|by left].
    destruct (Profiles.get_owned s pid (from_user call)) as [profile|] eqn:Hget; [|by left].
    apply get_owned_Some in Hget as [Hrow Howner].
    right; right. exists pid, profile. split_and!; try done. by right.
Qed.

Lemma lookup_deactivate_others tid keep table k p' :
  Profiles.deactivate_others tid keep table !! k = Some p' →
  ∃ p, table !! k = Some p
       ∧ Profiles.profile_id p' = Profiles.profile_id p
       ∧ Profiles.owner p' = Profiles.owner p
       ∧ (Profiles.is_active p' = true →
            Profiles.is_active p = true
            ∧ (Profiles.owner p = tid → Profiles.profile_id p = keep)).
Proof.
  unfold Profiles.deactivate_others. rewrite lookup_fmap.
  destruct (table !! k) as [p|]; [|done]. cbn. intros [= <-]. exists p. split; [done|].
  destruct (Py.eqb (Profiles.owner p) tid) eqn:Eo;
    destruct (Profiles.profile_id p =? keep) eqn:Ek; cbn; split_and!; try done.
  - intros Ha. split; [done|]. intros _. by apply Z.eqb_eq.
  - intros Ha. split; [done|]. intros Ho. apply eqb_eq in Ho. congruence.
  - intros Ha. split; [done|]. intros Ho. apply eqb_eq in Ho. congruence.
Qed.

Lemma lookup_deactivate_all tid table k p' :
  Profiles.deactivate_all tid table !! k = Some p' →
  ∃ p, table !! k = Some p
       ∧ Profiles.profile_id p' = Profiles.profile_id p
       ∧ Profiles.owner p' = Profiles.owner p
       ∧ (Profiles.is_active p' = true →
            Profiles.is_active p = true ∧ Profiles.owner p ≠ tid).
Proof.
  unfold Profiles.deactivate_all. rewrite lookup_fmap.
  destruct (table !! k) as [p|]; [|done]. cbn. intros [= <-]. exists p. split; [done|].
  destruct (Py.eqb (Profiles.owner p) tid) eqn:Eo; cbn; split_and!; try done.
  intros Ha. split; [done|]. intros Ho. apply eqb_eq in Ho. congruence.
Qed.

(** The rows after a creation: ids match keys, the caller's only active
    row is the new one, and the other rows come from rows of before. *)
Lemma rows_after_create (s : Profiles.Store) tid name cn el k p' :
  Profiles.keyed s →
  Profiles.deactivate_others tid (Profiles.next_id s)
    (<[Profiles.next_id s :=
         Profiles.mkProfile (Profiles.next_id s) tid name name cn el true true]>
       (Profiles.student_profiles s)) !! k = Some p' →
  Profiles.profile_id p' = k ∧ k < Profiles.next_id s + 1
  ∧ (Profiles.is_active p' = true → Profiles.owner p' = tid → k = Profiles.next_id s)
  ∧ (k = Profiles.next_id s → Profiles.owner p' = tid)
  ∧ (k ≠ Profiles.next_id s →
       ∃ p, Profiles.student_profiles s !! k = Some p
            ∧ Profiles.owner p' = Profiles.owner p
            ∧ (Profiles.is_active p' = true → Profiles.is_active p = true)).
Proof.
  intros Hkey Hk.
  apply lookup_deactivate_others in Hk as (p & Hp & Hid & Ho & Hact).
  destruct (decide (k = Profiles.next_id s)) as [-> | Hne].
  - rewrite lookup_insert_eq in Hp. injection Hp as <-. cbn in *.
    split_and!; [done | lia | done | done | done].
  - rewrite lookup_insert_ne in Hp by done.
    destruct (Hkey k p Hp) as [Hidp Hlt].
    split_and!; [congruence | lia | | done | ].
    + intros Ha Hown. destruct (Hact Ha) as [_ Hkeep]. rewrite Ho in Hown.
      specialize (Hkeep Hown). congruence.
    + intros _. exists p. split_and!; [done..|]. intros Ha. by destruct (Hact Ha).
Qed.

(** The rows after a switch to [profile]. *)
Lemma rows_after_switch (s : Profiles.Store) pid profile k p' :
  Profiles.keyed s →
  Profiles.student_profiles s !! pid = Some profile →
  <[Profiles.profile_id profile := Profiles.with_active true profile]>
    (Profiles.deactivate_all (Profiles.owner profile) (Profiles.student_profiles s)) !! k
    = Some p' →
  Profiles.profile_id p' = k ∧ k < Profiles.next_id s
  ∧ (Profiles.is_active p' = true → Profiles.owner p' = Profiles.owner profile → k = pid)
  ∧ (k = pid → p' = Profiles.with_active true profile)
  ∧ (k ≠ pid →
       ∃ p, Profiles.student_profiles s !! k = Some p
            ∧ Profiles.owner p' = Profiles.owner p
            ∧ (Profiles.owner p ≠ Profiles.owner profile → p' = p)
            ∧ (Profiles.is_active p' = true → Profiles.is_active p = true)).
Proof.
  intros Hkey Hrow. destruct (Hkey pid profile Hrow) as [Hid Hlt]. rewrite Hid. intros Hk.
  destruct (decide (k = pid)) as [-> | Hne].
  - rewrite lookup_insert_eq in Hk. injection Hk as <-. cbn.
    split_and!; [done | done | done | done | done].
  - rewrite lookup_insert_ne in Hk by done.
    pose proof Hk as Hk'.
    apply lookup_deactivate_all in Hk as (p & Hp & Hidp & Ho & Hact).
    destruct (Hkey k p Hp) as [Hidk Hltk].
    split_and!; [congruence | done | | done | ].
    + intros Ha Hown. destruct (Hact Ha) as [_ Hother]. congruence.
    + intros _. exists p. split_and!; [done | done | | ].
      * intros Hother. unfold Profiles.deactivate_all in Hk'.
        rewrite lookup_fmap, Hp in Hk'. cbn in Hk'.
        destruct (Py.eqb (Profiles.owner p) (Profiles.owner profile)) eqn:E.
        -- apply eqb_eq in E. done.
        -- by injection Hk' as <-.
      * intros Ha. by destruct (Hact Ha).
Qed.

(** A creation state stays complete: each step is entered together with
    the keys it reads. *)
Lemma profile_states_stay_complete insert_ok call message s s' :
  Profiles.states_complete s →
  s' ∈ Profiles.after_handlers insert_ok call message s →
  Profiles.states_complete s'.
Proof.
  intros Hs. unfold Profiles.after_handlers. rewrite !elem_of_cons, elem_of_nil.
  assert (Hfresh : ∀ uid, Profiles.state_complete
            (Profiles.mkState (u "waiting_profile_name") uid None None None)).
  { intros uid. split; cbn [Profiles.step Profiles.st_profile_name Profiles.st_class_number Profiles.st_education_level]; intros H; vm_compute in H; discriminate H. }
  intros [-> | [-> | [-> | [-> | [-> | [-> | []]]]]]].
  - unfold Profiles.create_profile.
    destruct (Profiles.accounts s !! from_user call); [|done].
    apply map_Forall_insert_2; [apply Hfresh | done].
  - unfold Profiles.handle_profile_creation_message.
    destruct (Profiles.profile_creation_states s !! msg_from_user message) as [st|]; [|done].
    destruct (Py.eqb (Profiles.step st) (u "waiting_profile_name")); [|done].
    destruct (length (Py.strip (msg_text message)) <? 2)%nat; [done|].
    destruct (Profiles.accounts s !! msg_from_user message) as [user|]; [|done].
    destruct (Profiles.name_taken s user (Py.strip (msg_text message))); [done|].
    apply map_Forall_insert_2; [|done].
    split; cbn [Profiles.step Profiles.st_profile_name Profiles.st_class_number Profiles.st_education_level]; [by eexists|]. intros H; vm_compute in H; discriminate H.
  - unfold Profiles.handle_profile_class_choice.
    destruct (Profiles.profile_creation_states s !! from_user call) as [st|] eqn:Hst; [|done].
    destruct (Py.eqb (Profiles.step st) (u "waiting_class")) eqn:Hstep; cbn [negb]; [|done].
    apply eqb_eq in Hstep.
    destruct (Hs _ _ Hst) as [Hname _]. specialize (Hname Hstep).
    destruct (Profiles.class_of_choice _) as [cn el].
    assert (Hnew : Profiles.states_complete
              (Profiles.mkStore (Profiles.accounts s) (Profiles.student_profiles s)
                 (Profiles.next_id s)
                 (<[from_user call := Profiles.mkState (u "waiting_confirmation")
                      (Profiles.user_id st) (Profiles.st_profile_name st) (Some cn)
                      (Some el)]> (Profiles.profile_creation_states s)))).
    { apply map_Forall_insert_2; [|done]. split; cbn [Profiles.step Profiles.st_profile_name Profiles.st_class_number Profiles.st_education_level].
      - intros H; vm_compute in H; discriminate H.
      - intros _. split_and!; [done | by eexists | by eexists]. }
    by destruct (Profiles.st_profile_name st).
  - unfold Profiles.confirm_profile_creation.
    destruct (Profiles.profile_creation_states s !! from_user call) as [st|]; [|done].
    destruct (negb (Py.eqb (Profiles.step st) (u "waiting_confirmation"))); [done|].
    destruct (Profiles.accounts s !! from_user call) as [user|]; [|done].
    destruct (Profiles.st_profile_name st) as [name|]; [|done].
    destruct (Profiles.st_class_number st) as [cn|]; [|done].
    destruct (Profiles.st_education_level st) as [el|]; [|done].
    destruct insert_ok; [|done].
    by apply map_Forall_delete.
  - unfold Profiles.switch_to_profile.
    destruct (Py.split "_" (data call) !! 3%nat) as [part|]; [|done].
    destruct (Py.int part) as [pid|]; [|done].
    by destruct (Profiles.get_owned s pid (from_user call)).
  - unfold Profiles.final_delete_profile.
    destruct (Py.split "_" (data call) !! 3%nat) as [part|]; [|done].
    destruct (Py.int part) as [pid|]; [|done].
    by destruct (Profiles.get_owned s pid (from_user call)).
Qed.

(** X26. The invariants of the profile store. On a table keyed by id with
    at most one active profile per user and creation states that hold the
    keys their step reads, the same holds after each of the six profile
    handlers that write, whatever the input: creation and switching turn
    the caller's other profiles off, and every step of the creation flow
    is entered together with its keys. *)
Theorem profile_handlers_keep_one_active insert_ok call message s :
  Profiles.keyed s → Profiles.one_active s → Profiles.states_complete s →
  Forall (λ s', Profiles.keyed s' ∧ Profiles.one_active s' ∧ Profiles.states_complete s')
         (Profiles.after_handlers insert_ok call message s).
Proof.
  intros Hkey Hone Hstates. apply Forall_forall. intros s' Hin.
  split_and!; [| | by eapply profile_states_stay_complete].
  - destruct (profile_table_after_handlers insert_ok call message s s' Hin)
      as [[Et En] | [(tid & name & cn & el & Et & En)
                    | (pid & profile & Hrow & Howner & En & [Et | Et])]];
      intros k p; rewrite Et, En.
    + apply Hkey.
    + intros Hk. by destruct (rows_after_create s tid name cn el k p Hkey Hk) as (? & ? & _).
    + intros Hk. by destruct (rows_after_switch s pid profile k p Hkey Hrow Hk) as (? & ? & _).
    + intros [_ Hk]%lookup_delete_Some. by apply Hkey.
  - destruct (profile_table_after_handlers insert_ok call message s s' Hin)
      as [[Et En] | [(tid & name & cn & el & Et & En)
                    | (pid & profile & Hrow & Howner & En & [Et | Et])]];
      intros i j p q; rewrite Et.
    + apply Hone.
    + intros Hi Hj Hown Hp Hq.
      destruct (rows_after_create s tid name cn el i p Hkey Hi) as (_ & _ & Hpi & Hni & Hoi).
      destruct (rows_after_create s tid name cn el j q Hkey Hj) as (_ & _ & Hqj & Hnj & Hoj).
      destruct (decide (i = Profiles.next_id s)) as [Ei | Ei];
        destruct (decide (j = Profiles.next_id s)) as [Ej | Ej].
      * congruence.
      * exfalso. apply Ej, Hqj; [done|]. rewrite <- Hown. by apply Hni.
      * exfalso. apply Ei, Hpi; [done|]. rewrite Hown. by apply Hnj.
      * destruct (Hoi Ei) as (p0 & Hp0 & Hop & Hap).
        destruct (Hoj Ej) as (q0 & Hq0 & Hoq & Haq).
        apply (Hone i j p0 q0); [done | done | congruence | by apply Hap | by apply Haq].
    + intros Hi Hj Hown Hp Hq.
      destruct (rows_after_switch s pid profile i p Hkey Hrow Hi) as (_ & _ & Hpi & Hni & Hoi).
      destruct (rows_after_switch s pid profile j q Hkey Hrow Hj) as (_ & _ & Hqj & Hnj & Hoj).
      destruct (decide (i = pid)) as [Ei | Ei]; destruct (decide (j = pid)) as [Ej | Ej].
      * congruence.
      * exfalso. apply Ej, Hqj; [done|]. rewrite <- Hown. by rewrite (Hni Ei).
      * exfalso. apply Ei, Hpi; [done|]. rewrite Hown. by rewrite (Hnj Ej).
      * destruct (Hoi Ei) as (p0 & Hp0 & Hop & _ & Hap).
        destruct (Hoj Ej) as (q0 & Hq0 & Hoq & _ & Haq).
        apply (Hone i j p0 q0); [done | done | congruence | by apply Hap | by apply Haq].
    + intros [_ Hi]%lookup_delete_Some [_ Hj]%lookup_delete_Some. by apply Hone.
Qed.

Lemma profile_sample_keyed : Profiles.keyed ProfileSample.store.
Proof.
  intros k p Hk. unfold ProfileSample.store in Hk. cbn [Profiles.student_profiles] in Hk.
  apply lookup_insert_Some in Hk as [[<- <-] | [_ Hk]]; [done|].
  apply lookup_insert_Some in Hk as [[<- <-] | [_ Hk]]; [done|].
  by rewrite lookup_empty in Hk.
Qed.

Lemma profile_sample_one_active : Profiles.one_active ProfileSample.store.
Proof.
  intros i j p q Hi Hj _ Hp Hq. unfold ProfileSample.store in Hi, Hj.
  cbn [Profiles.student_profiles] in Hi, Hj.
  apply lookup_insert_Some in Hi as [[<- <-] | [_ Hi]];
    apply lookup_insert_Some in Hj as [[<- <-] | [_ Hj]]; [done | | |].
  - apply lookup_insert_Some in Hj as [[<- <-] | [_ Hj]]; [done|].
    by rewrite lookup_empty in Hj.
  - apply lookup_insert_Some in Hi as [[<- <-] | [_ Hi]]; [done|].
    by rewrite lookup_empty in Hi.
  - apply lookup_insert_Some in Hi as [[<- <-] | [_ Hi]]; [done|].
    by rewrite lookup_empty in Hi.
Qed.

Lemma profile_handlers_keep_one_active_witness :
  Forall (λ s', Profiles.keyed s' ∧ Profiles.one_active s' ∧ Profiles.states_complete s')
    (Profiles.after_handlers true (mkCall (u "123") (u "switch_to_profile_2"))
       (mkMsg (u "123") (u "Пётр")) ProfileSample.store).
Proof.
  apply profile_handlers_keep_one_active.
  - exact profile_sample_keyed.
  - exact profile_sample_one_active.
  - apply map_Forall_empty.
Defined.

(** *** The active profile *)

Lemma active_rows_spec (user : User) (s : Profiles.Store) (p : Profiles.StudentProfile) :
  p ∈ filter (λ p, Profiles.owner p = telegram_id user ∧ Profiles.is_active p = true)
             (map_to_list (Profiles.student_profiles s)).*2
  ↔ (∃ k, Profiles.student_profiles s !! k = Some p)
    ∧ Profiles.owner p = telegram_id user ∧ Profiles.is_active p = true.
Proof.
  rewrite list_elem_of_filter, list_elem_of_fmap. split.
  - intros [HP ([k q] & -> & Hin)]. apply elem_of_map_to_list in Hin. split; [by exists k | done].
  - intros [[k Hk] HP]. split; [done|]. exists (k, p). split; [done|].
    by apply elem_of_map_to_list.
Qed.

Lemma active_rows_NoDup (user : User) (s : Profiles.Store) :
  Profiles.keyed s →
  NoDup (filter (λ p, Profiles.owner p = telegram_id user ∧ Profiles.is_active p = true)
                (map_to_list (Profiles.student_profiles s)).*2).
Proof.
  intros Hkey. apply NoDup_filter. apply NoDup_fmap_2_strong; [|apply NoDup_map_to_list].
  intros [i p] [j q] Hi Hj Heq. cbn in Heq. subst q.
  apply elem_of_map_to_list in Hi, Hj.
  destruct (Hkey i p Hi) as [<- _]. destruct (Hkey j p Hj) as [<- _]. done.
Qed.

Lemma get_active_profile_Some (user : User) (s : Profiles.Store) k p :
  Profiles.keyed s →
  Profiles.student_profiles s !! k = Some p →
  Profiles.owner p = telegram_id user → Profiles.is_active p = true →
  (∀ j q, Profiles.student_profiles s !! j = Some q →
          Profiles.owner q = telegram_id user → Profiles.is_active q = true → j = k) →
  Profiles.get_active_profile user s = inl (Some p).
Proof.
  intros Hkey Hk Ho Ha Honly. unfold Profiles.get_active_profile.
  pose proof (active_rows_NoDup user s Hkey) as Hnd.
  assert (Hall : ∀ q, q ∈ filter (λ p, Profiles.owner p = telegram_id user
                                      ∧ Profiles.is_active p = true)
                        (map_to_list (Profiles.student_profiles s)).*2 → q = p).
  { intros q [[j Hj] [Hoq Haq]]%active_rows_spec.
    specialize (Honly j q Hj Hoq Haq). subst j. congruence. }
  assert (Hin : p ∈ filter (λ p, Profiles.owner p = telegram_id user
                                 ∧ Profiles.is_active p = true)
                    (map_to_list (Profiles.student_profiles s)).*2).
  { apply active_rows_spec. split; [by exists k | done]. }
  destruct (filter _ _) as [|a [|b r]].
  - by apply elem_of_nil in Hin.
  - rewrite (Hall a); [done | left].
  - exfalso. apply NoDup_cons in Hnd as [Hnotin _]. apply Hnotin.
    rewrite (Hall a), <- (Hall b); [left | right; left | left].
Qed.

Lemma get_active_profile_None (user : User) (s : Profiles.Store) :
  (∀ k p, Profiles.student_profiles s !! k = Some p →
          Profiles.owner p = telegram_id user → Profiles.is_active p = false) →
  Profiles.get_active_profile user s = inl None.
Proof.
  intros Hnone. unfold Profiles.get_active_profile.
  destruct (filter _ _) as [|a r] eqn:E; [done|]. exfalso.
  assert (Hin : a ∈ filter (λ p, Profiles.owner p = telegram_id user
                                 ∧ Profiles.is_active p = true)
                    (map_to_list (Profiles.student_profiles s)).*2) by (rewrite E; left).
  apply active_rows_spec in Hin as [[k Hk] [Ho Ha]].
  rewrite (Hnone k a Hk Ho) in Ha. discriminate Ha.
Qed.

(** X27. [get_active_profile] on a store that keeps its invariants: it
    returns a profile exactly when that profile is the user's active row,
    [None] exactly when the user has no active row, and
    [MultipleObjectsReturned], which the function does not catch, never
    leaves it. *)
Theorem get_active_profile_unambiguous (user : User) (s : Profiles.Store) :
  Profiles.keyed s → Profiles.one_active s →
  (∀ p, Profiles.get_active_profile user s = inl (Some p)
        ↔ Profiles.student_profiles s !! Profiles.profile_id p = Some p
          ∧ Profiles.owner p = telegram_id user ∧ Profiles.is_active p = true)
  ∧ (Profiles.get_active_profile user s = inl None
     ↔ ∀ k p, Profiles.student_profiles s !! k = Some p →
              Profiles.owner p = telegram_id user → Profiles.is_active p = false)
  ∧ Profiles.get_active_profile user s ≠ inr Profiles.MultipleObjectsReturned.
Proof.
  intros Hkey Hone.
  assert (Hsome : ∀ p, Profiles.student_profiles s !! Profiles.profile_id p = Some p →
            Profiles.owner p = telegram_id user → Profiles.is_active p = true →
            Profiles.get_active_profile user s = inl (Some p)).
  { intros p Hp Ho Ha. apply (get_active_profile_Some user s (Profiles.profile_id p)); try done.
    intros j q Hj Hoq Haq. apply (Hone j _ q p); [done | done | congruence | done | done]. }
  assert (Hrow : ∀ p, p ∈ filter (λ p, Profiles.owner p = telegram_id user
                                       ∧ Profiles.is_active p = true)
                          (map_to_list (Profiles.student_profiles s)).*2 →
            Profiles.student_profiles s !! Profiles.profile_id p = Some p
            ∧ Profiles.owner p = telegram_id user ∧ Profiles.is_active p = true).
  { intros p [[k Hk] [Ho Ha]]%active_rows_spec.
    destruct (Hkey k p Hk) as [-> _]. done. }
  split_and!.
  - intros p. split; [|by intros (? & ? & ?); apply Hsome].
    unfold Profiles.get_active_profile. intros Hget.
    destruct (filter _ _) as [|a [|b r]] eqn:E; [done | | done].
    injection Hget as <-. apply Hrow. left.
  - split; [|apply get_active_profile_None].
    unfold Profiles.get_active_profile. intros Hget k p Hk Ho.
    destruct (Profiles.is_active p) eqn:Ha; [|done]. exfalso.
    assert (Hin : p ∈ filter (λ p, Profiles.owner p = telegram_id user
                                   ∧ Profiles.is_active p = true)
                      (map_to_list (Profiles.student_profiles s)).*2).
    { apply active_rows_spec. split; [by exists k | done]. }
    destruct (filter _ _) as [|a [|b r]]; [by apply elem_of_nil in Hin | done | done].
  - unfold Profiles.get_active_profile. intros Hget.
    pose proof (active_rows_NoDup user s Hkey) as Hnd.
    destruct (filter _ _) as [|a [|b r]]; [done | done |].
    destruct (Hrow a) as (Ha1 & Ha2 & Ha3); [left|].
    destruct (Hrow b) as (Hb1 & Hb2 & Hb3); [right; left|].
    assert (Hid : Profiles.profile_id a = Profiles.profile_id b).
    { apply (Hone _ _ a b); [done | done | congruence | done | done]. }
    assert (Hab : a = b) by congruence.
    apply NoDup_cons in Hnd as [Hnotin _]. apply Hnotin. rewrite Hab. left.
Qed.

Lemma get_active_profile_unambiguous_witness :
  Profiles.get_active_profile (Sample.student 0) ProfileSample.store
    = inl (Some ProfileSample.ivan).
Proof.
  apply (proj1 (get_active_profile_unambiguous (Sample.student 0) ProfileSample.store
                  profile_sample_keyed profile_sample_one_active)).
  split_and!; vm_compute; reflexivity.
Defined.

(** *** Switching, deleting and creating *)

Lemma lookup_deactivate_all_other tid table k p :
  table !! k = Some p → Profiles.owner p ≠ tid →
  Profiles.deactivate_all tid table !! k = Some p.
Proof.
  intros Hk Ho. unfold Profiles.deactivate_all. rewrite lookup_fmap, Hk. cbn [fmap option_fmap option_map].
  destruct (Py.eqb (Profiles.owner p) tid) eqn:E; [|done]. by apply eqb_eq in E.
Qed.

Lemma lookup_deactivate_others_other tid keep table k p :
  table !! k = Some p → Profiles.owner p ≠ tid ∨ Profiles.profile_id p = keep →
  Profiles.deactivate_others tid keep table !! k = Some p.
Proof.
  intros Hk Ho. unfold Profiles.deactivate_others. rewrite lookup_fmap, Hk.
  cbn [fmap option_fmap option_map].
  destruct (Py.eqb (Profiles.owner p) tid) eqn:E; [|done].
  destruct (Profiles.profile_id p =? keep) eqn:Ek; [done|].
  apply eqb_eq in E. apply Z.eqb_neq in Ek. by destruct Ho.
Qed.

(** X28. Switching and deleting, for the owner of a profile. After
    [switch_to_profile] the chosen profile is the caller's active one,
    whatever was active before; after [final_delete_profile] the row is
    gone, and when it was the active one the caller has no active
    profile. Neither touches the profiles of other users. *)
Theorem switch_and_delete_of_a_profile call s part pid profile (user : User) :
  Profiles.keyed s →
  Py.split "_" (data call) !! 3%nat = Some part → Py.int part = Some pid →
  Profiles.student_profiles s !! pid = Some profile →
  Profiles.owner profile = from_user call → telegram_id user = from_user call →
  let switched := (Profiles.switch_to_profile call s).1.1 in
  let deleted := (Profiles.final_delete_profile call s).1.1 in
  Profiles.get_active_profile user switched = inl (Some (Profiles.with_active true profile))
  ∧ Profiles.student_profiles deleted !! pid = None
  ∧ (Profiles.one_active s → Profiles.is_active profile = true →
       Profiles.get_active_profile user deleted = inl None)
  ∧ (∀ k p, Profiles.student_profiles s !! k = Some p → Profiles.owner p ≠ from_user call →
       Profiles.student_profiles switched !! k = Some p
       ∧ Profiles.student_profiles deleted !! k = Some p).
Proof.
  intros Hkey Hpart Hint Hrow Howner Huser switched deleted.
  destruct (Hkey pid profile Hrow) as [Hid Hlt].
  assert (Hget : Profiles.get_owned s pid (from_user call) = Some profile).
  { by apply get_owned_Some. }
  assert (Hsw : Profiles.student_profiles switched
                = <[pid := Profiles.with_active true profile]>
                    (Profiles.deactivate_all (Profiles.owner profile)
                       (Profiles.student_profiles s))).
  { subst switched. unfold Profiles.switch_to_profile. rewrite Hpart, Hint, Hget.
    cbn [fst Profiles.student_profiles]. by rewrite Hid. }
  assert (Hnx : Profiles.next_id switched = Profiles.next_id s).
  { subst switched. unfold Profiles.switch_to_profile. by rewrite Hpart, Hint, Hget. }
  assert (Hdel : Profiles.student_profiles deleted
                 = delete pid (Profiles.student_profiles s)).
  { subst deleted. unfold Profiles.final_delete_profile. rewrite Hpart, Hint, Hget.
    cbn [fst Profiles.student_profiles]. by rewrite Hid. }
  assert (Hrows : ∀ k p', Profiles.student_profiles switched !! k = Some p' →
            Profiles.profile_id p' = k ∧ k < Profiles.next_id s
            ∧ (Profiles.is_active p' = true →
                 Profiles.owner p' = Profiles.owner profile → k = pid)).
  { intros k p'. rewrite Hsw, <- Hid. intros Hk.
    destruct (rows_after_switch s pid profile k p' Hkey Hrow Hk) as (? & ? & ? & _).
    rewrite Hid. done. }
  split_and!.
  - apply (get_active_profile_Some user switched pid).
    + intros k p' Hk. rewrite Hnx. by destruct (Hrows k p' Hk) as (? & ? & _).
    + rewrite Hsw. apply lookup_insert_eq.
    + cbn [Profiles.with_active Profiles.owner]. congruence.
    + done.
    + intros j q Hj Hoq Haq. destruct (Hrows j q Hj) as (_ & _ & Honly).
      apply Honly; [done | congruence].
  - rewrite Hdel. apply lookup_delete_eq.
  - intros Hone Hact. apply get_active_profile_None. intros k p. rewrite Hdel.
    intros [Hne Hk]%lookup_delete_Some Ho.
    destruct (Profiles.is_active p) eqn:Ha; [|done]. exfalso. apply Hne.
    apply (Hone pid k profile p); [done | done | congruence | done | done].
  - intros k p Hk Ho.
    assert (Hne : pid ≠ k).
    { intros <-. rewrite Hrow in Hk. injection Hk as <-. done. }
    split.
    + rewrite Hsw, lookup_insert_ne by done.
      apply lookup_deactivate_all_other; [done | congruence].
    + rewrite Hdel. by rewrite lookup_delete_ne.
Qed.

Lemma switch_and_delete_of_a_profile_witness :
  Profiles.get_active_profile (Sample.student 0)
    (Profiles.switch_to_profile (mkCall (u "123") (u "switch_to_profile_2"))
       ProfileSample.store).1.1
  = inl (Some (Profiles.with_active true ProfileSample.anna)).
Proof.
  apply (switch_and_delete_of_a_profile (mkCall (u "123") (u "switch_to_profile_2"))
           ProfileSample.store (u "2") 2 ProfileSample.anna (Sample.student 0)
           profile_sample_keyed);
    vm_compute; reflexivity.
Defined.

(** X29. The creation flow from its first button to the new profile. For
    a user and a name of at least two code points that none of the user's
    profiles bears: [create_profile], the name, a class button and
    [confirm_profile_creation] store one new row under the next id, owned
    by the user, named and full-named by the text, with the class and
    level of the button, active and registered; it is then the user's
    active profile, the creation state is gone, and the profiles of other
    users are as before. *)
Theorem profile_creation_flow tid (user : User) d0 txt choice d3 s :
  Profiles.keyed s →
  Profiles.accounts s !! tid = Some user → telegram_id user = tid →
  (2 <= length (Py.strip txt))%nat →
  Profiles.name_taken s user (Py.strip txt) = false →
  let s1 := (Profiles.create_profile (mkCall tid d0) s).1.1 in
  let s2 := (Profiles.handle_profile_creation_message (mkMsg tid txt) s1).1.1 in
  let s3 := (Profiles.handle_profile_class_choice (mkCall tid choice) s2).1.1 in
  let done_ := Profiles.confirm_profile_creation true (mkCall tid d3) s3 in
  let class := Profiles.class_of_choice (Profiles.remove_all (u "profile_class_") 0 choice) in
  let new := Profiles.mkProfile (Profiles.next_id s) tid (Py.strip txt) (Py.strip txt)
                                class.1 class.2 true true in
  done_.1.2 = [Profiles.edit_message_text (Profiles.PROFILE_CREATED_SUCCESS new)
                 Profiles.generate_profiles_menu_keyboard]
  ∧ Profiles.student_profiles done_.1.1 !! Profiles.next_id s = Some new
  ∧ Profiles.next_id done_.1.1 = Profiles.next_id s + 1
  ∧ Profiles.get_active_profile user done_.1.1 = inl (Some new)
  ∧ Profiles.is_user_creating_profile tid done_.1.1 = false
  ∧ (∀ k p, Profiles.student_profiles s !! k = Some p → Profiles.owner p ≠ tid →
       Profiles.student_profiles done_.1.1 !! k = Some p).
Proof.
  intros Hkey Huser Htid Hlen Hfree s1 s2 s3 done_ class new.
  apply Nat.ltb_ge in Hlen.
  assert (H1 : s1 = Profiles.mkStore (Profiles.accounts s) (Profiles.student_profiles s)
                 (Profiles.next_id s)
                 (<[tid := Profiles.mkState (u "waiting_profile_name") tid None None None]>
                    (Profiles.profile_creation_states s))).
  { subst s1. unfold Profiles.create_profile. cbn [from_user]. rewrite Huser.
    cbn [fst]. by rewrite Htid. }
  assert (H2 : s2 = Profiles.mkStore (Profiles.accounts s) (Profiles.student_profiles s)
                 (Profiles.next_id s)
                 (<[tid := Profiles.mkState (u "waiting_class") tid (Some (Py.strip txt))
                                            None None]>
                    (Profiles.profile_creation_states s1))).
  { subst s2. unfold Profiles.handle_profile_creation_message. cbn [msg_from_user msg_text].
    rewrite H1 at 1. cbn [Profiles.profile_creation_states]. rewrite lookup_insert_eq.
    cbn [Profiles.step Profiles.user_id Profiles.st_class_number Profiles.st_education_level].
    rewrite eqb_refl, Hlen.
    replace (Profiles.accounts s1) with (Profiles.accounts s) by (by rewrite H1).
    rewrite Huser.
    replace (Profiles.name_taken s1 user (Py.strip txt))
      with (Profiles.name_taken s user (Py.strip txt)) by (by rewrite H1).
    rewrite Hfree. cbn [fst]. by rewrite H1. }
  destruct class as [cn el] eqn:Hclass.
  assert (H3 : s3 = Profiles.mkStore (Profiles.accounts s) (Profiles.student_profiles s)
                 (Profiles.next_id s)
                 (<[tid := Profiles.mkState (u "waiting_confirmation") tid
                             (Some (Py.strip txt)) (Some cn) (Some el)]>
                    (Profiles.profile_creation_states s2))).
  { subst s3. unfold Profiles.handle_profile_class_choice. cbn [from_user data].
    rewrite H2 at 1. cbn [Profiles.profile_creation_states]. rewrite lookup_insert_eq.
    cbn [Profiles.step Profiles.user_id Profiles.st_profile_name].
    rewrite eqb_refl. cbn [negb]. fold class. rewrite Hclass. cbn [fst]. by rewrite H2. }
  assert (H4 : done_ = (Profiles.mkStore (Profiles.accounts s)
                          (Profiles.deactivate_others tid (Profiles.next_id s)
                             (<[Profiles.next_id s := new]> (Profiles.student_profiles s)))
                          (Profiles.next_id s + 1)
                          (delete tid (Profiles.profile_creation_states s3)),
                        [Profiles.edit_message_text (Profiles.PROFILE_CREATED_SUCCESS new)
                           Profiles.generate_profiles_menu_keyboard], None)).
  { subst done_. unfold Profiles.confirm_profile_creation. cbn [from_user].
    rewrite H3 at 1. cbn [Profiles.profile_creation_states]. rewrite lookup_insert_eq.
    cbn [Profiles.step Profiles.st_profile_name Profiles.st_class_number
         Profiles.st_education_level].
    rewrite eqb_refl. cbn [negb].
    replace (Profiles.accounts s3) with (Profiles.accounts s) by (by rewrite H3).
    rewrite Huser, Htid.
    replace (Profiles.next_id s3) with (Profiles.next_id s) by (by rewrite H3).
    replace (Profiles.student_profiles s3) with (Profiles.student_profiles s)
      by (by rewrite H3).
    done. }
  assert (Hnew : Profiles.student_profiles done_.1.1 !! Profiles.next_id s = Some new).
  { rewrite H4. cbn [fst Profiles.student_profiles].
    apply lookup_deactivate_others_other; [apply lookup_insert_eq | by right]. }
  rewrite H4. cbn [fst snd Profiles.student_profiles Profiles.next_id].
  rewrite H4 in Hnew. cbn [fst Profiles.student_profiles] in Hnew.
  split_and!; try done.
  - apply (get_active_profile_Some user _ (Profiles.next_id s)); try done.
    + intros k p' Hk. cbn [Profiles.student_profiles Profiles.next_id] in *.
      by destruct (rows_after_create s tid (Py.strip txt) cn el k p' Hkey Hk) as (? & ? & _).
    + intros j q Hj Hoq Haq. cbn [Profiles.student_profiles] in Hj.
      destruct (rows_after_create s tid (Py.strip txt) cn el j q Hkey Hj) as (_ & _ & Honly & _).
      apply Honly; [done | congruence].
  - unfold Profiles.is_user_creating_profile. cbn [Profiles.profile_creation_states].
    rewrite lookup_delete_eq. apply bool_decide_eq_false. by intros [? ?].
  - intros k p Hk Ho.
    apply lookup_deactivate_others_other; [|by left].
    rewrite lookup_insert_ne; [done|]. intros <-. destruct (Hkey _ _ Hk) as [_ ?]. lia.
Qed.

Lemma profile_creation_flow_witness :
  let s1 := (Profiles.create_profile (mkCall (u "123") (u "create_profile"))
               ProfileSample.store).1.1 in
  let s2 := (Profiles.handle_profile_creation_message (mkMsg (u "123") (u " Пётр ")) s1).1.1 in
  let s3 := (Profiles.handle_profile_class_choice
               (mkCall (u "123") (u "profile_class_10_base")) s2).1.1 in
  Profiles.get_active_profile (Sample.student 0)
    (Profiles.confirm_profile_creation true (mkCall (u "123") (u "confirm_profile")) s3).1.1
  = inl (Some (Profiles.mkProfile 3 (u "123") (u "Пётр") (u "Пётр") (u "10")
                                  (Some (u "base")) true true)).
Proof.
  apply (profile_creation_flow (u "123") (Sample.student 0) (u "create_profile") (u " Пётр ")
           (u "profile_class_10_base") (u "confirm_profile") ProfileSample.store
           profile_sample_keyed).
  - vm_compute; reflexivity.
  - vm_compute; reflexivity.
  - vm_compute. lia.
  - vm_compute; reflexivity.
Defined.

